(** * CV analyzer: the candidate-scoring pipeline of [cv_analyzer.py]

    A shallow embedding of the batch scorer ([CVAnalyzer]) and of the reply
    parsing of the HTTP variant ([python-backend/app.py]), followed by the
    properties of the behavioural contract.

    Conventions.
    - Python [str] is [string]; one [ascii] is one character (code points
      below 256), so [String.length] is Python's [len].
    - Python [int] is [Z].
    - A call that may raise returns [res]; code that also touches the
      analyzer object, the cache file or a remote endpoint lives in the
      state-and-exception monad [M].
    - The remote endpoints, [json.loads], the clock and the console input are
      external collaborators: they are the fields of the record [env]. *)

From Stdlib Require Import ZArith List Ascii String Bool Lia Permutation Sorted.
From stdpp Require Import gmap strings.
Import ListNotations.

Local Open Scope string_scope.
Local Open Scope Z_scope.
Local Set Warnings "-register-all".

(** ** Text primitives ([str] methods used by the source) *)

Module Text.

(** [s.find(c)] for a one-character [c]: lowest index, or -1. *)
Fixpoint find_from (c : ascii) (s : string) (i : Z) : Z :=
  match s with
  | EmptyString => -1
  | String a s' => if Ascii.eqb a c then i else find_from c s' (i + 1)
  end.

Definition find (c : ascii) (s : string) : Z := find_from c s 0.

(** [s.rfind(c)]: highest index, or -1. *)
Fixpoint rfind_from (c : ascii) (s : string) (i : Z) : Z :=
  match s with
  | EmptyString => -1
  | String a s' =>
      let r := rfind_from c s' (i + 1) in
      if r =? -1 then (if Ascii.eqb a c then i else -1) else r
  end.

Definition rfind (c : ascii) (s : string) : Z := rfind_from c s 0.

Definition len (s : string) : Z := Z.of_nat (String.length s).

(** Index normalisation of a slice bound: negative bounds count from the
    end, and every bound is clamped to [0, len]. *)
Definition clamp (n i : Z) : Z :=
  if i <? 0 then Z.max 0 (i + n) else Z.min i n.

(** [s[start:stop]]. *)
Definition slice (s : string) (start stop : Z) : string :=
  let lo := clamp (len s) start in
  let hi := clamp (len s) stop in
  substring (Z.to_nat lo) (Z.to_nat (hi - lo)) s.

(** [c.isspace()] on the characters below 256. *)
Definition is_space (c : ascii) : bool :=
  let n := Z.of_nat (nat_of_ascii c) in
  ((9 <=? n) && (n <=? 13)) || ((28 <=? n) && (n <=? 32))
  || (n =? 133) || (n =? 160).

Fixpoint lstrip (s : string) : string :=
  match s with
  | EmptyString => EmptyString
  | String a s' => if is_space a then lstrip s' else s
  end.

Fixpoint rstrip (s : string) : string :=
  match s with
  | EmptyString => EmptyString
  | String a s' =>
      match rstrip s' with
      | EmptyString => if is_space a then EmptyString else String a EmptyString
      | r => String a r
      end
  end.

(** [s.strip()]. *)
Definition strip (s : string) : string := rstrip (lstrip s).

(** [c.lower()] on the characters below 256. *)
Definition lower_char (c : ascii) : ascii :=
  let n := Z.of_nat (nat_of_ascii c) in
  if ((65 <=? n) && (n <=? 90))
     || ((192 <=? n) && (n <=? 222) && negb (n =? 215))
  then ascii_of_nat (Z.to_nat (n + 32)) else c.

Fixpoint lower (s : string) : string :=
  match s with
  | EmptyString => EmptyString
  | String a s' => String (lower_char a) (lower s')
  end.

(** [sep.join(parts)]. *)
Fixpoint join (sep : string) (parts : list string) : string :=
  match parts with
  | [] => ""
  | [p] => p
  | p :: rest => p ++ sep ++ join sep rest
  end.

(** [c * n]: the character repeated. *)
Fixpoint replicate (n : nat) (c : ascii) : string :=
  match n with
  | O => EmptyString
  | S k => String c (replicate k c)
  end.

(** [str(n)] for a natural number. *)
Definition digit (n : nat) : ascii := ascii_of_nat (48 + n).

Fixpoint show_nat_aux (fuel n : nat) (acc : string) : string :=
  match fuel with
  | O => acc
  | S f =>
      let acc' := String (digit (n mod 10)) acc in
      if (n / 10 =? 0)%nat then acc' else show_nat_aux f (n / 10) acc'
  end.

Definition show_nat (n : nat) : string := show_nat_aux (S n) n "".

End Text.

(** ** Python values, exceptions and results *)

(** Instances of [int]. [bool] is a subclass of [int] in Python:
    [isinstance(True, int)] holds and [True == 1]. *)
Inductive pyint : Type :=
| PyInt (z : Z)
| PyBool (b : bool).

Definition int_value (i : pyint) : Z :=
  match i with
  | PyInt z => z
  | PyBool true => 1
  | PyBool false => 0
  end.

(** What [json.loads] returns. A float keeps its lexeme: no arithmetic is
    ever done on it. A dict keeps its entries in insertion order. *)
Inductive json : Type :=
| JNull
| JBool (b : bool)
| JInt (z : Z)
| JFloat (lexeme : string)
| JStr (s : string)
| JList (items : list json)
| JDict (entries : list (string * json)).

(** [d.get(k)]: [None] stands for Python's [None] of a missing key. *)
Fixpoint dict_get (k : string) (d : list (string * json)) : option json :=
  match d with
  | [] => None
  | (k', v) :: d' => if String.eqb k k' then Some v else dict_get k d'
  end.

(** [isinstance(v, int)], with the instance it found. *)
Definition as_int (v : option json) : option pyint :=
  match v with
  | Some (JInt z) => Some (PyInt z)
  | Some (JBool b) => Some (PyBool b)
  | _ => None
  end.

(** [type(v).__name__]. *)
Definition type_name (v : json) : string :=
  match v with
  | JNull => "NoneType"
  | JBool _ => "bool"
  | JInt _ => "int"
  | JFloat _ => "float"
  | JStr _ => "str"
  | JList _ => "list"
  | JDict _ => "dict"
  end.

(** The exception classes the source distinguishes. All of them derive from
    [Exception]; [JSONDecodeError] derives from [ValueError]. *)
Inductive exn_class : Type :=
| ValueError
| JSONDecodeError
| KeyError
| TypeError
| AttributeError
| OtherError.

Record exn : Type := Exn { cls : exn_class; msg : string }.

(** [isinstance(e, ValueError)]. *)
Definition is_ValueError (e : exn) : bool :=
  match cls e with
  | ValueError | JSONDecodeError => true
  | _ => false
  end.

(** Outcome of a call: a value, an exception deriving from [Exception], or
    [SystemExit] raised by [exit(code)], which no [except Exception] catches. *)
Inductive res (A : Type) : Type :=
| Ret (a : A)
| Raise (e : exn)
| Exit (code : Z).

Arguments Ret {A} a.
Arguments Raise {A} e.
Arguments Exit {A} code.

(** What an external collaborator answers: a value or a fault deriving from
    [Exception]. *)
Inductive reply (A : Type) : Type :=
| Ok (a : A)
| Fault (e : exn).

Arguments Ok {A} a.
Arguments Fault {A} e.

Definition of_reply {A : Type} (r : reply A) : res A :=
  match r with
  | Ok a => Ret a
  | Fault e => Raise e
  end.

(** ** AnalysisResult and its validation *)

(** The dict the scorer hands to its caller. Every later read is of the keys
    [score], [summary] and [tags]; the record holds these three entries at
    the classes the validator (or the fallback literal) fixes for them. *)
Record AnalysisResult : Type := mkAnalysis {
  score : pyint;
  summary : string;
  tags : list json
}.

(** The field checks of [validate_json_response], lines 151-170, on the object
    [json.loads] returned. [result.get] on anything but a dict is an
    [AttributeError]. *)
Definition check_fields (result : json) : res AnalysisResult :=
  match result with
  | JDict d =>
      match as_int (dict_get "score" d) with
      | None => Raise (Exn ValueError "Score must be an integer")
      | Some sc =>
          if negb ((1 <=? int_value sc) && (int_value sc <=? 100)) then
            Raise (Exn ValueError "Score must be between 1-100")
          else
            match dict_get "summary" d with
            | Some (JStr sm) =>
                if Text.len (Text.strip sm) <? 400 then
                  Raise (Exn ValueError "Summary must be at least 400 characters")
                else
                  match dict_get "tags" d with
                  | Some (JList tg) =>
                      if (List.length tg <? 3)%nat then
                        Raise (Exn ValueError "Must provide at least 3 tags")
                      else Ret (mkAnalysis sc sm tg)
                  | _ => Raise (Exn ValueError "Tags must be a list")
                  end
            | _ => Raise (Exn ValueError "Summary must be a string")
            end
      end
  | v =>
      Raise (Exn AttributeError
               ("'" ++ type_name v ++ "' object has no attribute 'get'"))
  end.

(** The substring handed to [json.loads], lines 142-148. *)
Definition extract_json (response_text : string) : res string :=
  let start_idx := Text.find "{" response_text in
  let end_idx := Text.rfind "}" response_text + 1 in
  if (start_idx =? -1) || (end_idx =? -1) then
    Raise (Exn ValueError "No JSON found in response")
  else Ret (Text.slice response_text start_idx end_idx).

(** [except (json.JSONDecodeError, ValueError, KeyError) as e:
       raise ValueError(f"Invalid JSON response: {str(e)}")]. *)
Definition rewrap {A : Type} (r : res A) : res A :=
  match r with
  | Raise e =>
      match cls e with
      | JSONDecodeError | ValueError | KeyError =>
          Raise (Exn ValueError ("Invalid JSON response: " ++ msg e))
      | _ => Raise e
      end
  | _ => r
  end.

Definition validate_json_response
    (loads : string -> reply json) (response_text : string) : res AnalysisResult :=
  rewrap
    match extract_json response_text with
    | Ret json_str =>
        match loads json_str with
        | Ok result => check_fields result
        | Fault e => Raise e
        end
    | Raise e => Raise e
    | Exit c => Exit c
    end.

(** The same extraction in the HTTP variant, [analyze_cv_with_openai] of
    [python-backend/app.py], lines 122-130: the body of its inner [try]. *)
Definition service_parse_reply
    (loads : string -> reply json) (result_text : string) : res json :=
  let start_idx := Text.find "{" result_text in
  let end_idx := Text.rfind "}" result_text + 1 in
  if negb (start_idx =? -1) && negb (end_idx =? -1) then
    let json_str := Text.slice result_text start_idx end_idx in
    of_reply (loads json_str)
  else Raise (Exn ValueError "No JSON found in response").

(** ** The analyzer object, the world around it, and the monad *)

(** A [Path] under [uploads/], with what the source asks of it ([stat] is
    taken to succeed on a listed path). *)
Record Path : Type := mkPath {
  name : string;          (* file_path.name *)
  is_file : bool;         (* file_path.is_file() *)
  st_size : Z             (* file_path.stat().st_size *)
}.

(** The request of [client.chat.completions.create]: the prompt is a fixed
    template around the job description. *)
Record chat_request : Type := mkChat {
  chat_file_id : string;
  chat_job_description : string;
  chat_filename : string
}.

(** The external collaborators. Remote endpoints are indexed by the number of
    requests sent before, so the same request may be answered differently; a
    [Fault] of an endpoint stands for any exception raised while the request
    is made or its answer is read. *)
Record env : Type := mkEnv {
  getenv_api_key : option string;      (* os.getenv lookup of OPENAI_API_KEY *)
  job_txt : option string;             (* content of job.txt, when it exists *)
  iterdir : list Path;                 (* uploads_folder.iterdir() *)
  json_loads : string -> reply json;   (* json.loads *)
  files_create : nat -> Path -> reply string;
  chat_create : nat -> chat_request -> reply (option string);
  files_delete : nat -> string -> reply unit;
  cache_writable : bool;               (* open(cache_file, 'w') succeeds *)
  strftime_now : string;               (* datetime.now().strftime(...) *)
  input_line : string;                 (* what the operator types at input() *)
  stdin_at_eof : bool                  (* input() raises EOFError instead *)
}.

(** The console lines that tell the operator which path was taken (cache
    reuse, warnings, errors); plain progress lines are left out. *)
Inductive message : Type :=
| MsgNoApiKey
| MsgJobFileMissing
| MsgJobTooShort
| MsgNoCvFiles
| MsgLimiting (found : nat)
| MsgCacheWarning
| MsgUsingCached (file_name : string)
| MsgUploadFailed (err : string)
| MsgAttemptFailed (attempt : nat) (err : string)
| MsgAllAttemptsFailed
| MsgAnalysisError (err : string)
| MsgError (err : string)
| MsgCouldNotDelete (file_name : string)
| MsgFatal (err : string).

(** A persisted report row, in the column order of the writer. *)
Definition csv_row : Type := list string.

(** What the process does to the outside, in order. *)
Inductive event : Type :=
| EvUpload (file_name : string)
| EvChat (req : chat_request)
| EvDelete (handle : string)
| EvSleep (seconds : Z)
| EvPrint (m : message)
| EvCsv (path : string) (header : csv_row) (rows : list csv_row).

(** What a path of the working directory is. *)
Inductive entry : Type :=
| Absent
| RegularFile
| Directory.

(** The mutable state: the analyzer's cache dict, the cache file on disk
    ([None]: absent or unreadable, which [load_cache] reads as the empty
    dict), the number of remote requests sent, the events so far (oldest
    first), and what the path [uploads] is on disk. *)
Record state : Type := mkProcess {
  uploaded_files_cache : gmap string string;
  cache_file : option (gmap string string);
  requests : nat;
  trace : list event;
  uploads_folder : entry
}.

(** A state in a working directory that holds the folder [uploads]. *)
Definition mkState
    (cache : gmap string string) (disk : option (gmap string string))
    (n : nat) (evs : list event) : state :=
  mkProcess cache disk n evs Directory.

Definition M (A : Type) : Type := state -> res A * state.

Definition ret {A : Type} (a : A) : M A := fun st => (Ret a, st).

Definition raise {A : Type} (e : exn) : M A := fun st => (Raise e, st).

Definition sys_exit {A : Type} (code : Z) : M A := fun st => (Exit code, st).

Definition bind {A B : Type} (m : M A) (k : A -> M B) : M B :=
  fun st =>
    match m st with
    | (Ret a, st') => k a st'
    | (Raise e, st') => (Raise e, st')
    | (Exit c, st') => (Exit c, st')
    end.

Notation "'let*' x ':=' m 'in' k" := (bind m (fun x => k))
  (at level 10, x name, m at level 100, k at level 200).

Notation "m '>>' k" := (bind m (fun _ => k))
  (at level 90, right associativity).

(** [try: m  except Exception as e: h e]. [SystemExit] passes through. *)
Definition try_except {A : Type} (m : M A) (h : exn -> M A) : M A :=
  fun st =>
    match m st with
    | (Raise e, st') => h e st'
    | r => r
    end.

Definition lift {A : Type} (r : res A) : M A := fun st => (r, st).

Definition emit (ev : event) : M unit :=
  fun st =>
    (Ret tt,
     mkProcess (uploaded_files_cache st) (cache_file st) (requests st)
               (trace st ++ [ev]) (uploads_folder st)).

Definition print (m : message) : M unit := emit (EvPrint m).

(** [time.sleep(seconds)]. *)
Definition sleep (seconds : Z) : M unit := emit (EvSleep seconds).

(** One remote request: logged, counted, answered by the collaborator. *)
Definition request {A : Type} (ev : event) (answer : nat -> reply A) : M A :=
  fun st =>
    (of_reply (answer (requests st)),
     mkProcess (uploaded_files_cache st) (cache_file st) (S (requests st))
               (trace st ++ [ev]) (uploads_folder st)).

Definition get_cache : M (gmap string string) :=
  fun st => (Ret (uploaded_files_cache st), st).

Definition set_cache (m : gmap string string) : M unit :=
  fun st =>
    (Ret tt,
     mkProcess m (cache_file st) (requests st) (trace st) (uploads_folder st)).

Definition write_cache_file (m : gmap string string) : M unit :=
  fun st =>
    (Ret tt,
     mkProcess (uploaded_files_cache st) (Some m) (requests st) (trace st)
               (uploads_folder st)).

(** [try: m] with the outcome reified, for handlers that dispatch on the
    exception class. *)
Definition attempt_of {A : Type} (m : M A) : M (A + exn) :=
  fun st =>
    match m st with
    | (Ret a, st') => (Ret (inl a), st')
    | (Raise e, st') => (Ret (inr e), st')
    | (Exit c, st') => (Exit c, st')
    end.

(** ** ResultRecord *)

Inductive Status : Type := success | error.

Definition status_str (s : Status) : string :=
  match s with
  | success => "success"
  | error => "error"
  end.

Definition Status_eqb (a b : Status) : bool :=
  match a, b with
  | success, success | error, error => true
  | _, _ => false
  end.

(** The dict [process_cv] returns, keys in the order of the literal. *)
Record ResultRecord : Type := mkRecord {
  filename : string;
  r_score : pyint;        (* 'score' *)
  r_summary : string;     (* 'summary' *)
  r_tags : string;        (* 'tags': the joined string *)
  status : Status;
  file_id : option string
}.

(** ** Fallback record and tag joining *)

Definition fallback_tags : list json :=
  [JStr "manual_review_needed"; JStr "analysis_incomplete";
   JStr "requires_human_assessment"].

(** An [error_msg] is used when it is truthy: given and not empty. *)
Definition error_part (error_msg : option string) : string :=
  match error_msg with
  | None | Some "" => ""
  | Some m => "Error: " ++ m ++ ". "
  end.

Definition create_fallback_response
    (filename : string) (error_msg : option string) : AnalysisResult :=
  mkAnalysis
    (PyInt 50)
    ("Analysis of " ++ filename ++ " could not be completed automatically. "
     ++ error_part error_msg
     ++ "Manual review recommended to assess candidate's qualifications, experience, and fit for the role. "
     ++ "Please review the CV directly to evaluate technical skills, work history, education, and overall presentation. "
     ++ "Consider scheduling an interview if the candidate meets basic requirements based on manual assessment.")
    fallback_tags.

(** The items of [', '.join(items)]: the first item that is not a [str] is a
    [TypeError]. *)
Fixpoint str_items (i : nat) (items : list json) : res (list string) :=
  match items with
  | [] => Ret []
  | JStr s :: rest =>
      match str_items (S i) rest with
      | Ret l => Ret (s :: l)
      | r => r
      end
  | v :: _ =>
      Raise (Exn TypeError
               ("sequence item " ++ Text.show_nat i
                ++ ": expected str instance, " ++ type_name v ++ " found"))
  end.

Definition join_tags (items : list json) : res string :=
  match str_items 0 items with
  | Ret l => Ret (Text.join ", " l)
  | Raise e => Raise e
  | Exit c => Exit c
  end.

(** ** CVAnalyzer: upload cache and scorer *)

Section Analyzer.

Variable E : env.

(** [save_cache]: an [IOError] on writing is a warning, nothing more. *)
Definition save_cache : M unit :=
  let* cache := get_cache in
  if cache_writable E then write_cache_file cache
  else print MsgCacheWarning.

(** [upload_file_to_openai]: the spec's [get_or_upload]. *)
Definition upload_file_to_openai (file_path : Path) : M (option string) :=
  try_except
    (let file_key := name file_path in
     let* cache := get_cache in
     match cache !! file_key with
     | Some cached =>
         print (MsgUsingCached (name file_path)) >> ret (Some cached)
     | None =>
         let file_size := st_size file_path in
         if file_size >? 512 * 1024 * 1024 then
           raise (Exn ValueError "File too large (max 512MB for OpenAI)")
         else if file_size <? 100 then
           raise (Exn ValueError "File too small (likely empty)")
         else
           let* new_id :=
             request (EvUpload (name file_path))
                     (fun n => files_create E n file_path) in
           let* cache := get_cache in
           set_cache (<[file_key := new_id]> cache) >>
           save_cache >>
           ret (Some new_id)
     end)
    (fun e => print (MsgUploadFailed (msg e)) >> ret None).

Definition max_retries : nat := 2.

(** The [try] body of one iteration of the retry loop: request, emptiness
    check, validation, and the progress line that joins the first tags. *)
Definition round_trip
    (file_id job_description filename : string) : M AnalysisResult :=
  let req := mkChat file_id job_description filename in
  let* content := request (EvChat req) (fun n => chat_create E n req) in
  match content with
  | None | Some "" => raise (Exn ValueError "Empty response from OpenAI")
  | Some text =>
      let* result := lift (validate_json_response (json_loads E) text) in
      let* _ := lift (join_tags (firstn 3 (tags result))) in
      ret result
  end.

(** [for attempt in range(max_retries)] with its two handlers. Running off
    the end of the loop returns Python's [None]. *)
Fixpoint retry_loop
    (file_id job_description filename : string) (range : list nat)
    : M (option AnalysisResult) :=
  match range with
  | [] => ret None
  | attempt :: rest =>
      let* r := attempt_of (round_trip file_id job_description filename) in
      match r with
      | inl result => ret (Some result)
      | inr e =>
          if is_ValueError e then
            print (MsgAttemptFailed (attempt + 1) (msg e)) >>
            if (attempt =? max_retries - 1)%nat then
              print MsgAllAttemptsFailed >>
              ret (Some (create_fallback_response filename None))
            else
              sleep 2 >>
              retry_loop file_id job_description filename rest
          else
            print (MsgAnalysisError (msg e)) >>
            ret (Some (create_fallback_response filename (Some (msg e))))
      end
  end.

Definition analyze_cv_with_openai
    (file_id job_description filename : string) : M (option AnalysisResult) :=
  retry_loop file_id job_description filename (seq 0 max_retries).

(** [not file_id]. *)
Definition falsy (h : option string) : bool :=
  match h with
  | None | Some "" => true
  | _ => false
  end.

Definition process_cv (file_path : Path) (job_description : string)
    : M ResultRecord :=
  let filename := name file_path in
  try_except
    (let* handle := upload_file_to_openai file_path in
     match handle with
     | None | Some "" =>
         raise (Exn ValueError "Failed to upload file to OpenAI")
     | Some fid =>
         let* result := analyze_cv_with_openai fid job_description filename in
         match result with
         | None =>
             raise (Exn TypeError "'NoneType' object is not subscriptable")
         | Some result =>
             let* joined := lift (join_tags (tags result)) in
             ret (mkRecord filename (score result) (summary result) joined
                           success (Some fid))
         end
     end)
    (fun e =>
       let error_msg := msg e in
       print (MsgError error_msg) >>
       let fallback := create_fallback_response filename (Some error_msg) in
       let* joined := lift (join_tags (tags fallback)) in
       ret (mkRecord filename (score fallback) (summary fallback) joined
                     error None)).

End Analyzer.

(** ** Job loader, corpus scanner, reporter, cleanup and the batch run *)

(** [str(score)], as the CSV writer renders the cell. *)
Definition show_Z (z : Z) : string :=
  if z <? 0 then "-" ++ Text.show_nat (Z.to_nat (- z))
  else Text.show_nat (Z.to_nat z).

Definition show_pyint (i : pyint) : string :=
  match i with
  | PyInt z => show_Z z
  | PyBool true => "True"
  | PyBool false => "False"
  end.

(** [file_path.suffix] of pathlib: from the last dot of the name, unless that
    dot is the first or the last character. *)
Definition suffix (p : Path) : string :=
  let i := Text.rfind "." (name p) in
  if (0 <? i) && (i <? Text.len (name p) - 1)
  then Text.slice (name p) i (Text.len (name p))
  else "".

Definition supported_extensions : list string := [".pdf"; ".docx"].

Definition str_in (s : string) (l : list string) : bool :=
  existsb (String.eqb s) l.

(** Order of [Path]s inside one folder: the order of their names. *)
Definition path_leb (a b : Path) : bool :=
  match String.compare (name a) (name b) with
  | Gt => false
  | _ => true
  end.

Fixpoint insert_path (p : Path) (l : list Path) : list Path :=
  match l with
  | [] => [p]
  | q :: l' => if path_leb p q then p :: l else q :: insert_path p l'
  end.

(** [sorted(files)]. *)
Definition sorted_paths (l : list Path) : list Path :=
  fold_right insert_path [] l.

(** The sort key of the report: [lambda x: x['score']]. *)
Definition score_key (r : ResultRecord) : Z := int_value (r_score r).

(** Insertion below every record of a strictly greater key and above the
    first record of a key not greater: equal keys keep their order. *)
Fixpoint insert_desc (r : ResultRecord) (l : list ResultRecord)
    : list ResultRecord :=
  match l with
  | [] => [r]
  | y :: l' =>
      if score_key r <? score_key y then y :: insert_desc r l' else r :: l
  end.

(** [l.sort(key=lambda x: x['score'], reverse=True)]: a stable sort, score
    descending. *)
Definition sort_desc (l : list ResultRecord) : list ResultRecord :=
  fold_right insert_desc [] l.

Definition is_success (r : ResultRecord) : bool := Status_eqb (status r) success.
Definition is_error (r : ResultRecord) : bool := Status_eqb (status r) error.

(** Lines 455-460 of [run_analysis]. *)
Definition rank_results (results : list ResultRecord) : list ResultRecord :=
  let successful := List.filter is_success results in
  let failed := List.filter is_error results in
  sort_desc successful ++ failed.

Definition fieldnames : csv_row :=
  ["filename"; "score"; "summary"; "tags"; "status"].

Definition csv_row_of (r : ResultRecord) : csv_row :=
  [filename r; show_pyint (r_score r); r_summary r; r_tags r;
   status_str (status r)].

(** The credential the source falls back to when the variable is unset (the
    literal is redacted here; only its being non-empty matters). *)
Definition default_api_key : string := "sk-redacted".

Section Batch.

Variable E : env.

(** [self.uploads_folder.mkdir(exist_ok=True)]: a regular file of that name
    is a [FileExistsError]. *)
Definition mkdir_uploads : M unit :=
  fun st =>
    match uploads_folder st with
    | RegularFile =>
        (Raise (Exn OtherError "[Errno 17] File exists: 'uploads'"), st)
    | _ =>
        (Ret tt,
         mkProcess (uploaded_files_cache st) (cache_file st) (requests st)
                   (trace st) Directory)
    end.

(** [self.uploaded_files_cache = self.load_cache()]. *)
Definition load_cache : M unit :=
  fun st =>
    (Ret tt,
     mkProcess (match cache_file st with Some m => m | None => ∅ end)
               (cache_file st) (requests st) (trace st) (uploads_folder st)).

(** [CVAnalyzer.__init__]. *)
Definition init : M unit :=
  let api_key :=
    match getenv_api_key E with
    | Some k => k
    | None => default_api_key
    end in
  if String.eqb api_key "" then print MsgNoApiKey >> sys_exit 1
  else mkdir_uploads >> load_cache.

(** [load_job_description]; reading a job.txt that exists is taken to
    succeed. *)
Definition load_job_description : M string :=
  match job_txt E with
  | None => print MsgJobFileMissing >> sys_exit 1
  | Some content =>
      let job_desc := Text.strip content in
      if Text.len job_desc <? 100 then print MsgJobTooShort >> sys_exit 1
      else ret job_desc
  end.

Definition get_cv_files : list Path :=
  sorted_paths
    (List.filter
       (fun p => is_file p && str_in (Text.lower (suffix p)) supported_extensions)
       (iterdir E)).

(** [save_to_csv]: the report as one event; opening and writing the file
    are taken to succeed. *)
Definition save_to_csv (results : list ResultRecord) : M string :=
  let csv_file := "results_" ++ strftime_now E ++ ".csv" in
  emit (EvCsv csv_file fieldnames (map csv_row_of results)) >>
  ret csv_file.

(** The deletion loop of [cleanup_uploaded_files]. *)
Fixpoint delete_uploaded (results : list ResultRecord) : M unit :=
  match results with
  | [] => ret tt
  | r :: rest =>
      (if negb (falsy (file_id r)) && is_success r then
         let h := match file_id r with Some h => h | None => "" end in
         try_except
           (request (EvDelete h) (fun n => files_delete E n h))
           (fun _ => print (MsgCouldNotDelete (filename r)))
       else ret tt) >>
      delete_uploaded rest
  end.

Definition cleanup_uploaded_files (results : list ResultRecord) : M unit :=
  delete_uploaded results >>
  set_cache ∅ >>
  save_cache E.

(** The processing loop of [run_analysis]: one record per file, and a pause
    after every file but the last. *)
Fixpoint process_all (cv_files : list Path) (job_description : string)
    : M (list ResultRecord) :=
  match cv_files with
  | [] => ret []
  | file_path :: rest =>
      let* result := process_cv E file_path job_description in
      (match rest with
       | [] => ret tt
       | _ => sleep 2
       end) >>
      let* results := process_all rest job_description in
      ret (result :: results)
  end.

(** [input(prompt)]: the line the operator types, or [EOFError] when the
    standard input is at its end. *)
Definition input : M string :=
  if stdin_at_eof E then raise (Exn OtherError "EOF when reading a line")
  else ret (input_line E).

Definition run_analysis : M unit :=
  let* job_description := load_job_description in
  let cv_files := get_cv_files in
  match cv_files with
  | [] => print MsgNoCvFiles
  | _ =>
      let* cv_files :=
        if (200 <? List.length cv_files)%nat then
          print (MsgLimiting (List.length cv_files)) >>
          ret (firstn 200 cv_files)
        else ret cv_files in
      let* results := process_all cv_files job_description in
      let successful := sort_desc (List.filter is_success results) in
      let all_results := rank_results results in
      let* _ := save_to_csv all_results in
      match successful with
      | [] => ret tt
      | _ =>
          let* answer := input in
          let cleanup := Text.strip (Text.lower answer) in
          if String.eqb cleanup "y" then cleanup_uploaded_files all_results
          else ret tt
      end
  end.

(** [main], then [exit(main())]: the exit status of the process. *)
Definition main (st : state) : Z * state :=
  match (init >> run_analysis) st with
  | (Ret _, st') => (0, st')
  | (Raise e, st') => (1, snd (print (MsgFatal (msg e)) st'))
  | (Exit code, st') => (code, st')
  end.

End Batch.

(** The process starts with an empty analyzer, whatever cache file the
    previous runs left ([None]: no readable cache file) and whatever the path
    [uploads] is. *)
Definition start_in (uploads : entry) (disk : option (gmap string string))
    : state :=
  mkProcess ∅ disk 0 [] uploads.

(** The start in a working directory that holds the folder [uploads]. *)
Definition start (disk : option (gmap string string)) : state :=
  start_in Directory disk.

(** ** A reference decoder for [json.loads]

    The properties below hold for whatever [json_loads] the environment
    supplies. This decoder of the JSON grammar gives the concrete runs
    something to execute: objects, arrays, strings with their escapes, numbers,
    [true], [false], [null]. A [\u] escape is decoded when it denotes a
    character below 256; the wording of decode errors, which only reaches the
    console, is not reproduced. *)

Module Decoder.

Definition code (c : ascii) : Z := Z.of_nat (nat_of_ascii c).

Definition is_ws (c : ascii) : bool :=
  (code c =? 32) || (code c =? 9) || (code c =? 10) || (code c =? 13).

Definition is_digit (c : ascii) : bool := (48 <=? code c) && (code c <=? 57).

Fixpoint skip_ws (s : string) : string :=
  match s with
  | String c s' => if is_ws c then skip_ws s' else s
  | EmptyString => EmptyString
  end.

Definition hex_value (c : ascii) : option Z :=
  let n := code c in
  if (48 <=? n) && (n <=? 57) then Some (n - 48)
  else if (97 <=? n) && (n <=? 102) then Some (n - 87)
  else if (65 <=? n) && (n <=? 70) then Some (n - 55)
  else None.

Definition hex4 (a b c d : ascii) : option ascii :=
  match hex_value a, hex_value b, hex_value c, hex_value d with
  | Some x, Some y, Some z, Some w =>
      let n := ((x * 16 + y) * 16 + z) * 16 + w in
      if n <? 256 then Some (ascii_of_nat (Z.to_nat n)) else None
  | _, _, _, _ => None
  end.

Definition simple_escape (c : ascii) : option ascii :=
  let n := code c in
  if n =? 34 then Some c                          (* quote *)
  else if n =? 92 then Some c                     (* backslash *)
  else if n =? 47 then Some c                     (* slash *)
  else if n =? 98 then Some (ascii_of_nat 8)      (* b *)
  else if n =? 102 then Some (ascii_of_nat 12)    (* f *)
  else if n =? 110 then Some (ascii_of_nat 10)    (* n *)
  else if n =? 114 then Some (ascii_of_nat 13)    (* r *)
  else if n =? 116 then Some (ascii_of_nat 9)     (* t *)
  else None.

(** The body of a string, after its opening quote. *)
Fixpoint scan_string (s : string) : option (string * string) :=
  match s with
  | EmptyString => None
  | String c s1 =>
      if code c =? 34 then Some (EmptyString, s1)
      else if code c =? 92 then
        match s1 with
        | String e s2 =>
            if code e =? 117 then
              match s2 with
              | String h1 (String h2 (String h3 (String h4 s3))) =>
                  match hex4 h1 h2 h3 h4, scan_string s3 with
                  | Some ch, Some (body, rest) => Some (String ch body, rest)
                  | _, _ => None
                  end
              | _ => None
              end
            else
              match simple_escape e, scan_string s2 with
              | Some ch, Some (body, rest) => Some (String ch body, rest)
              | _, _ => None
              end
        | EmptyString => None
        end
      else if code c <? 32 then None
      else
        match scan_string s1 with
        | Some (body, rest) => Some (String c body, rest)
        | None => None
        end
  end.

(** A maximal run of digits and what follows it. *)
Fixpoint digits (s : string) : string * string :=
  match s with
  | String c s' =>
      if is_digit c then let (d, r) := digits s' in (String c d, r)
      else (EmptyString, s)
  | EmptyString => (EmptyString, EmptyString)
  end.

Fixpoint nat_of_digits (acc : Z) (d : string) : Z :=
  match d with
  | String c d' => nat_of_digits (acc * 10 + (code c - 48)) d'
  | EmptyString => acc
  end.

(** The integer part: [0], or a non-zero digit and more digits. *)
Definition int_part (s : string) : option (string * string) :=
  match s with
  | String c s' =>
      if code c =? 48 then Some (String c EmptyString, s')
      else if is_digit c then let (d, r) := digits s' in Some (String c d, r)
      else None
  | EmptyString => None
  end.

(** An optional fraction or exponent: its lexeme and what follows. *)
Definition frac_part (s : string) : string * string :=
  match s with
  | String c s' =>
      if code c =? 46 then
        match digits s' with
        | (EmptyString, _) => (EmptyString, s)
        | (d, r) => (String c d, r)
        end
      else (EmptyString, s)
  | EmptyString => (EmptyString, s)
  end.

Definition exp_part (s : string) : string * string :=
  match s with
  | String c s' =>
      if (code c =? 101) || (code c =? 69) then
        let (sign, s'') :=
          match s' with
          | String g r =>
              if (code g =? 43) || (code g =? 45)
              then (String g EmptyString, r) else (EmptyString, s')
          | EmptyString => (EmptyString, s')
          end in
        match digits s'' with
        | (EmptyString, _) => (EmptyString, s)
        | (d, r) => (String c (sign ++ d), r)
        end
      else (EmptyString, s)
  | EmptyString => (EmptyString, s)
  end.

Definition number (s : string) : option (json * string) :=
  let (neg, s0) :=
    match s with
    | String c s' => if code c =? 45 then (true, s') else (false, s)
    | EmptyString => (false, s)
    end in
  match int_part s0 with
  | None => None
  | Some (ip, r0) =>
      let (fp, r1) := frac_part r0 in
      let (ep, r2) := exp_part r1 in
      match fp, ep with
      | EmptyString, EmptyString =>
          let n := nat_of_digits 0 ip in
          Some (JInt (if neg then - n else n), r2)
      | _, _ =>
          Some (JFloat ((if neg then "-" else "") ++ ip ++ fp ++ ep), r2)
      end
  end.

(** [s] starts with [w]: what follows [w]. *)
Fixpoint after (w s : string) : option string :=
  match w, s with
  | EmptyString, _ => Some s
  | String a w', String b s' => if Ascii.eqb a b then after w' s' else None
  | _, EmptyString => None
  end.

(** [d[k] = v]: a key already there keeps its place. *)
Fixpoint dict_set (k : string) (v : json) (d : list (string * json))
    : list (string * json) :=
  match d with
  | [] => [(k, v)]
  | (k', v') :: d' =>
      if String.eqb k k' then (k, v) :: d' else (k', v') :: dict_set k v d'
  end.

Fixpoint value (fuel : nat) (s : string) : option (json * string) :=
  match fuel with
  | O => None
  | S f =>
      match s with
      | EmptyString => None
      | String c s' =>
          if code c =? 34 then
            match scan_string s' with
            | Some (str, r) => Some (JStr str, r)
            | None => None
            end
          else if code c =? 123 then
            match skip_ws s' with
            | String c1 r1 =>
                if code c1 =? 125 then Some (JDict [], r1)
                else
                  match members f (skip_ws s') [] with
                  | Some (d, r) => Some (JDict d, r)
                  | None => None
                  end
            | EmptyString => None
            end
          else if code c =? 91 then
            match skip_ws s' with
            | String c1 r1 =>
                if code c1 =? 93 then Some (JList [], r1)
                else
                  match elements f (skip_ws s') with
                  | Some (l, r) => Some (JList l, r)
                  | None => None
                  end
            | EmptyString => None
            end
          else
            match after "null" s, after "true" s, after "false" s with
            | Some r, _, _ => Some (JNull, r)
            | _, Some r, _ => Some (JBool true, r)
            | _, _, Some r => Some (JBool false, r)
            | None, None, None =>
                match after "NaN" s, after "Infinity" s, after "-Infinity" s with
                | Some r, _, _ => Some (JFloat "NaN", r)
                | _, Some r, _ => Some (JFloat "Infinity", r)
                | _, _, Some r => Some (JFloat "-Infinity", r)
                | None, None, None => number s
                end
            end
      end
  end

with members (fuel : nat) (s : string) (acc : list (string * json))
    : option (list (string * json) * string) :=
  match fuel with
  | O => None
  | S f =>
      match s with
      | String q s1 =>
          if code q =? 34 then
            match scan_string s1 with
            | Some (key, r1) =>
                match skip_ws r1 with
                | String colon r2 =>
                    if code colon =? 58 then
                      match value f (skip_ws r2) with
                      | Some (v, r3) =>
                          match skip_ws r3 with
                          | String d r4 =>
                              if code d =? 44 then
                                members f (skip_ws r4) (dict_set key v acc)
                              else if code d =? 125 then
                                Some (dict_set key v acc, r4)
                              else None
                          | EmptyString => None
                          end
                      | None => None
                      end
                    else None
                | EmptyString => None
                end
            | None => None
            end
          else None
      | EmptyString => None
      end
  end

with elements (fuel : nat) (s : string) : option (list json * string) :=
  match fuel with
  | O => None
  | S f =>
      match value f s with
      | Some (v, r1) =>
          match skip_ws r1 with
          | String d r2 =>
              if code d =? 44 then
                match elements f (skip_ws r2) with
                | Some (l, r) => Some (v :: l, r)
                | None => None
                end
              else if code d =? 93 then Some ([v], r2)
              else None
          | EmptyString => None
          end
      | None => None
      end
  end.

Definition loads (s : string) : reply json :=
  match value (2 * String.length s + 2) (skip_ws s) with
  | Some (v, rest) =>
      match skip_ws rest with
      | EmptyString => Ok v
      | _ => Fault (Exn JSONDecodeError "Extra data")
      end
  | None => Fault (Exn JSONDecodeError "Expecting value")
  end.

End Decoder.


(** ** Sample data for concrete runs *)

Module Sample.

(** The quote character, and a quoted JSON string. *)
Definition dquote : string := String (ascii_of_nat 34) "".

Definition quoted (s : string) : string := dquote ++ s ++ dquote.

(** A model reply: an object with the score written as [sc], a summary of
    [n] characters and the given tag list text. *)
Definition reply_text (sc : string) (n : nat) (tag_list : string) : string :=
  "{" ++ quoted "score" ++ ": " ++ sc ++ ", "
      ++ quoted "summary" ++ ": " ++ quoted (Text.replicate n "x") ++ ", "
      ++ quoted "tags" ++ ": " ++ tag_list ++ "}".

Definition three_tags : string :=
  "[" ++ quoted "python" ++ ", " ++ quoted "senior" ++ ", " ++ quoted "msc" ++ "]".

Definition two_tags : string :=
  "[" ++ quoted "python" ++ ", " ++ quoted "senior" ++ "]".

Definition good_reply : string := reply_text "85" 400 three_tags.

(** The record that reply decodes and validates to. *)
Definition good_record : AnalysisResult :=
  mkAnalysis (PyInt 85) (Text.replicate 400 "x")
             [JStr "python"; JStr "senior"; JStr "msc"].

(** The same reply as [{ body }], and prose around it without braces. *)
Definition good_body : string :=
  substring 1 (String.length good_reply - 2) good_reply.

Definition prose_before : string := "Here is my assessment: ".

Definition prose_after : string := " Let me know if you need more.".

Definition job : string := Text.replicate 120 "j".

Definition cv : Path := mkPath "cv.pdf" true 2048.

(** An environment with a job description, the given folder content and the
    given endpoint behaviour; the operator declines the cleanup. *)
Definition world
    (files : list Path)
    (uploads : nat -> Path -> reply string)
    (chat : nat -> chat_request -> reply (option string)) : env :=
  mkEnv None (Some job) files Decoder.loads uploads chat
        (fun _ _ => Ok tt) true "20250101_120000" "n" false.

Definition upload_ok (n : nat) (p : Path) : reply string := Ok "file-1".

(** The model answers every request with the same text. *)
Definition always (text : string) (n : nat) (r : chat_request)
    : reply (option string) := Ok (Some text).

(** Four records of one run, in processing order: successes scored 90, 55
    and 72, and one failure. *)
Definition scored (file_name : string) (n : Z) : ResultRecord :=
  mkRecord file_name (PyInt n) (Text.replicate 400 "x") "python, senior, msc"
           success (Some ("file-" ++ file_name)).

Definition failed_record : ResultRecord :=
  mkRecord "d.pdf" (PyInt 50)
           (summary (create_fallback_response "d.pdf"
                       (Some "Failed to upload file to OpenAI")))
           "manual_review_needed, analysis_incomplete, requires_human_assessment"
           error None.

(** The model answers the request numbered [k] with [good_reply] and every
    other request with prose. *)
Definition good_at (k : nat) (n : nat) (r : chat_request)
    : reply (option string) :=
  if (n =? k)%nat then Ok (Some good_reply)
  else Ok (Some "I cannot read this file.").

(** A world where the model never answers with JSON. *)
Definition mute : env :=
  world [cv] upload_ok (always "I cannot read this file.").

(** A folder without a resume: a text file and a sub-folder named like one. *)
Definition no_resumes : env :=
  world [mkPath "notes.txt" true 500; mkPath "old.pdf" false 4096]
        upload_ok (always good_reply).

(** The endpoint is unreachable. *)
Definition unreachable (n : nat) (r : chat_request) : reply (option string) :=
  Fault (Exn OtherError "Connection error.").

End Sample.

(** ** Vocabulary of the properties *)

(** What the field checks accept, entry by entry. The first disjunct for the
    score is an integer in range; the second is the boolean [true], which
    passes [isinstance(_, int)] and compares as 1. *)
Definition acceptable (d : list (string * json)) (a : AnalysisResult) : Prop :=
  ((exists z, dict_get "score" d = Some (JInt z) /\ 1 <= z <= 100
              /\ score a = PyInt z)
   \/ (dict_get "score" d = Some (JBool true) /\ score a = PyBool true)) /\
  (dict_get "summary" d = Some (JStr (summary a))
   /\ 400 <= Text.len (Text.strip (summary a))) /\
  (dict_get "tags" d = Some (JList (tags a)) /\ (3 <= List.length (tags a))%nat).

(** What one round trip makes of the endpoint's answer: the [try] body of the
    retry loop without its bookkeeping. *)
Definition attempt_outcome (E : env) (answer : reply (option string))
    : res AnalysisResult :=
  match answer with
  | Fault e => Raise e
  | Ok None | Ok (Some "") => Raise (Exn ValueError "Empty response from OpenAI")
  | Ok (Some text) =>
      match validate_json_response (json_loads E) text with
      | Ret result =>
          match join_tags (firstn 3 (tags result)) with
          | Ret _ => Ret result
          | Raise e => Raise e
          | Exit c => Exit c
          end
      | Raise e => Raise e
      | Exit c => Exit c
      end
  end.

(** The state after one more remote request. *)
Definition sent (ev : event) (st : state) : state :=
  mkProcess (uploaded_files_cache st) (cache_file st) (S (requests st))
            (trace st ++ [ev]) (uploads_folder st).

(** The state after more console lines and pauses. *)
Definition logged (evs : list event) (st : state) : state :=
  mkProcess (uploaded_files_cache st) (cache_file st) (requests st)
            (trace st ++ evs) (uploads_folder st).

(** The state after a successful upload: the handle is in the cache, and
    [save_cache] has rewritten the cache file, or warned. *)
Definition stored (E : env) (fp : Path) (h : string) (st : state) : state :=
  let cache := <[name fp := h]> (uploaded_files_cache st) in
  mkProcess cache
            (if cache_writable E then Some cache else cache_file st)
            (S (requests st))
            (trace st ++ EvUpload (name fp)
               :: (if cache_writable E then [] else [EvPrint MsgCacheWarning]))
            (uploads_folder st).

(** Scores never increase from one row to any later row. *)
Definition descending (l : list ResultRecord) : Prop :=
  StronglySorted (fun a b => score_key b <= score_key a) l.

(** The analyzer after [__init__]: the cache is what the cache file held. *)
Definition loaded (disk : option (gmap string string)) : state :=
  mkState (match disk with Some m => m | None => ∅ end) disk 0 [].

(** ** The console summary of a run

    The score bands that lines 472-474 of [run_analysis] count among the
    ranked successes. *)

Definition high_scores (successful : list ResultRecord) : list ResultRecord :=
  List.filter (fun r => 70 <=? score_key r) successful.

Definition medium_scores (successful : list ResultRecord) : list ResultRecord :=
  List.filter (fun r => (50 <=? score_key r) && (score_key r <? 70)) successful.

Definition low_scores (successful : list ResultRecord) : list ResultRecord :=
  List.filter (fun r => score_key r <? 50) successful.

(** ** The HTTP variant: [python-backend/app.py]

    One request, one analysis, no cache and no retry. A failure is an
    [HTTPException] with its status code and detail. The libraries it calls
    (base64, PyPDF2, python-docx, the chat endpoint, the response model of
    pydantic) are the fields of [Service.collab]. *)

Module Service.

Inductive http (A : Type) : Type :=
| Respond (a : A)
| HTTPException (status_code : Z) (detail : string).

Arguments Respond {A} a.
Arguments HTTPException {A} status_code detail.

(** [class CVAnalysisRequest]. *)
Record CVAnalysisRequest : Type := mkRequest {
  file_data : string;
  filename : string;
  file_type : string;
  job_description : string;
  openai_api_key : string
}.

(** [class CVAnalysisResponse], with the values handed to its constructor. *)
Record CVAnalysisResponse : Type := mkResponse {
  extracted_text : string;
  score : json;
  summary : json;
  tags : json
}.

Record collab : Type := mkCollab {
  b64decode : string -> reply string;
  pdf_pages : string -> reply (list string);        (* extract_text of each page *)
  docx_paragraphs : string -> reply (list string);  (* text of each paragraph *)
  loads : string -> reply json;
  chat : string -> string -> string -> reply (option string);
  response_model : CVAnalysisResponse -> reply CVAnalysisResponse
}.

Definition newline : string := String (ascii_of_nat 10) "".

Definition dquote : string := String (ascii_of_nat 34) "".

(** [text += part + "\n"] over the parts, then [text.strip()]. *)
Definition joined_text (parts : list string) : string :=
  Text.strip (fold_left (fun text part => text ++ part ++ newline) parts "").

Definition extract_text_from_pdf (C : collab) (data : string) : http string :=
  match pdf_pages C data with
  | Ok pages => Respond (joined_text pages)
  | Fault e => HTTPException 400 ("Failed to extract text from PDF: " ++ msg e)
  end.

Definition extract_text_from_docx (C : collab) (data : string) : http string :=
  match docx_paragraphs C data with
  | Ok paragraphs => Respond (joined_text paragraphs)
  | Fault e => HTTPException 400 ("Failed to extract text from DOCX: " ++ msg e)
  end.

(** The dict built when no JSON could be parsed, lines 134-138. *)
Definition unparsed (result_text : string) : list (string * json) :=
  [("score", JInt 50);
   ("summary",
    JStr (if Text.len result_text >? 800 then Text.slice result_text 0 800
          else result_text));
   ("tags", JList [JStr "general"; JStr "needs_review"])].

(** Lines 121-138: the parsed object, or the dict above when the inner
    [except (json.JSONDecodeError, ValueError)] catches. *)
Definition parse_or_default (C : collab) (result_text : string) : reply json :=
  let start_idx := Text.find "{" result_text in
  let end_idx := Text.rfind "}" result_text + 1 in
  if negb (start_idx =? -1) && negb (end_idx =? -1) then
    let json_str := Text.slice result_text start_idx end_idx in
    match loads C json_str with
    | Ok result => Ok result
    | Fault e =>
        if is_ValueError e then Ok (JDict (unparsed result_text)) else Fault e
    end
  else Ok (JDict (unparsed result_text)).

(** [prefix + (result.get("summary", ""))[:400]]: only a [str] can be sliced
    and appended. The wording for a dict is CPython's up to 3.11. *)
Definition prefixed_summary (prefix : string) (v : option json) : reply string :=
  match v with
  | None => Ok (prefix ++ Text.slice "" 0 400)
  | Some (JStr s) => Ok (prefix ++ Text.slice s 0 400)
  | Some (JList _) =>
      Fault (Exn TypeError
               ("can only concatenate str (not " ++ dquote ++ "list" ++ dquote
                ++ ") to str"))
  | Some (JDict _) => Fault (Exn TypeError "unhashable type: 'slice'")
  | Some v' =>
      Fault (Exn TypeError ("'" ++ type_name v' ++ "' object is not subscriptable"))
  end.

(** "Validate and clean the result", lines 140-150, on the dict in place. *)

(** Lines 141-142. The first component is the score the dict holds
    afterwards, the one the f-string of line 145 prints. *)
Definition repair_score (d : list (string * json))
    : pyint * list (string * json) :=
  match as_int (dict_get "score" d) with
  | Some i =>
      if (1 <=? int_value i) && (int_value i <=? 100) then (i, d)
      else (PyInt 50, Decoder.dict_set "score" (JInt 50) d)
  | None => (PyInt 50, Decoder.dict_set "score" (JInt 50) d)
  end.

(** Lines 144-145. *)
Definition repair_summary (sc : pyint) (d : list (string * json))
    : reply (list (string * json)) :=
  let long_enough :=
    match dict_get "summary" d with
    | Some (JStr s) => negb (Text.len s <? 100)
    | _ => false
    end in
  if long_enough then Ok d
  else
    match prefixed_summary
            ("Analysis completed. Score: " ++ show_pyint sc ++ "/100. ")
            (dict_get "summary" d) with
    | Ok s => Ok (Decoder.dict_set "summary" (JStr s) d)
    | Fault e => Fault e
    end.

(** Lines 147-148. *)
Definition repair_tags (d : list (string * json)) : list (string * json) :=
  match dict_get "tags" d with
  | Some (JList _) => d
  | _ => Decoder.dict_set "tags" (JList [JStr "general"]) d
  end.

Definition clean (result : json) : reply (list (string * json)) :=
  match result with
  | JDict d =>
      let (sc, d1) := repair_score d in
      match repair_summary sc d1 with
      | Ok d2 => Ok (repair_tags d2)
      | Fault e => Fault e
      end
  | v =>
      Fault (Exn AttributeError
               ("'" ++ type_name v ++ "' object has no attribute 'get'"))
  end.

(** [analyze_cv_with_openai] of the service: every exception becomes
    [HTTPException(500)]. *)
Definition analyze_cv_with_openai
    (C : collab) (cv_text job_description api_key : string)
    : http (list (string * json)) :=
  let body :=
    match chat C cv_text job_description api_key with
    | Fault e => Fault e
    | Ok None =>
        Fault (Exn AttributeError "'NoneType' object has no attribute 'strip'")
    | Ok (Some content) =>
        let result_text := Text.strip content in
        match parse_or_default C result_text with
        | Ok result => clean result
        | Fault e => Fault e
        end
    end in
  match body with
  | Ok result => Respond result
  | Fault e => HTTPException 500 ("AI analysis failed: " ++ msg e)
  end.

Definition docx_types : list string :=
  ["application/vnd.openxmlformats-officedocument.wordprocessingml.document";
   "application/msword"].

(** [result[key]] in the endpoint: a missing key is a [KeyError], which the
    last handler turns into a 500. *)
Definition item (key : string) (d : list (string * json)) : http json :=
  match dict_get key d with
  | Some v => Respond v
  | None => HTTPException 500 ("Analysis failed: '" ++ key ++ "'")
  end.

(** Lines 173-179 of the endpoint: the extractor is chosen by the MIME type
    in lower case. *)
Definition extract (C : collab) (request : CVAnalysisRequest) (data : string)
    : http string :=
  let kind := Text.lower (file_type request) in
  if String.eqb kind "application/pdf" then extract_text_from_pdf C data
  else if str_in kind docx_types then extract_text_from_docx C data
  else HTTPException 400 ("Unsupported file type: " ++ file_type request).

(** Lines 187-194 of the endpoint: the three reads of the result and the
    response model; whatever is raised here reaches the last handler. *)
Definition respond
    (C : collab) (text : string) (analysis_result : list (string * json))
    : http CVAnalysisResponse :=
  match item "score" analysis_result,
        item "summary" analysis_result,
        item "tags" analysis_result with
  | Respond sc, Respond sm, Respond tg =>
      match response_model C (mkResponse text sc sm tg) with
      | Ok response => Respond response
      | Fault e => HTTPException 500 ("Analysis failed: " ++ msg e)
      end
  | HTTPException code detail, _, _ => HTTPException code detail
  | _, HTTPException code detail, _ => HTTPException code detail
  | _, _, HTTPException code detail => HTTPException code detail
  end.

(** The endpoint [POST /analyze-cv]. *)
Definition analyze_cv (C : collab) (request : CVAnalysisRequest)
    : http CVAnalysisResponse :=
  match b64decode C (file_data request) with
  | Fault e => HTTPException 400 ("Invalid base64 file data: " ++ msg e)
  | Ok data =>
      match extract C request data with
      | HTTPException code detail => HTTPException code detail
      | Respond text =>
          if String.eqb (Text.strip text) "" then
            HTTPException 400 "No text could be extracted from the file"
          else
            match analyze_cv_with_openai C text (job_description request)
                                         (openai_api_key request) with
            | HTTPException code detail => HTTPException code detail
            | Respond analysis_result => respond C text analysis_result
            end
      end
  end.

End Service.

(** ** The setup scripts: [setup.py] and [setup_cv_analyzer.py]

    The working directory as the scripts see it: regular files with their
    content, and directories. *)

Module Setup.

Record tree : Type := mkTree {
  files : gmap string string;
  dirs : gset string
}.

(** [Path(p).exists()]. *)
Definition path_exists (p : string) (w : tree) : bool :=
  bool_decide (is_Some (files w !! p)) || bool_decide (p ∈ dirs w).

(** [Path(p).mkdir(exist_ok=True)]: a regular file of that name is a
    [FileExistsError]. *)
Definition mkdir_exist_ok (p : string) (w : tree) : reply tree :=
  if bool_decide (p ∈ dirs w) then Ok w
  else if bool_decide (is_Some (files w !! p)) then
    Fault (Exn OtherError ("[Errno 17] File exists: '" ++ p ++ "'"))
  else Ok (mkTree (files w) ({[p]} ∪ dirs w)).

(** [with open(p, 'w') as f: f.write(text)]. *)
Definition write_text (p text : string) (w : tree) : tree :=
  mkTree (<[p := text]> (files w)) (dirs w).

Definition newline : string := String (ascii_of_nat 10) "".

(** The example job description, the same literal in both scripts. *)
Definition example_job : string :=
  "Senior Software Engineer - Full Stack Development

We are seeking a highly skilled Senior Software Engineer to join our dynamic development team. The ideal candidate will have extensive experience in full-stack web development and a passion for creating scalable, high-performance applications.

Key Responsibilities:
- Design and develop robust web applications using modern frameworks
- Collaborate with cross-functional teams to define and implement new features
- Write clean, maintainable, and well-documented code
- Participate in code reviews and mentor junior developers
- Optimize applications for maximum speed and scalability
- Stay up-to-date with emerging technologies and industry trends

Required Qualifications:
- Bachelor's degree in Computer Science or related field
- 5+ years of experience in software development
- Proficiency in JavaScript, Python, or Java
- Experience with React, Angular, or Vue.js
- Strong knowledge of databases (SQL and NoSQL)
- Experience with cloud platforms (AWS, Azure, or GCP)
- Familiarity with DevOps practices and CI/CD pipelines
- Excellent problem-solving and communication skills

Preferred Qualifications:
- Master's degree in Computer Science
- Experience with microservices architecture
- Knowledge of containerization (Docker, Kubernetes)
- Experience with agile development methodologies
- Open source contributions

We offer competitive compensation, comprehensive benefits, and opportunities for professional growth in a collaborative environment.".

(** [setup()] of [setup.py]. *)
Definition setup (w : tree) : reply tree :=
  match mkdir_exist_ok "uploads" w with
  | Fault e => Fault e
  | Ok w1 =>
      let w2 :=
        if path_exists "job.txt" w1 then w1
        else write_text "job.txt" example_job w1 in
      let w3 :=
        if path_exists ".env" w2 then w2
        else write_text ".env"
               ("# Add your OpenAI API key here" ++ newline
                ++ "OPENAI_API_KEY=your_api_key_here" ++ newline) w2 in
      Ok w3
  end.

(** [setup_cv_analyzer()] of [setup_cv_analyzer.py]: it writes
    [.env.example] and only looks at [.env]. *)
Definition setup_cv_analyzer (w : tree) : reply tree :=
  match mkdir_exist_ok "uploads" w with
  | Fault e => Fault e
  | Ok w1 =>
      let w2 :=
        if path_exists "job.txt" w1 then w1
        else write_text "job.txt" example_job w1 in
      let w3 :=
        if path_exists ".env.example" w2 then w2
        else write_text ".env.example"
               ("# OpenAI API Key" ++ newline
                ++ "# Get your API key from: https://platform.openai.com/api-keys"
                ++ newline
                ++ "OPENAI_API_KEY=your_openai_api_key_here" ++ newline) w2 in
      Ok w3
  end.

End Setup.

(** ** Vocabulary of the further properties *)

(** The events of processing one file: requests to the upload and chat
    endpoints, console lines, and pauses of 2 seconds. *)
Definition per_file_event (ev : event) : Prop :=
  match ev with
  | EvUpload _ | EvChat _ | EvPrint _ => True
  | EvSleep seconds => seconds = 2
  | EvDelete _ | EvCsv _ _ _ => False
  end.

(** The events of the cleanup: deletion requests and console lines. *)
Definition cleanup_event (ev : event) : Prop :=
  match ev with
  | EvDelete _ | EvPrint _ => True
  | _ => False
  end.

(** Whatever the start state, the computation only appends events, all of
    them of the kind [P]. *)
Definition emits {A : Type} (P : event -> Prop) (m : M A) : Prop :=
  forall st, exists evs,
      trace (snd (m st)) = (trace st ++ evs)%list /\ Forall P evs.

Definition is_delete (ev : event) : bool :=
  match ev with
  | EvDelete _ => true
  | _ => false
  end.

(** The handles [cleanup_uploaded_files] asks the endpoint to delete: those of
    the success records that have one, in report order. *)
Definition deletable (results : list ResultRecord) : list string :=
  flat_map
    (fun r =>
       match file_id r with
       | Some h => if negb (falsy (Some h)) && is_success r then [h] else []
       | None => []
       end)
    results.

(** The row of a file whose processing raised: the fallback payload with the
    message of the fault, status [error], no handle. *)
Definition fallback_row (file_name msg : string) : ResultRecord :=
  mkRecord file_name (PyInt 50)
           (summary (create_fallback_response file_name (Some msg)))
           "manual_review_needed, analysis_incomplete, requires_human_assessment"
           error None.

(** The operator's answer to the cleanup question, as the source reads it. *)
Definition confirmed (E : env) : bool :=
  String.eqb (Text.strip (Text.lower (input_line E))) "y".

(** ** Sample data for the further properties *)

Module Cases.

(** A file below the size bound, and a world that holds it. *)
Definition tiny : Path := mkPath "tiny.pdf" true 10.

Definition tiny_world : env :=
  Sample.world [tiny] Sample.upload_ok (Sample.always Sample.good_reply).

(** A reply that passes the validator with a fourth tag that is a number. *)
Definition number_as_fourth_tag : string :=
  Sample.reply_text "85" 400
    ("[" ++ Sample.quoted "python" ++ ", " ++ Sample.quoted "senior" ++ ", "
         ++ Sample.quoted "msc" ++ ", 4]").

(** A reply that passes the validator with numbers for tags. *)
Definition numbers_as_tags : string :=
  Sample.reply_text "85" 400 "[1, 2, 3]".

Definition world_of (text : string) : env :=
  Sample.world [Sample.cv] Sample.upload_ok (Sample.always text).

(** A world with one resume and a model that answers well; the operator
    declines the cleanup. *)
Definition one_cv : env :=
  Sample.world [Sample.cv] Sample.upload_ok (Sample.always Sample.good_reply).

(** The same world run unattended: the standard input is at its end. *)
Definition unattended : env :=
  mkEnv None (Some Sample.job) [Sample.cv] Decoder.loads Sample.upload_ok
        (Sample.always Sample.good_reply) (fun _ _ => Ok tt) true
        "20250101_120000" "n" true.


(** The state of the analyzer once [cv.pdf] is uploaded and cached. *)
Definition cached : state :=
  mkState (<["cv.pdf" := "file-1"]> ∅) (Some (<["cv.pdf" := "file-1"]> ∅)) 1
          [EvUpload "cv.pdf"].

(** A backend whose libraries work: the document has two blocks of text and
    the model answers with [content]. *)
Definition backend (content : reply (option string)) : Service.collab :=
  Service.mkCollab
    (fun data => Ok data)
    (fun _ => Ok ["Jane Doe"; "Python developer"])
    (fun _ => Ok ["Jane Doe"; "Python developer"])
    Decoder.loads
    (fun _ _ _ => content)
    (fun response => Ok response).

(** A request for a PDF; the MIME type is written with capitals. *)
Definition pdf_request : Service.CVAnalysisRequest :=
  Service.mkRequest "JVBERi0x" "cv.pdf" "Application/PDF"
                    "Python developer wanted" "sk-test".

(** The text the backend above extracts. *)
Definition pdf_text : string :=
  "Jane Doe" ++ Service.newline ++ "Python developer".

(** A request for a spreadsheet. *)
Definition csv_request : Service.CVAnalysisRequest :=
  Service.mkRequest "YSxiLGM=" "cv.csv" "text/csv"
                    "Python developer wanted" "sk-test".

(** A reply that holds a score and nothing else, and what the service makes
    of it. *)
Definition score_only : string := "{" ++ Sample.quoted "score" ++ ": 7}".

Definition score_only_cleaned : list (string * json) :=
  [("score", JInt 7);
   ("summary", JStr "Analysis completed. Score: 7/100. ");
   ("tags", JList [JStr "general"])].

(** A reply whose summary is [null]. *)
Definition null_summary : string :=
  "{" ++ Sample.quoted "score" ++ ": 80, "
      ++ Sample.quoted "summary" ++ ": null}".

(** The object of [Sample.good_reply]. *)
Definition good_dict : list (string * json) :=
  [("score", JInt 85);
   ("summary", JStr (Text.replicate 400 "x"));
   ("tags", JList [JStr "python"; JStr "senior"; JStr "msc"])].

(** An empty working directory, and one where the operator has already
    written a job description and a key. *)
Definition empty_dir : Setup.tree := Setup.mkTree ∅ ∅.

Definition used_dir : Setup.tree :=
  Setup.mkTree
    (<["job.txt" := "Accountant"]> (<[".env" := "OPENAI_API_KEY=sk-mine"]> ∅))
    {["uploads"]}.

(** The empty directory after [setup.py], and an analyzer started there. *)
Definition prepared : Setup.tree :=
  match Setup.setup empty_dir with
  | Ok w => w
  | Fault _ => empty_dir
  end.

Definition prepared_world : env :=
  mkEnv None (Setup.files prepared !! "job.txt") [Sample.cv]
        Decoder.loads Sample.upload_ok (Sample.always Sample.good_reply)
        (fun _ _ => Ok tt) true "20250101_120000" "n" false.

(** A backend that decodes a scanned document: its pages hold no text. *)
Definition scanned : Service.collab :=
  Service.mkCollab
    (fun data => Ok data)
    (fun _ => Ok [""; "  "])
    (fun _ => Ok [""; "  "])
    Decoder.loads
    (fun _ _ _ => Ok (Some Sample.good_reply))
    (fun response => Ok response).

End Cases.

(** * Properties *)

(** ** Facts about the text primitives *)

Section TextFacts.

Import Text.

Lemma length_app (a b : string) :
  String.length (a ++ b) = (String.length a + String.length b)%nat.
Proof. induction a as [|c a IH]; simpl; [reflexivity | now rewrite IH]. Qed.

Lemma len_app (a b : string) : len (a ++ b) = len a + len b.
Proof. unfold len. rewrite length_app. lia. Qed.

Lemma len_nonneg (s : string) : 0 <= len s.
Proof. unfold len. lia. Qed.

Lemma len_String (c : ascii) (s : string) : len (String c s) = 1 + len s.
Proof. unfold len. simpl String.length. lia. Qed.

Lemma app_cons (x : ascii) (a b : string) : String x a ++ b = String x (a ++ b).
Proof. reflexivity. Qed.

Lemma app_assoc_str (a b c : string) : (a ++ b) ++ c = a ++ b ++ c.
Proof.
  induction a as [|x a IH]; [reflexivity |].
  rewrite !app_cons. f_equal. exact IH.
Qed.

Lemma app_empty_r (a : string) : a ++ "" = a.
Proof.
  induction a as [|x a IH]; [reflexivity |].
  rewrite app_cons. f_equal. exact IH.
Qed.

(** [find]: either absent, or an index inside the text. *)
Lemma find_from_range (c : ascii) (s : string) (i : Z) :
  find_from c s i = -1 \/ (i <= find_from c s i < i + len s).
Proof.
  revert i. induction s as [|a s IH]; intros i; simpl.
  - now left.
  - rewrite len_String. destruct (Ascii.eqb a c).
    + right. pose proof (len_nonneg s). lia.
    + destruct (IH (i + 1)) as [H | H]; [now left | right; lia].
Qed.

Lemma find_from_app_miss (c : ascii) (pre s : string) (i : Z) :
  0 <= i -> find_from c pre i = -1 ->
  find_from c (pre ++ s) i = find_from c s (i + len pre).
Proof.
  revert i. induction pre as [|a pre IH]; intros i Hi Hm.
  - change ("" ++ s) with s. f_equal. unfold len. simpl. lia.
  - rewrite app_cons. simpl in *. rewrite len_String. destruct (Ascii.eqb a c).
    + lia.
    + rewrite IH by (try lia; assumption). f_equal. lia.
Qed.

Lemma rfind_from_range (c : ascii) (s : string) (i : Z) :
  0 <= i ->
  rfind_from c s i = -1 \/ (i <= rfind_from c s i < i + len s).
Proof.
  revert i. induction s as [|a s IH]; intros i Hi; simpl.
  - now left.
  - rewrite len_String. pose proof (len_nonneg s) as Hs.
    destruct (IH (i + 1)) as [H | H]; [lia | |].
    + rewrite H. simpl. destruct (Ascii.eqb a c); [right; lia | now left].
    + destruct (Z.eqb_spec (rfind_from c s (i + 1)) (-1)); [lia | right; lia].
Qed.

Lemma rfind_from_app (c : ascii) (a b : string) (i : Z) :
  0 <= i ->
  rfind_from c (a ++ b) i =
    if rfind_from c b (i + len a) =? -1 then rfind_from c a i
    else rfind_from c b (i + len a).
Proof.
  revert i. induction a as [|x a IH]; intros i Hi.
  - change ("" ++ b) with b. simpl.
    replace (i + len "") with i by (unfold len; simpl; lia).
    destruct (Z.eqb_spec (rfind_from c b i) (-1)); congruence.
  - rewrite app_cons. simpl. rewrite len_String. rewrite IH by lia.
    replace (i + 1 + len a) with (i + (1 + len a)) by lia.
    set (rb := rfind_from c b (i + (1 + len a))).
    destruct (Z.eqb_spec rb (-1)) as [Hb | Hb].
    + reflexivity.
    + destruct (Z.eqb_spec rb (-1)); [contradiction | reflexivity].
Qed.

Lemma substring_app_mid (pre s post : string) :
  substring (String.length pre) (String.length s) (pre ++ s ++ post) = s.
Proof.
  induction pre as [|a pre IH].
  - change ("" ++ s ++ post) with (s ++ post).
    induction s as [|b s IHs].
    + destruct post; reflexivity.
    + rewrite app_cons. simpl. f_equal. exact IHs.
  - rewrite app_cons. simpl. exact IH.
Qed.

Lemma slice_app_mid (pre s post : string) :
  slice (pre ++ s ++ post) (len pre) (len pre + len s) = s.
Proof.
  unfold slice, clamp. rewrite !len_app.
  pose proof (len_nonneg pre). pose proof (len_nonneg s).
  pose proof (len_nonneg post).
  destruct (Z.ltb_spec (len pre) 0); [lia |].
  destruct (Z.ltb_spec (len pre + len s) 0); [lia |].
  rewrite !Z.min_l by lia.
  replace (Z.to_nat (len pre)) with (String.length pre) by (unfold len; lia).
  replace (Z.to_nat (len pre + len s - len pre)) with (String.length s)
    by (unfold len; lia).
  apply substring_app_mid.
Qed.

(** Stripping never lengthens a text. *)
Lemma lstrip_length (s : string) :
  (String.length (lstrip s) <= String.length s)%nat.
Proof.
  induction s as [|a s IH]; simpl; [lia |].
  destruct (is_space a); simpl; lia.
Qed.

Lemma rstrip_length (s : string) :
  (String.length (rstrip s) <= String.length s)%nat.
Proof.
  induction s as [|a s IH]; simpl; [lia |].
  destruct (rstrip s) eqn:R; simpl in *.
  - destruct (is_space a); simpl; lia.
  - lia.
Qed.

Lemma strip_len_le (s : string) : len (strip s) <= len s.
Proof.
  unfold strip, len.
  pose proof (rstrip_length (lstrip s)). pose proof (lstrip_length s). lia.
Qed.

End TextFacts.

(** ** Extraction of the JSON object from a reply *)

Section Extraction.

Import Text.

Lemma find_from_absent (c : ascii) (s : string) (i j : Z) :
  find_from c s i = -1 -> 0 <= i -> 0 <= j -> find_from c s j = -1.
Proof.
  revert i j. induction s as [|a s IH]; intros i j H Hi Hj; simpl in *.
  - reflexivity.
  - destruct (Ascii.eqb a c); [lia |]. apply (IH (i + 1)); [assumption | lia | lia].
Qed.

Lemma rfind_from_absent (c : ascii) (s : string) (i j : Z) :
  rfind_from c s i = -1 -> 0 <= i -> 0 <= j -> rfind_from c s j = -1.
Proof.
  revert i j. induction s as [|a s IH]; intros i j H Hi Hj; simpl in *.
  - reflexivity.
  - destruct (Z.eqb_spec (rfind_from c s (i + 1)) (-1)) as [E1 | E1].
    + rewrite (IH (i + 1) (j + 1)) by (assumption || lia). simpl.
      destruct (Ascii.eqb a c); [lia | reflexivity].
    + congruence.
Qed.

(** An object text between prose without a brace of the kind searched for is
    exactly what the extraction returns. *)
Lemma extract_json_wrapped (pre body post : string) :
  find "{" pre = -1 -> rfind "}" post = -1 ->
  let J := "{" ++ body ++ "}" in
  find "{" (pre ++ J ++ post) = len pre /\
  rfind "}" (pre ++ J ++ post) + 1 = len pre + len J /\
  extract_json (pre ++ J ++ post) = Ret J.
Proof.
  intros Hpre Hpost J.
  pose proof (len_nonneg pre) as Lp. pose proof (len_nonneg body) as Lb.
  assert (Hf : find "{" (pre ++ J ++ post) = len pre).
  { unfold find. rewrite find_from_app_miss by (first [lia | exact Hpre]).
    reflexivity. }
  assert (LJ : len J = 2 + len body).
  { unfold J. rewrite len_app, len_app. unfold len. simpl. lia. }
  assert (Hr : rfind "}" (pre ++ J ++ post) = len pre + len J - 1).
  { unfold rfind. rewrite rfind_from_app by lia.
    rewrite rfind_from_app by lia.
    rewrite (rfind_from_absent "}" post 0 (0 + len pre + len J))
      by (first [exact Hpost | lia]).
    simpl (-1 =? -1).
    unfold J. rewrite <- app_assoc_str.
    rewrite rfind_from_app by lia.
    rewrite len_app.
    replace (rfind_from "}" "}" (0 + len pre + (len "{" + len body)))
      with (0 + len pre + (len "{" + len body)) by reflexivity.
    assert (Hne : (0 + len pre + (len "{" + len body) =? -1) = false).
    { apply Z.eqb_neq. unfold len at 2. simpl. lia. }
    rewrite !Hne. rewrite !len_app.
    change (len "{") with 1. change (len "}") with 1. lia. }
  split; [exact Hf |]. split; [lia |].
  unfold extract_json. rewrite Hf, Hr.
  destruct (Z.eqb_spec (len pre) (-1)); [lia |].
  destruct (Z.eqb_spec (len pre + len J - 1 + 1) (-1)); [lia |].
  simpl. f_equal.
  replace (len pre + len J - 1 + 1) with (len pre + len J) by lia.
  apply slice_app_mid.
Qed.

Lemma extract_json_bare (body : string) :
  extract_json ("{" ++ body ++ "}") = Ret ("{" ++ body ++ "}").
Proof.
  pose proof (extract_json_wrapped "" body "" eq_refl eq_refl) as H.
  simpl in H. destruct H as (_ & _ & H).
  change ("" ++ ("{" ++ body ++ "}") ++ "") with (("{" ++ body ++ "}") ++ "") in H.
  rewrite app_empty_r in H. exact H.
Qed.

End Extraction.

(** C5 (as stated) fails: prose that itself contains a brace moves the
    extracted span, and the well-formed object inside is no longer what is
    parsed. The bare object is accepted; the same object after the prose
    [Note {draft}: ] is rejected. *)
Lemma prose_with_brace_changes_parse :
  (exists d, Decoder.loads Sample.good_reply = Ok (JDict d)) /\
  (exists a, validate_json_response Decoder.loads Sample.good_reply = Ret a) /\
  (exists e,
      validate_json_response Decoder.loads
        ("Note {draft}: " ++ Sample.good_reply ++ " Regards.") = Raise e) /\
  validate_json_response Decoder.loads
    ("Note {draft}: " ++ Sample.good_reply ++ " Regards.")
  <> validate_json_response Decoder.loads Sample.good_reply.
Proof.
  split; [eexists; vm_compute; reflexivity |].
  split; [eexists; vm_compute; reflexivity |].
  split; [eexists; vm_compute; reflexivity |].
  vm_compute. discriminate.
Qed.

(** C5 (amended): for every object text [J] (an opening brace, a body, a
    closing brace), every prose before it that holds no opening brace and
    every prose after it that holds no closing brace, the reply
    [prose ++ J ++ prose] is parsed exactly as the bare [J], in the batch
    validator and in the HTTP variant alike: in both, what reaches
    [json.loads] is [J] itself. *)
Theorem brace_free_prose_parses_as_bare
    (loads : string -> reply json) (pre body post : string) :
  Text.find "{" pre = -1 ->
  Text.rfind "}" post = -1 ->
  let J := "{" ++ body ++ "}" in
  extract_json (pre ++ J ++ post) = Ret J /\
  validate_json_response loads (pre ++ J ++ post)
    = validate_json_response loads J /\
  validate_json_response loads J
    = rewrap (match loads J with
              | Ok result => check_fields result
              | Fault e => Raise e
              end) /\
  service_parse_reply loads (pre ++ J ++ post) = service_parse_reply loads J /\
  service_parse_reply loads J = of_reply (loads J).
Proof.
  intros Hpre Hpost J.
  destruct (extract_json_wrapped pre body post Hpre Hpost) as (Hf & Hr & Hx).
  destruct (extract_json_wrapped "" body "" eq_refl eq_refl) as (Hf0 & Hr0 & _).
  pose proof (extract_json_bare body) as Hb.
  fold J in Hx, Hb, Hf, Hr, Hf0, Hr0.
  change ("" ++ J ++ "") with (J ++ "") in Hf0, Hr0.
  rewrite app_empty_r in Hf0, Hr0.
  assert (Hbare : service_parse_reply loads J = of_reply (loads J)).
  { unfold service_parse_reply. rewrite Hf0, Hr0.
    change (Text.len "") with 0. simpl (0 + _).
    pose proof (len_nonneg J) as LJ.
    destruct (Z.eqb_spec (Text.len J) (-1)); [lia |]. simpl.
    pose proof (slice_app_mid "" J "") as Hs.
    change ("" ++ J ++ "") with (J ++ "") in Hs. rewrite app_empty_r in Hs.
    change (Text.len "") with 0 in Hs. simpl (0 + _) in Hs.
    now rewrite Hs. }
  split; [exact Hx |].
  split; [unfold validate_json_response; now rewrite Hx, Hb |].
  split; [unfold validate_json_response; now rewrite Hb |].
  split; [| exact Hbare].
  rewrite Hbare. unfold service_parse_reply. rewrite Hf.
  pose proof (len_nonneg pre) as Lp. pose proof (len_nonneg J) as LJ.
  destruct (Z.eqb_spec (Text.len pre) (-1)); [lia |].
  destruct (Z.eqb_spec (Text.rfind "}" (pre ++ J ++ post) + 1) (-1)); [lia |].
  simpl. rewrite Hr, slice_app_mid. reflexivity.
Qed.

Lemma brace_free_prose_parses_as_bare_witness :
  Text.find "{" Sample.prose_before = -1 /\
  Text.rfind "}" Sample.prose_after = -1 /\
  "{" ++ Sample.good_body ++ "}" = Sample.good_reply /\
  validate_json_response Decoder.loads
    (Sample.prose_before ++ ("{" ++ Sample.good_body ++ "}") ++ Sample.prose_after)
  = validate_json_response Decoder.loads ("{" ++ Sample.good_body ++ "}").
Proof.
  split; [reflexivity |]. split; [reflexivity |].
  split; [vm_compute; reflexivity |].
  apply (brace_free_prose_parses_as_bare
           Decoder.loads Sample.prose_before Sample.good_body Sample.prose_after);
    reflexivity.
Defined.

(** ** The validator *)

Lemma check_fields_sound (d : list (string * json)) (a : AnalysisResult) :
  check_fields (JDict d) = Ret a -> acceptable d a.
Proof.
  unfold check_fields, acceptable, as_int.
  destruct (dict_get "score" d) as [[| b | z | | | |] |]; try discriminate.
  - (* a boolean score *)
    destruct b; simpl; [| discriminate].
    destruct (dict_get "summary" d) as [[| | | | sm | |] |]; try discriminate.
    destruct (Z.ltb_spec (Text.len (Text.strip sm)) 400); [discriminate |].
    destruct (dict_get "tags" d) as [[| | | | | tg |] |]; try discriminate.
    destruct (Nat.ltb_spec (List.length tg) 3); [discriminate |].
    intros [= <-]. simpl. split; [right; now split |]. split; split; auto.
  - (* an integer score *)
    simpl.
    destruct (Z.leb_spec 1 z); simpl; [| discriminate].
    destruct (Z.leb_spec z 100); simpl; [| discriminate].
    destruct (dict_get "summary" d) as [[| | | | sm | |] |]; try discriminate.
    destruct (Z.ltb_spec (Text.len (Text.strip sm)) 400); [discriminate |].
    destruct (dict_get "tags" d) as [[| | | | | tg |] |]; try discriminate.
    destruct (Nat.ltb_spec (List.length tg) 3); [discriminate |].
    intros [= <-]. simpl. split; [left; exists z; repeat split; auto |].
    split; split; auto.
Qed.

Lemma check_fields_complete (d : list (string * json)) (a : AnalysisResult) :
  acceptable d a -> check_fields (JDict d) = Ret a.
Proof.
  destruct a as [sc sm tg]. unfold acceptable. simpl.
  intros (Hs & (Hm & Hl) & (Ht & Hn)).
  unfold check_fields. rewrite Hm, Ht.
  assert (Hsc : as_int (dict_get "score" d) = Some sc
                /\ 1 <= int_value sc <= 100).
  { destruct Hs as [(z & -> & Hz & ->) | (-> & ->)]; simpl; split; auto; lia. }
  destruct Hsc as (-> & Hr).
  destruct (Z.leb_spec 1 (int_value sc)); [| lia].
  destruct (Z.leb_spec (int_value sc) 100); [| lia]. simpl.
  destruct (Z.ltb_spec (Text.len (Text.strip sm)) 400); [lia |].
  destruct (Nat.ltb_spec (List.length tg) 3); [lia | reflexivity].
Qed.

(** On a dict the field checks either accept or raise a [ValueError]. *)
Lemma check_fields_dict_outcome (d : list (string * json)) :
  (exists a, check_fields (JDict d) = Ret a) \/
  (exists m, check_fields (JDict d) = Raise (Exn ValueError m)).
Proof.
  unfold check_fields.
  destruct (as_int (dict_get "score" d)) as [sc |]; [| right; eauto].
  destruct (negb _); [right; eauto |].
  destruct (dict_get "summary" d) as [[| | | | sm | |] |];
    try solve [right; eauto].
  destruct (Text.len (Text.strip sm) <? 400); [right; eauto |].
  destruct (dict_get "tags" d) as [[| | | | | tg |] |];
    try solve [right; eauto].
  destruct (List.length tg <? 3)%nat; [right; eauto | left; eauto].
Qed.

(** The validator on a reply whose extracted text decodes to a dict: it
    returns exactly the acceptable records, and anything else is a
    validation fault ([ValueError]). *)
Lemma validate_json_response_spec
    (loads : string -> reply json) (text J : string) (d : list (string * json)) :
  extract_json text = Ret J ->
  loads J = Ok (JDict d) ->
  (forall a, validate_json_response loads text = Ret a <-> acceptable d a) /\
  ((exists a, validate_json_response loads text = Ret a) \/
   (exists m, validate_json_response loads text = Raise (Exn ValueError m))).
Proof.
  intros Hx Hl. unfold validate_json_response. rewrite Hx, Hl.
  split.
  - intros a. split.
    + destruct (check_fields (JDict d)) as [a' | e |] eqn:Hc; simpl.
      * intros [= <-]. now apply check_fields_sound.
      * destruct (cls e); discriminate.
      * discriminate.
    + intros Ha. now rewrite (check_fields_complete d a Ha).
  - destruct (check_fields_dict_outcome d) as [(a & ->) | (m & ->)]; simpl.
    + left; eauto.
    + right; eauto.
Qed.

(** A validation fault of the validator is always a [ValueError]: decode
    errors are rewrapped. *)
Lemma rewrap_ValueError {A : Type} (r : res A) (e : exn) :
  rewrap r = Raise e -> is_ValueError e = true ->
  cls e = ValueError.
Proof.
  destruct r as [a | e' |]; simpl; try discriminate.
  destruct e' as [c m]; destruct c; simpl; intros [= <-]; simpl;
    reflexivity || discriminate.
Qed.

(** ** The scorer *)

Lemma rewrap_no_exit {A : Type} (r : res A) (c : Z) :
  (forall c', r <> Exit c') -> rewrap r <> Exit c.
Proof.
  destruct r as [a | e | c']; simpl; intros H; try discriminate.
  - destruct (cls e); discriminate.
  - now destruct (H c').
Qed.

Lemma check_fields_no_exit (v : json) (c : Z) : check_fields v <> Exit c.
Proof.
  unfold check_fields. destruct v as [| | | | | | d]; try discriminate.
  destruct (as_int (dict_get "score" d)); [| discriminate].
  destruct (negb _); [discriminate |].
  destruct (dict_get "summary" d) as [[| | | | sm | |] |]; try discriminate.
  destruct (Text.len (Text.strip sm) <? 400); [discriminate |].
  destruct (dict_get "tags" d) as [[| | | | | tg |] |]; try discriminate.
  destruct (List.length tg <? 3)%nat; discriminate.
Qed.

Lemma validate_no_exit (loads : string -> reply json) (text : string) (c : Z) :
  validate_json_response loads text <> Exit c.
Proof.
  unfold validate_json_response. apply rewrap_no_exit. intros c'.
  unfold extract_json. destruct (_ || _); [discriminate |].
  destruct (loads _); [apply check_fields_no_exit | discriminate].
Qed.

Lemma str_items_no_exit (items : list json) (i : nat) (c : Z) :
  str_items i items <> Exit c.
Proof.
  revert i. induction items as [| v items IH]; intros i; simpl; [discriminate |].
  destruct v; try discriminate.
  specialize (IH (S i)). destruct (str_items (S i) items); congruence.
Qed.

Lemma join_tags_no_exit (items : list json) (c : Z) : join_tags items <> Exit c.
Proof.
  unfold join_tags. pose proof (str_items_no_exit items 0) as H.
  destruct (str_items 0 items) as [l | e | c']; try discriminate.
  now destruct (H c').
Qed.

Lemma attempt_outcome_no_exit (E : env) (answer : reply (option string)) (c : Z) :
  attempt_outcome E answer <> Exit c.
Proof.
  unfold attempt_outcome. destruct answer as [[[| ch text] |] | e]; try discriminate.
  pose proof (validate_no_exit (json_loads E) (String ch text)) as Hv.
  destruct (validate_json_response _ _) as [r | e | c']; try discriminate.
  - pose proof (join_tags_no_exit (firstn 3 (tags r))) as Hj.
    destruct (join_tags _) as [s | e | c']; try discriminate. now destruct (Hj c').
  - now destruct (Hv c').
Qed.

(** A record the round trip accepts is a record the validator accepted. *)
Lemma attempt_outcome_validated
    (E : env) (answer : reply (option string)) (r : AnalysisResult) :
  attempt_outcome E answer = Ret r ->
  exists text, answer = Ok (Some text)
               /\ validate_json_response (json_loads E) text = Ret r.
Proof.
  unfold attempt_outcome. destruct answer as [[[| ch text] |] | e]; try discriminate.
  destruct (validate_json_response _ _) as [r' | e | c'] eqn:Hv; try discriminate.
  destruct (join_tags _); try discriminate.
  intros [= <-]. eauto.
Qed.

Lemma round_trip_outcome (E : env) (fid job fn : string) (st : state) :
  let req := mkChat fid job fn in
  round_trip E fid job fn st
  = (attempt_outcome E (chat_create E (requests st) req), sent (EvChat req) st).
Proof.
  unfold round_trip, bind, request, attempt_outcome, sent, lift, raise, ret.
  simpl.
  destruct (chat_create E (requests st) (mkChat fid job fn))
    as [[[| ch text] |] | e]; simpl; try reflexivity.
  destruct (validate_json_response _ _) as [r | e | c]; try reflexivity.
  destruct (join_tags _); reflexivity.
Qed.

(** The complete behaviour of the scorer, by the outcome of the first round
    trip and, after a [ValueError], of the second. *)
Lemma analyze_cv_with_openai_cases (E : env) (fid job fn : string) (st : state) :
  let req := mkChat fid job fn in
  let n := requests st in
  let first := attempt_outcome E (chat_create E n req) in
  let second := attempt_outcome E (chat_create E (S n) req) in
  exists a evs k,
    analyze_cv_with_openai E fid job fn st
    = (Ret (Some a),
       mkProcess (uploaded_files_cache st) (cache_file st) (k + n)
                 (trace st ++ evs) (uploads_folder st))
    /\
    match first with
    | Ret r => a = r /\ k = 1%nat /\ evs = [EvChat req]
    | Raise e =>
        if is_ValueError e then
          let again := [EvChat req; EvPrint (MsgAttemptFailed 1 (msg e));
                        EvSleep 2; EvChat req] in
          k = 2%nat /\
          match second with
          | Ret r => a = r /\ evs = again
          | Raise e2 =>
              if is_ValueError e2 then
                a = create_fallback_response fn None /\
                evs = (again ++ [EvPrint (MsgAttemptFailed 2 (msg e2));
                                 EvPrint MsgAllAttemptsFailed])%list
              else
                a = create_fallback_response fn (Some (msg e2)) /\
                evs = (again ++ [EvPrint (MsgAnalysisError (msg e2))])%list
          | Exit _ => False
          end
        else
          a = create_fallback_response fn (Some (msg e)) /\ k = 1%nat /\
          evs = [EvChat req; EvPrint (MsgAnalysisError (msg e))]
    | Exit _ => False
    end.
Proof.
  intros req n first second.
  pose proof (attempt_outcome_no_exit E (chat_create E n req)) as X1.
  pose proof (attempt_outcome_no_exit E (chat_create E (S n) req)) as X2.
  fold first in X1. fold second in X2.
  unfold analyze_cv_with_openai, max_retries. simpl seq. simpl retry_loop.
  unfold bind at 1. unfold attempt_of at 1. rewrite round_trip_outcome.
  fold req. fold n. fold first.
  destruct first as [r | e | c]; [| | now destruct (X1 c)].
  - exists r, [EvChat req], 1%nat. split; [reflexivity | auto].
  - destruct (is_ValueError e) eqn:VE.
    + unfold bind, print, sleep, emit, attempt_of. simpl.
      rewrite round_trip_outcome. simpl. fold req. fold n. fold second.
      destruct second as [r | e2 | c]; [| | now destruct (X2 c)].
      * eexists r, _, 2%nat. split; [| split; [reflexivity | split; reflexivity]].
        unfold ret, sent. simpl. rewrite <- !app_assoc. reflexivity.
      * destruct (is_ValueError e2) eqn:VE2.
        -- eexists _, _, 2%nat. split; [| split; [reflexivity | split; reflexivity]].
           unfold ret, sent. simpl. rewrite <- !app_assoc. reflexivity.
        -- eexists _, _, 2%nat. split; [| split; [reflexivity | split; reflexivity]].
           unfold ret, sent. simpl. rewrite <- !app_assoc. reflexivity.
    + eexists _, _, 1%nat. split; [| split; [reflexivity | split; reflexivity]].
      unfold bind, print, emit, ret, sent. simpl.
      rewrite <- !app_assoc. reflexivity.
Qed.

(** C2: for every environment, state and request, the scorer returns a record
    and never raises; it sends at most two requests, the second exactly when
    the first attempt ends in a [ValueError] (validation fault) and after a
    pause of 2 seconds; what it returns is a record the validator accepted, or the
    fallback record, whose score is 50 and whose tags are
    [manual_review_needed], [analysis_incomplete] and
    [requires_human_assessment]; it returns the fallback when both attempts
    end in a [ValueError] and as soon as an attempt ends in any other fault. *)
Theorem scorer_retries_once_then_falls_back
    (E : env) (fid job fn : string) (st : state) :
  let req := mkChat fid job fn in
  let first := attempt_outcome E (chat_create E (requests st) req) in
  let second := attempt_outcome E (chat_create E (S (requests st)) req) in
  exists a st',
    analyze_cv_with_openai E fid job fn st = (Ret (Some a), st') /\
    (requests st < requests st' <= requests st + 2)%nat /\
    (forall e, first = Raise e -> is_ValueError e = true ->
               requests st' = S (S (requests st))) /\
    ((exists r, first = Ret r)
     \/ (exists e, first = Raise e /\ is_ValueError e = false) ->
     requests st' = S (requests st)) /\
    (exists evs,
        trace st' = (trace st ++ evs)%list /\
        let remote := List.filter
                        (fun ev => match ev with EvPrint _ => false | _ => true end)
                        evs in
        (remote = [EvChat req] \/
         (remote = [EvChat req; EvSleep 2; EvChat req] /\
          exists e, first = Raise e /\ is_ValueError e = true))) /\
    ((exists text, validate_json_response (json_loads E) text = Ret a) \/
     (exists err, a = create_fallback_response fn err)) /\
    (forall r, first = Ret r -> a = r) /\
    (forall e, first = Raise e -> is_ValueError e = false ->
               a = create_fallback_response fn (Some (msg e))) /\
    (forall e r, first = Raise e -> is_ValueError e = true ->
                 second = Ret r -> a = r) /\
    (forall e e2, first = Raise e -> is_ValueError e = true ->
                  second = Raise e2 -> is_ValueError e2 = true ->
                  a = create_fallback_response fn None) /\
    (forall e e2, first = Raise e -> is_ValueError e = true ->
                  second = Raise e2 -> is_ValueError e2 = false ->
                  a = create_fallback_response fn (Some (msg e2))) /\
    (forall err,
        score (create_fallback_response fn err) = PyInt 50 /\
        tags (create_fallback_response fn err)
        = [JStr "manual_review_needed"; JStr "analysis_incomplete";
           JStr "requires_human_assessment"]).
Proof.
  intros req first second.
  destruct (analyze_cv_with_openai_cases E fid job fn st) as (a & evs & k & Hrun & Hc).
  fold req first second in Hc.
  exists a. eexists. split; [exact Hrun |]. simpl.
  assert (Hfb : forall err,
             score (create_fallback_response fn err) = PyInt 50 /\
             tags (create_fallback_response fn err)
             = [JStr "manual_review_needed"; JStr "analysis_incomplete";
                JStr "requires_human_assessment"]) by (intros; now split).
  destruct first as [r | e | c] eqn:H1; [| | contradiction].
  - destruct Hc as (-> & -> & ->).
    split; [lia |]. split; [intros; congruence |]. split; [reflexivity |].
    split; [exists [EvChat req]; split; [reflexivity | simpl; now left] |].
    split.
    { left. apply attempt_outcome_validated in H1.
      destruct H1 as (t & _ & Hv). eauto. }
    repeat split; try (intros; congruence); apply Hfb.
  - destruct (is_ValueError e) eqn:VE.
    + destruct Hc as (-> & Hc).
      split; [lia |]. split; [reflexivity |].
      split.
      { intros [(r & Hr) | (e' & He' & Hve)]; [discriminate |].
        injection He' as <-. congruence. }
      destruct second as [r | e2 | c] eqn:H2; [| | contradiction].
      * destruct Hc as (-> & ->).
        split.
        { eexists. split; [reflexivity |]. simpl. right.
          split; [reflexivity | eauto]. }
        split.
        { left. apply attempt_outcome_validated in H2.
          destruct H2 as (t & _ & Hv). eauto. }
        repeat split; try (intros; congruence); apply Hfb.
      * destruct (is_ValueError e2) eqn:VE2; destruct Hc as (-> & ->).
        -- split.
           { eexists. split; [reflexivity |]. simpl. right.
             split; [reflexivity | eauto]. }
           split; [right; eauto |].
           repeat split; try (intros; congruence); apply Hfb.
        -- split.
           { eexists. split; [reflexivity |]. simpl. right.
             split; [reflexivity | eauto]. }
           split; [right; eauto |].
           repeat split; try (intros; congruence); apply Hfb.
    + destruct Hc as (-> & -> & ->).
      split; [lia |]. split; [intros e' [= <-]; congruence |].
      split; [reflexivity |].
      split; [eexists; split; [reflexivity | simpl; now left] |].
      split; [right; eauto |].
      repeat split; try (intros; congruence); apply Hfb.
Qed.

(** Three runs of the scorer: an unreachable endpoint, two replies without
    JSON, and a valid reply on the second attempt. *)
Example scorer_unreachable_endpoint :
  analyze_cv_with_openai
    (Sample.world [Sample.cv] Sample.upload_ok Sample.unreachable)
    "file-1" Sample.job "cv.pdf" (start None)
  = (Ret (Some (create_fallback_response "cv.pdf" (Some "Connection error."))),
     mkState ∅ None 1
       [EvChat (mkChat "file-1" Sample.job "cv.pdf");
        EvPrint (MsgAnalysisError "Connection error.")]).
Proof. vm_compute; reflexivity. Qed.

Example scorer_two_replies_without_json :
  analyze_cv_with_openai Sample.mute "file-1" Sample.job "cv.pdf" (start None)
  = (Ret (Some (create_fallback_response "cv.pdf" None)),
     mkState ∅ None 2
       [EvChat (mkChat "file-1" Sample.job "cv.pdf");
        EvPrint (MsgAttemptFailed 1
                   "Invalid JSON response: No JSON found in response");
        EvSleep 2;
        EvChat (mkChat "file-1" Sample.job "cv.pdf");
        EvPrint (MsgAttemptFailed 2
                   "Invalid JSON response: No JSON found in response");
        EvPrint MsgAllAttemptsFailed]).
Proof. vm_compute; reflexivity. Qed.

Example scorer_valid_on_second_attempt :
  analyze_cv_with_openai
    (Sample.world [Sample.cv] Sample.upload_ok (Sample.good_at 1))
    "file-1" Sample.job "cv.pdf" (start None)
  = (Ret (Some Sample.good_record),
     mkState ∅ None 2
       [EvChat (mkChat "file-1" Sample.job "cv.pdf");
        EvPrint (MsgAttemptFailed 1
                   "Invalid JSON response: No JSON found in response");
        EvSleep 2;
        EvChat (mkChat "file-1" Sample.job "cv.pdf")]).
Proof. vm_compute; reflexivity. Qed.

(** ** The AnalysisResult invariant *)

Lemma validate_ret_inv
    (loads : string -> reply json) (text : string) (a : AnalysisResult) :
  validate_json_response loads text = Ret a ->
  exists J d, extract_json text = Ret J /\ loads J = Ok (JDict d)
              /\ check_fields (JDict d) = Ret a.
Proof.
  unfold validate_json_response.
  destruct (extract_json text) as [J | e | c]; simpl.
  - destruct (loads J) as [v | e] eqn:HL; simpl.
    + destruct v as [| | | | | | d];
        try (simpl; discriminate).
      destruct (check_fields (JDict d)) as [a' | e | c] eqn:Hc; simpl.
      * intros [= <-]. eauto.
      * destruct (cls e); discriminate.
      * discriminate.
    + destruct (cls e); discriminate.
  - destruct (cls e); discriminate.
  - discriminate.
Qed.

(** A record the validator accepted satisfies the invariant. *)
Lemma validated_invariant
    (loads : string -> reply json) (text : string) (a : AnalysisResult) :
  validate_json_response loads text = Ret a ->
  1 <= int_value (score a) <= 100 /\
  400 <= Text.len (summary a) /\
  (3 <= List.length (tags a))%nat.
Proof.
  intros H. destruct (validate_ret_inv _ _ _ H) as (J & d & _ & _ & Hc).
  apply check_fields_sound in Hc.
  destruct Hc as (Hs & (_ & Hm) & (_ & Ht)).
  split; [| split; [| exact Ht]].
  - destruct Hs as [(z & _ & Hz & ->) | (_ & ->)]; simpl; lia.
  - pose proof (strip_len_le (summary a)). lia.
Qed.

Lemma error_part_length (err : option string) :
  Text.len (error_part err)
  = match err with
    | None | Some "" => 0
    | Some m => 9 + Text.len m
    end.
Proof.
  destruct err as [[| c m] |]; try reflexivity.
  unfold error_part. rewrite !len_app.
  change (Text.len "Error: ") with 7. change (Text.len ". ") with 2. lia.
Qed.

(** The fallback summary is a fixed text of 362 characters around the file
    name and the error part. *)
Lemma fallback_summary_length (fn : string) (err : option string) :
  Text.len (summary (create_fallback_response fn err))
  = 362 + Text.len fn + Text.len (error_part err).
Proof.
  unfold create_fallback_response. simpl summary. rewrite !len_app.
  set (x := Text.len fn). set (y := Text.len (error_part err)).
  vm_compute Text.len. lia.
Qed.

(** Where a record of the scorer comes from. *)
Lemma scorer_result_origin
    (E : env) (fid job fn : string) (st st' : state) (a : AnalysisResult) :
  analyze_cv_with_openai E fid job fn st = (Ret (Some a), st') ->
  (exists text, validate_json_response (json_loads E) text = Ret a) \/
  (exists err, a = create_fallback_response fn err).
Proof.
  intros Hrun.
  destruct (analyze_cv_with_openai_cases E fid job fn st)
    as (a0 & evs & k & Hrun0 & Hc).
  rewrite Hrun in Hrun0. injection Hrun0 as -> _.
  destruct (attempt_outcome E (chat_create E (requests st) _))
    as [r | e | c] eqn:H1; [| | contradiction].
  - destruct Hc as (-> & _). left.
    apply attempt_outcome_validated in H1. destruct H1 as (t & _ & Hv). eauto.
  - destruct (is_ValueError e).
    + destruct Hc as (_ & Hc).
      destruct (attempt_outcome E (chat_create E (S (requests st)) _))
        as [r | e2 | c] eqn:H2; [| | contradiction].
      * destruct Hc as (-> & _). left.
        apply attempt_outcome_validated in H2. destruct H2 as (t & _ & Hv). eauto.
      * destruct (is_ValueError e2); destruct Hc as (-> & _); right; eauto.
    + destruct Hc as (-> & _). right; eauto.
Qed.

(** C4 (as stated) fails: when the model never answers with JSON the scorer
    returns the fallback record for [cv.pdf], whose summary has 368
    characters, fewer than the 400 of the invariant. *)
Lemma fallback_summary_is_short :
  exists a st',
    analyze_cv_with_openai Sample.mute "file-1" Sample.job "cv.pdf" (start None)
    = (Ret (Some a), st') /\
    a = create_fallback_response "cv.pdf" None /\
    Text.len (summary a) = 368 /\
    ~ (1 <= int_value (score a) <= 100 /\
       400 <= Text.len (summary a) /\
       (3 <= List.length (tags a))%nat).
Proof.
  eexists. eexists. split; [vm_compute; reflexivity |].
  split; [reflexivity |]. split; [reflexivity |].
  intros (_ & H & _). vm_compute in H. now apply H.
Qed.

(** C4 (amended): every AnalysisResult the scorer returns has
    1 <= score <= 100 and at least 3 tags. A validated model reply also has a
    summary of at least 400 characters. The fallback record has a summary of
    362 characters plus the file name plus the error part ([Error: msg. ],
    present when a non-empty message is given), so it reaches 400 characters
    exactly when file name and error part together have at least 38. *)
Theorem scorer_result_invariant
    (E : env) (fid job fn : string) (st st' : state) (a : AnalysisResult) :
  analyze_cv_with_openai E fid job fn st = (Ret (Some a), st') ->
  1 <= int_value (score a) <= 100 /\
  (3 <= List.length (tags a))%nat /\
  (((exists text, validate_json_response (json_loads E) text = Ret a)
    /\ 400 <= Text.len (summary a))
   \/
   (exists err,
       a = create_fallback_response fn err /\
       Text.len (summary a) = 362 + Text.len fn + Text.len (error_part err) /\
       (400 <= Text.len (summary a)
        <-> 38 <= Text.len fn + Text.len (error_part err)))).
Proof.
  intros Hrun.
  destruct (scorer_result_origin _ _ _ _ _ _ _ Hrun) as [(text & Hv) | (err & ->)].
  - destruct (validated_invariant _ _ _ Hv) as (Hs & Hm & Ht).
    split; [exact Hs |]. split; [exact Ht |]. left. split; [eauto | exact Hm].
  - split; [simpl; lia |]. split; [simpl; lia |]. right. exists err.
    split; [reflexivity |].
    pose proof (fallback_summary_length fn err) as HL.
    split; [exact HL | lia].
Qed.

Lemma scorer_result_invariant_witness :
  analyze_cv_with_openai
    (Sample.world [Sample.cv] Sample.upload_ok (Sample.always Sample.good_reply))
    "file-1" Sample.job "cv.pdf" (start None)
  = (Ret (Some Sample.good_record),
     mkState ∅ None 1 [EvChat (mkChat "file-1" Sample.job "cv.pdf")]) /\
  1 <= int_value (score Sample.good_record) <= 100 /\
  (3 <= List.length (tags Sample.good_record))%nat.
Proof.
  assert (Hrun :
    analyze_cv_with_openai
      (Sample.world [Sample.cv] Sample.upload_ok (Sample.always Sample.good_reply))
      "file-1" Sample.job "cv.pdf" (start None)
    = (Ret (Some Sample.good_record),
       mkState ∅ None 1 [EvChat (mkChat "file-1" Sample.job "cv.pdf")]))
    by (vm_compute; reflexivity).
  split; [exact Hrun |].
  destruct (scorer_result_invariant _ _ _ _ _ _ _ Hrun) as (Hs & Ht & _).
  split; [exact Hs | exact Ht].
Defined.

(** ** From the scorer to the ResultRecord *)

(** [process_cv] once the handle is there and the scorer has returned. *)
Lemma process_cv_after_scoring
    (E : env) (fp : Path) (job h : string) (st st1 st2 : state)
    (a : AnalysisResult) (joined : string) :
  upload_file_to_openai E fp st = (Ret (Some h), st1) ->
  h <> "" ->
  analyze_cv_with_openai E h job (name fp) st1 = (Ret (Some a), st2) ->
  join_tags (tags a) = Ret joined ->
  process_cv E fp job st
  = (Ret (mkRecord (name fp) (score a) (summary a) joined success (Some h)), st2).
Proof.
  intros Hup Hne Hrun Hj.
  unfold process_cv, try_except, bind. rewrite Hup.
  destruct h as [| c h']; [congruence |].
  rewrite Hrun. unfold lift. rewrite Hj. reflexivity.
Qed.

(** C1, the code at the failing input: a file whose scoring ends in the
    fallback (retries exhausted, or a fault of the endpoint) gets a
    ResultRecord with the fallback payload and status [success]. *)
Theorem fallback_record_is_marked_success
    (E : env) (fp : Path) (job h : string) (st st1 st2 : state)
    (err : option string) :
  upload_file_to_openai E fp st = (Ret (Some h), st1) ->
  h <> "" ->
  analyze_cv_with_openai E h job (name fp) st1
  = (Ret (Some (create_fallback_response (name fp) err)), st2) ->
  exists r,
    process_cv E fp job st = (Ret r, st2) /\
    status r = success /\
    r_score r = PyInt 50 /\
    r_summary r = summary (create_fallback_response (name fp) err) /\
    r_tags r = "manual_review_needed, analysis_incomplete, requires_human_assessment" /\
    file_id r = Some h.
Proof.
  intros Hup Hne Hrun.
  eexists. split.
  - eapply process_cv_after_scoring; eauto.
  - repeat split; reflexivity.
Qed.

Lemma fallback_record_is_marked_success_witness :
  exists r st2,
    process_cv Sample.mute Sample.cv Sample.job (start None) = (Ret r, st2) /\
    status r = success /\
    r_score r = PyInt 50 /\
    r_summary r = summary (create_fallback_response "cv.pdf" None) /\
    file_id r = Some "file-1".
Proof.
  set (E := Sample.mute).
  assert (Hup : upload_file_to_openai E Sample.cv (start None)
                = (Ret (Some "file-1"),
                   mkState (<["cv.pdf" := "file-1"]> ∅)
                           (Some (<["cv.pdf" := "file-1"]> ∅)) 1
                           [EvUpload "cv.pdf"]))
    by (vm_compute; reflexivity).
  assert (Hrun : exists st2,
             analyze_cv_with_openai E "file-1" Sample.job (name Sample.cv)
               (mkState (<["cv.pdf" := "file-1"]> ∅)
                        (Some (<["cv.pdf" := "file-1"]> ∅)) 1
                        [EvUpload "cv.pdf"])
             = (Ret (Some (create_fallback_response (name Sample.cv) None)), st2))
    by (eexists; vm_compute; reflexivity).
  destruct Hrun as (st2 & Hrun).
  destruct (fallback_record_is_marked_success
              E Sample.cv Sample.job "file-1" _ _ _ None Hup
              ltac:(discriminate) Hrun)
    as (r & Hp & Hs & Hsc & Hsm & _ & Hf).
  exists r, st2. repeat split; assumption.
Defined.

(** ** The upload cache *)

Lemma init_ok (E : env) (disk : option (gmap string string)) :
  getenv_api_key E <> Some "" ->
  init E (start disk) = (Ret tt, loaded disk).
Proof.
  intros Hk. unfold init.
  destruct (getenv_api_key E) as [[| c k] |]; try reflexivity. congruence.
Qed.

Lemma upload_hit (E : env) (fp : Path) (st : state) (h : string) :
  uploaded_files_cache st !! name fp = Some h ->
  upload_file_to_openai E fp st
  = (Ret (Some h), logged [EvPrint (MsgUsingCached (name fp))] st).
Proof.
  intros Hh. unfold upload_file_to_openai, try_except, bind, get_cache.
  simpl. rewrite Hh. reflexivity.
Qed.

Lemma upload_miss (E : env) (fp : Path) (st : state) :
  uploaded_files_cache st !! name fp = None ->
  upload_file_to_openai E fp st
  = if st_size fp >? 512 * 1024 * 1024 then
      (Ret None,
       logged [EvPrint (MsgUploadFailed "File too large (max 512MB for OpenAI)")] st)
    else if st_size fp <? 100 then
      (Ret None,
       logged [EvPrint (MsgUploadFailed "File too small (likely empty)")] st)
    else
      match files_create E (requests st) fp with
      | Ok h => (Ret (Some h), stored E fp h st)
      | Fault e =>
          (Ret None,
           logged [EvPrint (MsgUploadFailed (msg e))] (sent (EvUpload (name fp)) st))
      end.
Proof.
  intros Hm. unfold upload_file_to_openai, try_except, bind, get_cache.
  simpl. rewrite Hm.
  destruct (st_size fp >? 512 * 1024 * 1024); [reflexivity |].
  destruct (st_size fp <? 100); [reflexivity |].
  unfold request, save_cache, bind, get_cache, set_cache, write_cache_file,
    print, emit, ret, stored, logged, sent. simpl.
  destruct (files_create E (requests st) fp) as [h | e]; simpl.
  - destruct (cache_writable E); simpl; [| rewrite <- app_assoc]; reflexivity.
  - rewrite <- app_assoc. reflexivity.
Qed.



(** Across runs: the handle a run stored and persisted is found by the cache
    lookup of the next run, which sends no request. *)
Lemma next_run_reuses_handle
    (E1 E2 : env) (fp1 fp2 : Path) (st : state) (h : string) :
  uploaded_files_cache st !! name fp1 = None ->
  100 <= st_size fp1 <= 512 * 1024 * 1024 ->
  files_create E1 (requests st) fp1 = Ok h ->
  cache_writable E1 = true ->
  getenv_api_key E2 <> Some "" ->
  name fp2 = name fp1 ->
  let disk := cache_file (snd (upload_file_to_openai E1 fp1 st)) in
  init E2 (start disk) = (Ret tt, loaded disk) /\
  upload_file_to_openai E2 fp2 (loaded disk)
  = (Ret (Some h), logged [EvPrint (MsgUsingCached (name fp2))] (loaded disk)) /\
  requests (snd (upload_file_to_openai E2 fp2 (loaded disk))) = 0%nat.
Proof.
  intros Hm Hs Hc Hw Hk Hn disk.
  assert (Hd : disk = Some (<[name fp1 := h]> (uploaded_files_cache st))).
  { unfold disk. rewrite (upload_miss E1 fp1 st Hm).
    destruct (Z.gtb_spec (st_size fp1) (512 * 1024 * 1024)); [lia |].
    destruct (Z.ltb_spec (st_size fp1) 100); [lia |].
    rewrite Hc. unfold stored. simpl. now rewrite Hw. }
  split; [now apply init_ok |].
  assert (Hh : uploaded_files_cache (loaded disk) !! name fp2 = Some h).
  { rewrite Hd, Hn. simpl. apply lookup_insert_eq. }
  rewrite (upload_hit E2 fp2 (loaded disk) h Hh). split; reflexivity.
Qed.

(** C7 (as stated) fails: on a cache miss a file of exactly 100 bytes is
    uploaded and its handle returned. *)
Lemma hundred_bytes_are_uploaded :
  uploaded_files_cache (start None) !! "cv.pdf" = None /\
  upload_file_to_openai
    (Sample.world [] Sample.upload_ok (Sample.always Sample.good_reply))
    (mkPath "cv.pdf" true 100) (start None)
  = (Ret (Some "file-1"),
     mkState (<["cv.pdf" := "file-1"]> ∅) (Some (<["cv.pdf" := "file-1"]> ∅)) 1
             [EvUpload "cv.pdf"]).
Proof. split; vm_compute; reflexivity. Qed.

(** C7 (amended): on a cache miss the remote upload is requested exactly for
    a file of at least 100 bytes and at most 512 MiB; for every file outside
    these bounds no request is sent and no handle is returned. A file of
    exactly 100 bytes is inside the bounds. *)
Theorem upload_requested_within_size_bounds
    (E : env) (fp : Path) (st : state) :
  uploaded_files_cache st !! name fp = None ->
  exists r st',
    upload_file_to_openai E fp st = (Ret r, st') /\
    (requests st' = S (requests st)
     <-> 100 <= st_size fp <= 512 * 1024 * 1024) /\
    (In (EvUpload (name fp)) (skipn (List.length (trace st)) (trace st'))
     <-> 100 <= st_size fp <= 512 * 1024 * 1024) /\
    (st_size fp < 100 \/ 512 * 1024 * 1024 < st_size fp ->
     r = None /\ requests st' = requests st /\
     uploaded_files_cache st' = uploaded_files_cache st /\
     cache_file st' = cache_file st) /\
    (100 <= st_size fp <= 512 * 1024 * 1024 ->
     r = match files_create E (requests st) fp with
         | Ok h => Some h
         | Fault _ => None
         end).
Proof.
  intros Hm. rewrite (upload_miss E fp st Hm).
  assert (Hskip : forall (l evs : list event),
             skipn (List.length l) (l ++ evs) = evs).
  { intros l evs. induction l; simpl; auto. }
  destruct (Z.gtb_spec (st_size fp) (512 * 1024 * 1024)) as [Hbig | Hbig].
  { exists None. eexists. split; [reflexivity |]. simpl. rewrite Hskip.
    split; [split; intros; lia |].
    split; [split; [intros [H' | []]; discriminate | lia] |].
    split; [intros _; repeat split | lia]. }
  destruct (Z.ltb_spec (st_size fp) 100) as [Hsmall | Hsmall].
  { exists None. eexists. split; [reflexivity |]. simpl. rewrite Hskip.
    split; [split; intros; lia |].
    split; [split; [intros [H' | []]; discriminate | lia] |].
    split; [intros _; repeat split | lia]. }
  destruct (files_create E (requests st) fp) as [h | e].
  - exists (Some h). eexists. split; [reflexivity |]. unfold stored. simpl.
    rewrite Hskip.
    split; [split; intros; lia |].
    split; [split; [lia | intros _; now left] |].
    split; [lia | reflexivity].
  - exists None. eexists. split; [reflexivity |]. simpl.
    rewrite <- app_assoc, Hskip.
    split; [split; intros; lia |].
    split; [split; [lia | intros _; now left] |].
    split; [lia | reflexivity].
Qed.

Lemma upload_requested_within_size_bounds_witness :
  uploaded_files_cache (start None) !! name (mkPath "cv.pdf" true 99) = None /\
  exists r st',
    upload_file_to_openai
      (Sample.world [] Sample.upload_ok (Sample.always Sample.good_reply))
      (mkPath "cv.pdf" true 99) (start None) = (Ret r, st') /\
    r = None /\ requests st' = requests (start None).
Proof.
  assert (Hm : uploaded_files_cache (start None) !! name (mkPath "cv.pdf" true 99)
               = None) by reflexivity.
  split; [exact Hm |].
  destruct (upload_requested_within_size_bounds
              (Sample.world [] Sample.upload_ok (Sample.always Sample.good_reply))
              (mkPath "cv.pdf" true 99) (start None) Hm)
    as (r & st' & Hrun & _ & _ & Hout & _).
  exists r, st'. split; [exact Hrun |].
  destruct Hout as (Hr & Hq & _); [left; simpl; lia |]. now split.
Defined.

(** C10: when the file name is a key of the upload cache, the cached handle
    is returned whatever the size of the file is now: the answer and the
    resulting state do not depend on the size, no request is sent, and a file
    of 0 bytes or of more than 512 MiB is given the handle all the same. *)
Theorem cache_hit_skips_size_validation
    (E : env) (file_name : string) (st : state) (h : string) :
  uploaded_files_cache st !! file_name = Some h ->
  (forall (regular : bool) (size : Z),
      upload_file_to_openai E (mkPath file_name regular size) st
      = (Ret (Some h), logged [EvPrint (MsgUsingCached file_name)] st)) /\
  fst (upload_file_to_openai E (mkPath file_name true 0) st) = Ret (Some h) /\
  fst (upload_file_to_openai E (mkPath file_name true (512 * 1024 * 1024 + 1)) st)
  = Ret (Some h) /\
  (forall (size : Z),
      requests (snd (upload_file_to_openai E (mkPath file_name true size) st))
      = requests st).
Proof.
  intros Hh.
  assert (H : forall regular size,
             upload_file_to_openai E (mkPath file_name regular size) st
             = (Ret (Some h), logged [EvPrint (MsgUsingCached file_name)] st)).
  { intros regular size. now apply (upload_hit E (mkPath file_name regular size)). }
  split; [exact H |]. rewrite !H. repeat split.
  intros size. now rewrite H.
Qed.

Lemma cache_hit_skips_size_validation_witness :
  uploaded_files_cache
    (mkState (<["cv.pdf" := "file-7"]> ∅) None 0 []) !! "cv.pdf" = Some "file-7" /\
  fst (upload_file_to_openai
         (Sample.world [] Sample.upload_ok (Sample.always Sample.good_reply))
         (mkPath "cv.pdf" true 0)
         (mkState (<["cv.pdf" := "file-7"]> ∅) None 0 []))
  = Ret (Some "file-7").
Proof.
  assert (Hh : uploaded_files_cache
                 (mkState (<["cv.pdf" := "file-7"]> ∅) None 0 []) !! "cv.pdf"
               = Some "file-7") by (vm_compute; reflexivity).
  split; [exact Hh |].
  apply (cache_hit_skips_size_validation
           (Sample.world [] Sample.upload_ok (Sample.always Sample.good_reply))
           "cv.pdf" _ "file-7" Hh).
Defined.

(** ** The report order *)

Lemma insert_desc_perm (r : ResultRecord) (l : list ResultRecord) :
  Permutation (insert_desc r l) (r :: l).
Proof.
  induction l as [| y l IH]; simpl; [apply Permutation_refl |].
  destruct (score_key r <? score_key y); [| apply Permutation_refl].
  apply perm_trans with (y :: r :: l); [now apply perm_skip | apply perm_swap].
Qed.

Lemma sort_desc_perm (l : list ResultRecord) : Permutation (sort_desc l) l.
Proof.
  induction l as [| r l IH]; simpl; [apply perm_nil |].
  apply perm_trans with (r :: sort_desc l);
    [apply insert_desc_perm | now apply perm_skip].
Qed.

Lemma insert_desc_sorted (r : ResultRecord) (l : list ResultRecord) :
  descending l -> descending (insert_desc r l).
Proof.
  unfold descending. induction l as [| y l IH]; intros Hs; simpl.
  - constructor; [constructor | constructor].
  - inversion Hs as [| ? ? Hl Hy]; subst.
    destruct (Z.ltb_spec (score_key r) (score_key y)) as [Hlt | Hge].
    + constructor; [now apply IH |].
      apply (Permutation_Forall (Permutation_sym (insert_desc_perm r l))).
      constructor; [lia | exact Hy].
    + constructor; [exact Hs |]. constructor; [lia |].
      eapply List.Forall_impl; [| exact Hy]. simpl. intros; lia.
Qed.

Lemma sort_desc_sorted (l : list ResultRecord) : descending (sort_desc l).
Proof.
  induction l as [| r l IH]; simpl; [constructor | now apply insert_desc_sorted].
Qed.

(** Stable: the records of any one score keep the order they had. *)
Lemma insert_desc_stable (k : Z) (r : ResultRecord) (l : list ResultRecord) :
  List.filter (fun x => score_key x =? k) (insert_desc r l)
  = List.filter (fun x => score_key x =? k) (r :: l).
Proof.
  induction l as [| y l IH]; [reflexivity |]. simpl insert_desc.
  destruct (Z.ltb_spec (score_key r) (score_key y)) as [Hlt | Hge];
    [| reflexivity].
  simpl. simpl in IH. rewrite IH.
  destruct (Z.eqb_spec (score_key r) k); destruct (Z.eqb_spec (score_key y) k);
    try reflexivity; lia.
Qed.

Lemma sort_desc_stable (k : Z) (l : list ResultRecord) :
  List.filter (fun x => score_key x =? k) (sort_desc l)
  = List.filter (fun x => score_key x =? k) l.
Proof.
  induction l as [| r l IH]; [reflexivity |].
  simpl sort_desc. rewrite insert_desc_stable. simpl. now rewrite IH.
Qed.

(** C8: for every list of ResultRecords the persisted order is the success
    records sorted by score, descending and stable (records of equal score
    keep their processing order), followed by the error records in their
    processing order; the CSV has the columns filename, score, summary, tags,
    status, one row per record in that order. Successes scored 90, 55, 72 and
    one failure are persisted as 90, 72, 55, failure. *)
Theorem report_order (results : list ResultRecord) :
  let successes := List.filter is_success results in
  let failures := List.filter is_error results in
  let ranked := firstn (List.length successes) (rank_results results) in
  rank_results results = (ranked ++ failures)%list /\
  Permutation ranked successes /\
  descending ranked /\
  (forall k : Z,
      List.filter (fun r => score_key r =? k) ranked
      = List.filter (fun r => score_key r =? k) successes) /\
  Forall (fun r => status r = success) ranked /\
  Forall (fun r => status r = error) failures /\
  (forall (E : env) (st : state),
      save_to_csv E (rank_results results) st
      = (Ret ("results_" ++ strftime_now E ++ ".csv"),
         logged [EvCsv ("results_" ++ strftime_now E ++ ".csv")
                       ["filename"; "score"; "summary"; "tags"; "status"]
                       (map (fun r => [filename r; show_pyint (r_score r);
                                       r_summary r; r_tags r;
                                       status_str (status r)])
                            (rank_results results))] st)) /\
  rank_results [Sample.scored "a.pdf" 90; Sample.scored "b.pdf" 55;
                Sample.scored "c.pdf" 72; Sample.failed_record]
  = [Sample.scored "a.pdf" 90; Sample.scored "c.pdf" 72;
     Sample.scored "b.pdf" 55; Sample.failed_record].
Proof.
  intros successes failures ranked.
  assert (Hlen : List.length (sort_desc successes) = List.length successes).
  { apply Permutation_length, sort_desc_perm. }
  assert (Hr : ranked = sort_desc successes).
  { unfold ranked, rank_results. fold successes failures.
    rewrite <- Hlen. rewrite List.firstn_app, Nat.sub_diag, List.firstn_all. simpl.
    apply app_nil_r. }
  rewrite Hr.
  split; [reflexivity |].
  split; [apply sort_desc_perm |].
  split; [apply sort_desc_sorted |].
  split; [intros k; apply sort_desc_stable |].
  split.
  { apply (Permutation_Forall (Permutation_sym (sort_desc_perm successes))).
    apply List.Forall_forall. intros r Hin. apply List.filter_In in Hin.
    destruct Hin as (_ & Hs). unfold is_success in Hs.
    destruct (status r); [reflexivity | discriminate]. }
  split.
  { apply List.Forall_forall. intros r Hin. apply List.filter_In in Hin.
    destruct Hin as (_ & Hs). unfold is_error in Hs.
    destruct (status r); [discriminate | reflexivity]. }
  split; [intros E st; reflexivity | vm_compute; reflexivity].
Qed.

(** ** Configuration faults and the exit status *)

(** The sibling configuration faults end the process with status 1. *)
Lemma missing_job_description_exits_one
    (E : env) (disk : option (gmap string string)) :
  getenv_api_key E <> Some "" ->
  job_txt E = None ->
  main E (start disk)
  = (1, logged [EvPrint MsgJobFileMissing] (loaded disk)).
Proof.
  intros Hk Hj. unfold main, bind. rewrite (init_ok E disk Hk).
  unfold run_analysis, bind, load_job_description. rewrite Hj. reflexivity.
Qed.

Lemma short_job_description_exits_one
    (E : env) (disk : option (gmap string string)) (content : string) :
  getenv_api_key E <> Some "" ->
  job_txt E = Some content ->
  Text.len (Text.strip content) < 100 ->
  main E (start disk)
  = (1, logged [EvPrint MsgJobTooShort] (loaded disk)).
Proof.
  intros Hk Hj Hs. unfold main, bind. rewrite (init_ok E disk Hk).
  unfold run_analysis, bind, load_job_description. rewrite Hj.
  destruct (Z.ltb_spec (Text.len (Text.strip content)) 100); [reflexivity | lia].
Qed.

Lemma empty_api_key_exits_one (E : env) (disk : option (gmap string string)) :
  getenv_api_key E = Some "" ->
  main E (start disk) = (1, logged [EvPrint MsgNoApiKey] (start disk)).
Proof.
  intros Hk. unfold main, bind, init. rewrite Hk. reflexivity.
Qed.

(** C9, the code at the failing input: with a valid job description and no
    eligible resume file, the run reports the empty corpus and stops before
    any processing (no request, no report, nothing but the console line), and
    the process ends with exit status 0. *)
Theorem empty_corpus_exits_zero
    (E : env) (disk : option (gmap string string)) (content : string) :
  getenv_api_key E <> Some "" ->
  job_txt E = Some content ->
  100 <= Text.len (Text.strip content) ->
  get_cv_files E = [] ->
  main E (start disk)
  = (0, logged [EvPrint MsgNoCvFiles] (loaded disk)).
Proof.
  intros Hk Hj Hs Hf. unfold main, bind. rewrite (init_ok E disk Hk).
  unfold run_analysis, bind, load_job_description. rewrite Hj.
  destruct (Z.ltb_spec (Text.len (Text.strip content)) 100); [lia |].
  unfold ret. rewrite Hf. reflexivity.
Qed.

Lemma empty_corpus_exits_zero_witness :
  get_cv_files Sample.no_resumes = [] /\
  main Sample.no_resumes (start None)
  = (0, mkState ∅ None 0 [EvPrint MsgNoCvFiles]).
Proof.
  assert (Hf : get_cv_files Sample.no_resumes = []) by (vm_compute; reflexivity).
  split; [exact Hf |].
  apply (empty_corpus_exits_zero Sample.no_resumes None Sample.job);
    [discriminate | reflexivity | vm_compute; discriminate | exact Hf].
Defined.

(** ** The validator on concrete replies *)

(** The boundary cases of the checks: scores 0 and 101 are rejected, 1 and
    100 accepted; a summary of 399 characters is rejected, one of 400
    accepted; two tags are rejected; a float score is rejected. *)
Lemma validator_boundaries :
  let run := validate_json_response Decoder.loads in
  let accepted sc n :=
    Ret (mkAnalysis (PyInt sc) (Text.replicate n "x")
                    [JStr "python"; JStr "senior"; JStr "msc"]) in
  run (Sample.reply_text "0" 400 Sample.three_tags)
  = Raise (Exn ValueError "Invalid JSON response: Score must be between 1-100") /\
  run (Sample.reply_text "101" 400 Sample.three_tags)
  = Raise (Exn ValueError "Invalid JSON response: Score must be between 1-100") /\
  run (Sample.reply_text "1" 400 Sample.three_tags) = accepted 1 400%nat /\
  run (Sample.reply_text "100" 400 Sample.three_tags) = accepted 100 400%nat /\
  run (Sample.reply_text "85" 399 Sample.three_tags)
  = Raise (Exn ValueError
             "Invalid JSON response: Summary must be at least 400 characters") /\
  run (Sample.reply_text "85" 400 Sample.three_tags) = accepted 85 400%nat /\
  run (Sample.reply_text "85" 400 Sample.two_tags)
  = Raise (Exn ValueError "Invalid JSON response: Must provide at least 3 tags") /\
  run (Sample.reply_text "85.0" 400 Sample.three_tags)
  = Raise (Exn ValueError "Invalid JSON response: Score must be an integer").
Proof. repeat split; vm_compute; reflexivity. Qed.

(** C3, the code at the failing input: a reply whose score is the JSON
    boolean [true], with a summary of at least 400 characters after trimming
    and at least three tags, is accepted. The decoded score is a [bool], which
    passes [isinstance(_, int)] and lies between 1 and 100 as the number 1;
    the returned record carries the boolean. *)
Theorem validator_accepts_boolean_score
    (loads : string -> reply json) (text J : string)
    (d : list (string * json)) (sm : string) (tg : list json) :
  extract_json text = Ret J ->
  loads J = Ok (JDict d) ->
  dict_get "score" d = Some (JBool true) ->
  dict_get "summary" d = Some (JStr sm) ->
  400 <= Text.len (Text.strip sm) ->
  dict_get "tags" d = Some (JList tg) ->
  (3 <= List.length tg)%nat ->
  validate_json_response loads text = Ret (mkAnalysis (PyBool true) sm tg).
Proof.
  intros Hx Hl Hs Hm Hlen Ht Hn.
  destruct (validate_json_response_spec loads text J d Hx Hl) as (Hiff & _).
  apply Hiff. unfold acceptable. simpl.
  split; [right; now split |]. split; split; assumption.
Qed.

Lemma validator_accepts_boolean_score_witness :
  Decoder.loads (Sample.reply_text "true" 400 Sample.three_tags)
  = Ok (JDict [("score", JBool true);
               ("summary", JStr (Text.replicate 400 "x"));
               ("tags", JList [JStr "python"; JStr "senior"; JStr "msc"])]) /\
  validate_json_response Decoder.loads
    (Sample.reply_text "true" 400 Sample.three_tags)
  = Ret (mkAnalysis (PyBool true) (Text.replicate 400 "x")
                    [JStr "python"; JStr "senior"; JStr "msc"]) /\
  show_pyint (PyBool true) = "True".
Proof.
  assert (Hl : Decoder.loads (Sample.reply_text "true" 400 Sample.three_tags)
               = Ok (JDict [("score", JBool true);
                            ("summary", JStr (Text.replicate 400 "x"));
                            ("tags", JList [JStr "python"; JStr "senior";
                                            JStr "msc"])]))
    by (vm_compute; reflexivity).
  assert (Hx : extract_json (Sample.reply_text "true" 400 Sample.three_tags)
               = Ret (Sample.reply_text "true" 400 Sample.three_tags))
    by (vm_compute; reflexivity).
  split; [exact Hl |]. split; [| reflexivity].
  apply (validator_accepts_boolean_score Decoder.loads _ _ _ _ _ Hx Hl);
    first [reflexivity | vm_compute; discriminate | vm_compute; lia].
Defined.

(** * Further properties *)

(** ** What a computation may emit *)

Section Emits.

Variable P : event -> Prop.

Lemma emits_ret {A : Type} (a : A) : emits P (ret a).
Proof. intros st. exists []. simpl. now rewrite app_nil_r. Qed.

Lemma emits_raise {A : Type} (e : exn) : emits P (@raise A e).
Proof. intros st. exists []. simpl. now rewrite app_nil_r. Qed.

Lemma emits_sys_exit {A : Type} (c : Z) : emits P (@sys_exit A c).
Proof. intros st. exists []. simpl. now rewrite app_nil_r. Qed.

Lemma emits_lift {A : Type} (r : res A) : emits P (lift r).
Proof. intros st. exists []. simpl. now rewrite app_nil_r. Qed.

Lemma emits_get_cache : emits P get_cache.
Proof. intros st. exists []. simpl. now rewrite app_nil_r. Qed.

Lemma emits_set_cache (m : gmap string string) : emits P (set_cache m).
Proof. intros st. exists []. simpl. now rewrite app_nil_r. Qed.

Lemma emits_write_cache_file (m : gmap string string) :
  emits P (write_cache_file m).
Proof. intros st. exists []. simpl. now rewrite app_nil_r. Qed.

Lemma emits_emit (ev : event) : P ev -> emits P (emit ev).
Proof. intros H st. exists [ev]. simpl. split; [reflexivity | now constructor]. Qed.

Lemma emits_request {A : Type} (ev : event) (answer : nat -> reply A) :
  P ev -> emits P (request ev answer).
Proof. intros H st. exists [ev]. simpl. split; [reflexivity | now constructor]. Qed.

Lemma emits_bind {A B : Type} (m : M A) (k : A -> M B) :
  emits P m -> (forall a, emits P (k a)) -> emits P (bind m k).
Proof.
  intros Hm Hk st. unfold bind.
  destruct (Hm st) as (e1 & H1 & F1).
  destruct (m st) as [[a | e | c] st1]; simpl in *; eauto.
  destruct (Hk a st1) as (e2 & H2 & F2).
  exists (e1 ++ e2)%list. rewrite H2, H1, <- app_assoc.
  split; [reflexivity | apply List.Forall_app; now split].
Qed.

Lemma emits_try_except {A : Type} (m : M A) (h : exn -> M A) :
  emits P m -> (forall e, emits P (h e)) -> emits P (try_except m h).
Proof.
  intros Hm Hh st. unfold try_except.
  destruct (Hm st) as (e1 & H1 & F1).
  destruct (m st) as [[a | e | c] st1]; simpl in *; eauto.
  destruct (Hh e st1) as (e2 & H2 & F2).
  exists (e1 ++ e2)%list. rewrite H2, H1, <- app_assoc.
  split; [reflexivity | apply List.Forall_app; now split].
Qed.

Lemma emits_attempt_of {A : Type} (m : M A) :
  emits P m -> emits P (attempt_of m).
Proof.
  intros Hm st. unfold attempt_of.
  destruct (Hm st) as (e1 & H1 & F1).
  destruct (m st) as [[a | e | c] st1]; simpl in *; eauto.
Qed.

End Emits.

Ltac emits_step :=
  first
    [ apply emits_ret | apply emits_raise | apply emits_sys_exit
    | apply emits_lift | apply emits_get_cache | apply emits_set_cache
    | apply emits_write_cache_file
    | apply emits_emit; solve [simpl; auto]
    | apply emits_request; solve [simpl; auto]
    | apply emits_attempt_of
    | apply emits_bind; [| intros ?]
    | apply emits_try_except; [| intros ?]
    | match goal with
      | |- emits _ (match ?x with _ => _ end) => destruct x
      | |- emits _ (if ?b then _ else _) => destruct b
      end ].

Section EmitsOfTheAnalyzer.

Variable P : event -> Prop.
Variable E : env.
Hypothesis P_print : forall m, P (EvPrint m).

Lemma emits_save_cache : emits P (save_cache E).
Proof using P_print. unfold save_cache, print. repeat emits_step. Qed.

Lemma emits_upload (fp : Path) :
  P (EvUpload (name fp)) -> emits P (upload_file_to_openai E fp).
Proof using P_print.
  intros Hu. unfold upload_file_to_openai, print.
  repeat first [apply emits_save_cache | emits_step].
Qed.

Lemma emits_round_trip (fid job fn : string) :
  P (EvChat (mkChat fid job fn)) -> emits P (round_trip E fid job fn).
Proof using P_print. intros Hc. unfold round_trip. repeat emits_step. Qed.

Lemma emits_retry_loop (fid job fn : string) (range : list nat) :
  P (EvChat (mkChat fid job fn)) -> P (EvSleep 2) ->
  emits P (retry_loop E fid job fn range).
Proof using P_print.
  intros Hc Hs. induction range as [| attempt rest IH]; simpl.
  - apply emits_ret.
  - unfold print, sleep.
    repeat first [apply IH | apply emits_round_trip; assumption | emits_step].
Qed.

End EmitsOfTheAnalyzer.

(** ** Upload and per-file processing never fail *)

(** What the upload can end in. *)
Lemma upload_outcome (E : env) (fp : Path) (st : state) :
  exists r st1,
    upload_file_to_openai E fp st = (Ret r, st1) /\
    (forall h, r = Some h -> uploaded_files_cache st1 !! name fp = Some h) /\
    (r = None ->
     uploaded_files_cache st1 = uploaded_files_cache st /\
     cache_file st1 = cache_file st).
Proof.
  destruct (uploaded_files_cache st !! name fp) as [h |] eqn:Hc.
  - rewrite (upload_hit E fp st h Hc). do 2 eexists. split; [reflexivity |].
    split; [intros h' [= <-]; exact Hc | discriminate].
  - rewrite (upload_miss E fp st Hc).
    destruct (st_size fp >? 512 * 1024 * 1024).
    { do 2 eexists. split; [reflexivity |]. split; [discriminate | now split]. }
    destruct (st_size fp <? 100).
    { do 2 eexists. split; [reflexivity |]. split; [discriminate | now split]. }
    destruct (files_create E (requests st) fp) as [h | e].
    + do 2 eexists. split; [reflexivity |].
      split; [intros h' [= <-]; apply lookup_insert_eq | discriminate].
    + do 2 eexists. split; [reflexivity |]. split; [discriminate | now split].
Qed.

(** What processing one file can end in: a success record built from what
    the scorer returned, or the fallback row with the message of the fault. *)
Lemma process_cv_cases (E : env) (fp : Path) (job : string) (st : state) :
  exists r st',
    process_cv E fp job st = (Ret r, st') /\
    ((exists h a,
         r = mkRecord (name fp) (score a) (summary a) (r_tags r) success (Some h) /\
         h <> "" /\
         uploaded_files_cache st' !! name fp = Some h /\
         join_tags (tags a) = Ret (r_tags r) /\
         ((exists text, validate_json_response (json_loads E) text = Ret a) \/
          (exists err, a = create_fallback_response (name fp) err)))
     \/
     (exists m, r = fallback_row (name fp) m)).
Proof.
  unfold process_cv, try_except, bind.
  destruct (upload_outcome E fp st) as (r & st1 & Hup & Hsome & _).
  rewrite Hup.
  destruct r as [[| c h] |].
  - do 2 eexists. split; [reflexivity |]. right. eexists. reflexivity.
  - destruct (analyze_cv_with_openai_cases E (String c h) job (name fp) st1)
      as (a & evs & k & Hrun & _).
    pose proof (scorer_result_origin E _ job (name fp) st1 _ a Hrun) as Horigin.
    rewrite Hrun. unfold lift.
    pose proof (join_tags_no_exit (tags a)) as Hx.
    destruct (join_tags (tags a)) as [joined | e | x] eqn:Hj.
    + do 2 eexists. split; [reflexivity |]. left. exists (String c h), a.
      simpl. repeat split; auto; try discriminate.
    + do 2 eexists. split; [reflexivity |]. right. eexists. reflexivity.
    + now destruct (Hx x).
  - do 2 eexists. split; [reflexivity |]. right. eexists. reflexivity.
Qed.

Lemma per_file_print (m : message) : per_file_event (EvPrint m).
Proof. exact I. Qed.

Lemma emits_process_cv (E : env) (fp : Path) (job : string) :
  emits per_file_event (process_cv E fp job).
Proof.
  unfold process_cv, analyze_cv_with_openai, print.
  repeat first
    [ apply emits_upload; [exact per_file_print | exact I]
    | apply emits_retry_loop; [exact per_file_print | exact I | reflexivity]
    | emits_step ].
Qed.

Lemma process_all_returns
    (E : env) (cv_files : list Path) (job : string) (st : state) :
  exists results st',
    process_all E cv_files job st = (Ret results, st') /\
    map filename results = map name cv_files.
Proof.
  revert st. induction cv_files as [| fp rest IH]; intros st; simpl.
  - do 2 eexists. split; reflexivity.
  - unfold bind.
    destruct (process_cv_cases E fp job st) as (r & st1 & Hp & Hshape).
    rewrite Hp.
    assert (Hname : filename r = name fp).
    { destruct Hshape as [(h & a & -> & _) | (m & ->)]; reflexivity. }
    set (st2 := snd ((match rest with [] => ret tt | _ => sleep 2 end) st1)).
    assert (Hpause : (match rest with [] => ret tt | _ => sleep 2 end) st1
                     = (Ret tt, st2)).
    { unfold st2. destruct rest; reflexivity. }
    rewrite Hpause.
    destruct (IH st2) as (results & st' & Hrest & Hnames).
    rewrite Hrest. do 2 eexists. split; [reflexivity |].
    simpl. now rewrite Hname, Hnames.
Qed.

Lemma emits_process_all (E : env) (cv_files : list Path) (job : string) :
  emits per_file_event (process_all E cv_files job).
Proof.
  induction cv_files as [| fp rest IH]; simpl.
  - apply emits_ret.
  - unfold sleep.
    repeat first [apply IH | apply emits_process_cv | emits_step].
    all: try reflexivity.
Qed.

(** ** Cleanup *)

Lemma deletable_cons (r : ResultRecord) (rest : list ResultRecord) :
  deletable (r :: rest)
  = ((if negb (falsy (file_id r)) && is_success r
      then [match file_id r with Some h => h | None => "" end]
      else []) ++ deletable rest)%list.
Proof.
  unfold deletable. simpl flat_map.
  destruct (file_id r) as [h |]; reflexivity.
Qed.

Lemma delete_uploaded_outcome
    (E : env) (results : list ResultRecord) (st : state) :
  exists evs k,
    delete_uploaded E results st
    = (Ret tt,
       mkProcess (uploaded_files_cache st) (cache_file st) (k + requests st)
                 (trace st ++ evs) (uploads_folder st)) /\
    List.filter is_delete evs = map EvDelete (deletable results) /\
    Forall cleanup_event evs.
Proof.
  revert st. induction results as [| r rest IH]; intros st.
  - exists [], 0%nat. simpl. unfold ret. rewrite app_nil_r.
    destruct st; repeat split; constructor.
  - rewrite deletable_cons. cbn [delete_uploaded]. unfold bind.
    set (h := match file_id r with Some h => h | None => "" end).
    destruct (negb (falsy (file_id r)) && is_success r).
    + unfold try_except, request.
      destruct (files_delete E (requests st) h) as [[] | e]; cbn [of_reply].
      * destruct (IH (mkProcess (uploaded_files_cache st) (cache_file st)
                                (S (requests st)) (trace st ++ [EvDelete h])
                                (uploads_folder st)))
          as (evs & k & Hrun & Hdel & Hall).
        rewrite Hrun.
        cbn [uploaded_files_cache cache_file requests trace uploads_folder].
        exists (EvDelete h :: evs), (S k). rewrite <- app_assoc.
        split;
          [replace (k + S (requests st))%nat with (S k + requests st)%nat by lia;
           reflexivity |].
        split; [cbn; now rewrite Hdel |].
        constructor; [exact I | exact Hall].
      * unfold print, emit.
        cbn [uploaded_files_cache cache_file requests trace uploads_folder].
        destruct (IH (mkProcess (uploaded_files_cache st) (cache_file st)
                                (S (requests st))
                                ((trace st ++ [EvDelete h])
                                   ++ [EvPrint (MsgCouldNotDelete (filename r))])
                                (uploads_folder st)))
          as (evs & k & Hrun & Hdel & Hall).
        rewrite Hrun.
        cbn [uploaded_files_cache cache_file requests trace uploads_folder].
        exists (EvDelete h :: EvPrint (MsgCouldNotDelete (filename r)) :: evs),
               (S k).
        rewrite <- !app_assoc.
        split;
          [replace (k + S (requests st))%nat with (S k + requests st)%nat by lia;
           reflexivity |].
        split; [cbn; now rewrite Hdel |].
        repeat constructor; exact Hall.
    + unfold ret.
      destruct (IH st) as (evs & k & Hrun & Hdel & Hall).
      rewrite Hrun. exists evs, k. repeat split; assumption.
Qed.

Lemma cleanup_outcome (E : env) (results : list ResultRecord) (st : state) :
  exists evs k,
    cleanup_uploaded_files E results st
    = (Ret tt,
       mkProcess ∅ (if cache_writable E then Some ∅ else cache_file st)
                 (k + requests st) (trace st ++ evs) (uploads_folder st)) /\
    List.filter is_delete evs = map EvDelete (deletable results) /\
    Forall cleanup_event evs.
Proof.
  unfold cleanup_uploaded_files, bind.
  destruct (delete_uploaded_outcome E results st) as (evs & k & Hrun & Hdel & Hall).
  rewrite Hrun. unfold set_cache, save_cache, bind, get_cache. simpl.
  destruct (cache_writable E); simpl.
  - exists evs, k. repeat split; assumption.
  - exists (evs ++ [EvPrint MsgCacheWarning])%list, k.
    unfold print, emit. simpl. rewrite <- app_assoc.
    split; [reflexivity |]. split.
    + rewrite List.filter_app. simpl. now rewrite app_nil_r.
    + apply List.Forall_app. split; [exact Hall | repeat constructor].
Qed.

(** ** The structure of a run *)

Lemma sort_desc_nil (l : list ResultRecord) : sort_desc l = [] -> l = [].
Proof.
  intros H. pose proof (Permutation_length (sort_desc_perm l)) as HL.
  rewrite H in HL. destruct l; [reflexivity | discriminate].
Qed.

(** A run over a non-empty corpus with a valid configuration: an optional
    note about the cap, the events of the files, the report, and then either
    the events of the cleanup when the operator asked for it, or the fatal
    line when the question could not be read. *)
Lemma run_outcome
    (E : env) (disk : option (gmap string string)) (content : string) :
  getenv_api_key E <> Some "" ->
  job_txt E = Some content ->
  100 <= Text.len (Text.strip content) ->
  get_cv_files E <> [] ->
  let found := get_cv_files E in
  let note :=
    if (200 <? List.length found)%nat
    then [EvPrint (MsgLimiting (List.length found))] else [] in
  exists results files_evs clean_evs code st',
    main E (start disk) = (code, st') /\
    map filename results = map name (firstn 200 found) /\
    trace st'
    = (note ++ files_evs
         ++ [EvCsv ("results_" ++ strftime_now E ++ ".csv") fieldnames
                   (map csv_row_of (rank_results results))]
         ++ clean_evs)%list /\
    Forall per_file_event files_evs /\
    Forall cleanup_event clean_evs /\
    (confirmed E = false -> List.filter is_delete clean_evs = []) /\
    (List.filter is_delete clean_evs <> [] ->
     List.filter is_delete clean_evs
     = map EvDelete (deletable (rank_results results))) /\
    (List.filter is_success results <> [] -> stdin_at_eof E = true ->
     code = 1 /\ clean_evs = [EvPrint (MsgFatal "EOF when reading a line")]) /\
    (List.filter is_success results = [] \/ stdin_at_eof E = false -> code = 0) /\
    (List.filter is_success results = [] -> clean_evs = []).
Proof.
  intros Hk Hj Hs Hne found note.
  unfold main, bind. rewrite (init_ok E disk Hk).
  unfold run_analysis, bind, load_job_description. rewrite Hj.
  destruct (Z.ltb_spec (Text.len (Text.strip content)) 100); [lia |].
  unfold ret. fold found.
  assert (Hnote_def : note = if (200 <? List.length found)%nat
                             then [EvPrint (MsgLimiting (List.length found))]
                             else []) by reflexivity.
  change (found <> []) in Hne.
  clearbody note. clearbody found.
  destruct found as [| f fs]; [contradiction |].
  set (found := f :: fs) in *. set (job := Text.strip content).
  set (st1 := snd ((if (200 <? List.length found)%nat
                    then print (MsgLimiting (List.length found)) >> ret (firstn 200 found)
                    else ret found) (loaded disk))).
  assert (Hcap : (if (200 <? List.length found)%nat
                  then print (MsgLimiting (List.length found)) >> ret (firstn 200 found)
                  else ret found) (loaded disk)
                 = (Ret (firstn 200 found), st1)
                 /\ trace st1 = note).
  { unfold st1. rewrite Hnote_def.
    destruct (Nat.ltb_spec 200 (List.length found)) as [Hbig | Hsmall].
    - split; reflexivity.
    - split; [| reflexivity]. unfold ret. f_equal. f_equal.
      symmetry. apply List.firstn_all2. lia. }
  destruct Hcap as (Hcap & Hnote).
  unfold bind, ret in Hcap. rewrite Hcap.
  destruct (process_all_returns E (firstn 200 found) job st1)
    as (results & st2 & Hrun & Hnames).
  destruct (emits_process_all E (firstn 200 found) job st1)
    as (files_evs & Htr & Hall).
  rewrite Hrun in Htr. simpl in Htr. rewrite Hrun.
  unfold save_to_csv, bind, emit, ret.
  cbn [fst snd].
  destruct (sort_desc (List.filter is_success results)) as [| top others] eqn:Hsort.
  - apply sort_desc_nil in Hsort.
    exists results, files_evs, [], 0. eexists. split; [reflexivity |].
    split; [exact Hnames |]. simpl. rewrite Htr, Hnote.
    rewrite <- !app_assoc.
    split; [reflexivity |]. repeat split; auto; congruence.
  - assert (Hwins : List.filter is_success results <> []).
    { intros Hnil. rewrite Hnil in Hsort. discriminate. }
    unfold input, raise.
    destruct (stdin_at_eof E) eqn:Heof.
    + exists results, files_evs,
        [EvPrint (MsgFatal "EOF when reading a line")], 1.
      eexists. split; [reflexivity |].
      split; [exact Hnames |]. simpl. rewrite Htr, Hnote.
      rewrite <- !app_assoc.
      split; [reflexivity |]. split; [exact Hall |].
      split; [repeat constructor |]. split; [reflexivity |].
      split; [intros Hd; now destruct Hd |].
      split; [auto |].
      split; [intros [Hnil | Hopen]; [contradiction | discriminate] |].
      intros Hnil. contradiction.
    + unfold ret. fold (confirmed E).
      destruct (confirmed E) eqn:Hc.
      * match goal with |- context [cleanup_uploaded_files E ?r ?s] =>
          destruct (cleanup_outcome E r s) as (clean_evs & k & Hclean & Hdel & Hcl)
        end.
        rewrite Hclean.
        exists results, files_evs, clean_evs, 0. eexists.
        split; [reflexivity |].
        split; [exact Hnames |]. simpl. rewrite Htr, Hnote.
        rewrite <- !app_assoc.
        split; [reflexivity |]. split; [exact Hall |]. split; [exact Hcl |].
        split; [discriminate |]. split; [intros _; exact Hdel |].
        split; [discriminate |]. split; [reflexivity |].
        intros Hnil. contradiction.
      * exists results, files_evs, [], 0. eexists. split; [reflexivity |].
        split; [exact Hnames |]. simpl. rewrite Htr, Hnote.
        rewrite <- !app_assoc.
        split; [reflexivity |]. split; [exact Hall |]. split; [constructor |].
        split; [reflexivity |]. split; [intros Hd; now destruct Hd |].
        split; [discriminate |]. split; reflexivity.
Qed.

(** ** Further properties of the upload cache and of per-file processing *)

(** X1: the upload never raises. A handle it returns is the one the cache
    now holds under the file name; when it returns none, the name was not
    cached and neither the cache nor the cache file has changed, so a failed
    upload is tried again by the next run. At most one request is sent. *)
Theorem upload_returns_what_it_caches (E : env) (fp : Path) (st : state) :
  exists r st1,
    upload_file_to_openai E fp st = (Ret r, st1) /\
    (forall h, r = Some h -> uploaded_files_cache st1 !! name fp = Some h) /\
    (r = None ->
     uploaded_files_cache st !! name fp = None /\
     uploaded_files_cache st1 = uploaded_files_cache st /\
     cache_file st1 = cache_file st) /\
    (forall other, other <> name fp ->
       uploaded_files_cache st1 !! other = uploaded_files_cache st !! other) /\
    (requests st <= requests st1 <= S (requests st))%nat.
Proof.
  destruct (uploaded_files_cache st !! name fp) as [h |] eqn:Hc.
  - rewrite (upload_hit E fp st h Hc). do 2 eexists. split; [reflexivity |].
    simpl. split; [intros h' [= <-]; exact Hc |].
    split; [discriminate |]. split; [reflexivity | lia].
  - rewrite (upload_miss E fp st Hc).
    destruct (st_size fp >? 512 * 1024 * 1024).
    { do 2 eexists. split; [reflexivity |]. simpl.
      split; [discriminate |]. split; [auto |]. split; [reflexivity | lia]. }
    destruct (st_size fp <? 100).
    { do 2 eexists. split; [reflexivity |]. simpl.
      split; [discriminate |]. split; [auto |]. split; [reflexivity | lia]. }
    destruct (files_create E (requests st) fp) as [h | e].
    + do 2 eexists. split; [reflexivity |]. simpl.
      split; [intros h' [= <-]; apply lookup_insert_eq |].
      split; [discriminate |].
      split; [intros other Ho; now apply lookup_insert_ne | lia].
    + do 2 eexists. split; [reflexivity |]. simpl.
      split; [discriminate |]. split; [auto |]. split; [reflexivity | lia].
Qed.

(** X2: processing a file never raises: it always returns a record for that
    file, with a score between 1 and 100. A success record carries a
    non-empty handle, the one cached under the file name; an error record
    carries no handle, score 50 and the three fallback tags. *)
Theorem process_cv_always_returns_a_record
    (E : env) (fp : Path) (job : string) (st : state) :
  exists r st',
    process_cv E fp job st = (Ret r, st') /\
    filename r = name fp /\
    1 <= int_value (r_score r) <= 100 /\
    (status r = success ->
     exists h, file_id r = Some h /\ h <> "" /\
               uploaded_files_cache st' !! name fp = Some h) /\
    (status r = error ->
     file_id r = None /\ r_score r = PyInt 50 /\
     r_tags r
     = "manual_review_needed, analysis_incomplete, requires_human_assessment").
Proof.
  destruct (process_cv_cases E fp job st) as (r & st' & Hrun & Hshape).
  exists r, st'. split; [exact Hrun |].
  destruct Hshape as [(h & a & Hr & Hne & Hc & _ & Horigin) | (m & ->)].
  - rewrite Hr. simpl. split; [reflexivity |]. split.
    + destruct Horigin as [(text & Hv) | (err & ->)].
      * now destruct (validated_invariant _ _ _ Hv).
      * simpl. lia.
    + split; [intros _; eauto | discriminate].
  - simpl. split; [reflexivity |]. split; [lia |].
    split; [discriminate | intros _; repeat split].
Qed.

(** X3: when the upload yields no handle, the file gets the error record
    whose summary names the failed upload, and the scorer is not called:
    after the upload nothing more is requested, and the console reports the
    error. *)
Theorem failed_upload_gives_error_record
    (E : env) (fp : Path) (job : string) (st st1 : state) :
  upload_file_to_openai E fp st = (Ret None, st1) ->
  process_cv E fp job st
  = (Ret (fallback_row (name fp) "Failed to upload file to OpenAI"),
     logged [EvPrint (MsgError "Failed to upload file to OpenAI")] st1).
Proof.
  intros Hup. unfold process_cv, try_except, bind. rewrite Hup. reflexivity.
Qed.

Lemma failed_upload_gives_error_record_witness :
  upload_file_to_openai Cases.tiny_world Cases.tiny (start None)
  = (Ret None,
     logged [EvPrint (MsgUploadFailed "File too small (likely empty)")]
            (start None)) /\
  fst (process_cv Cases.tiny_world Cases.tiny Sample.job (start None))
  = Ret (fallback_row "tiny.pdf" "Failed to upload file to OpenAI").
Proof.
  assert (Hup : upload_file_to_openai Cases.tiny_world Cases.tiny (start None)
                = (Ret None,
                   logged [EvPrint (MsgUploadFailed "File too small (likely empty)")]
                          (start None)))
    by (vm_compute; reflexivity).
  split; [exact Hup |].
  now rewrite (failed_upload_gives_error_record
                 Cases.tiny_world Cases.tiny Sample.job _ _ Hup).
Defined.

Lemma join_tags_raises_TypeError (items : list json) (e : exn) :
  join_tags items = Raise e -> cls e = TypeError.
Proof.
  unfold join_tags.
  assert (H : forall i e', str_items i items = Raise e' -> cls e' = TypeError).
  { induction items as [| v items IH]; intros i e'; simpl; [discriminate |].
    destruct v; try (intros [= <-]; reflexivity).
    specialize (IH (S i)).
    destruct (str_items (S i) items); try discriminate.
    intros [= <-]. now apply IH. }
  destruct (str_items 0 items) eqn:Hs; try discriminate.
  intros [= <-]. now apply (H 0%nat).
Qed.

(** X4: a reply that passes the validator but has a tag that is not a string
    among its first three is lost: joining the tags for the progress line
    raises a [TypeError], and the scorer answers with the fallback record
    carrying that message after this single request, without a retry. *)
Theorem non_string_tag_defeats_valid_reply
    (E : env) (fid job fn : string) (st : state)
    (text : string) (a : AnalysisResult) (e : exn) :
  chat_create E (requests st) (mkChat fid job fn) = Ok (Some text) ->
  validate_json_response (json_loads E) text = Ret a ->
  join_tags (firstn 3 (tags a)) = Raise e ->
  analyze_cv_with_openai E fid job fn st
  = (Ret (Some (create_fallback_response fn (Some (msg e)))),
     logged [EvPrint (MsgAnalysisError (msg e))]
            (sent (EvChat (mkChat fid job fn)) st)).
Proof.
  intros Hchat Hv Hj.
  destruct (analyze_cv_with_openai_cases E fid job fn st)
    as (a0 & evs & k & Hrun & Hc).
  assert (H1 : attempt_outcome E (chat_create E (requests st) (mkChat fid job fn))
               = Raise e).
  { rewrite Hchat. unfold attempt_outcome.
    destruct text as [| c text]; [discriminate Hv |]. now rewrite Hv, Hj. }
  rewrite H1 in Hc.
  assert (Hve : is_ValueError e = false).
  { unfold is_ValueError. now rewrite (join_tags_raises_TypeError _ _ Hj). }
  rewrite Hve in Hc. destruct Hc as (-> & -> & ->).
  rewrite Hrun. unfold logged, sent. simpl. rewrite <- app_assoc. reflexivity.
Qed.

Lemma non_string_tag_defeats_valid_reply_witness :
  validate_json_response Decoder.loads Cases.numbers_as_tags
  = Ret (mkAnalysis (PyInt 85) (Text.replicate 400 "x")
                    [JInt 1; JInt 2; JInt 3]) /\
  fst (analyze_cv_with_openai (Cases.world_of Cases.numbers_as_tags)
         "file-1" Sample.job "cv.pdf" (start None))
  = Ret (Some (create_fallback_response "cv.pdf"
                 (Some "sequence item 0: expected str instance, int found"))).
Proof.
  assert (Hv : validate_json_response Decoder.loads Cases.numbers_as_tags
               = Ret (mkAnalysis (PyInt 85) (Text.replicate 400 "x")
                                 [JInt 1; JInt 2; JInt 3]))
    by (vm_compute; reflexivity).
  split; [exact Hv |].
  rewrite (non_string_tag_defeats_valid_reply
             (Cases.world_of Cases.numbers_as_tags) "file-1" Sample.job "cv.pdf"
             (start None) Cases.numbers_as_tags _
             (Exn TypeError "sequence item 0: expected str instance, int found")
             eq_refl Hv eq_refl).
  reflexivity.
Defined.

(** X5: a reply that the scorer accepts but whose tag list holds a value
    that is not a string (after the first three) makes [process_cv] fail on
    joining the tags: the file gets the error record with the [TypeError]
    message and no handle, although its upload succeeded and the handle stays
    in the cache. *)
Theorem non_string_later_tag_gives_error_record
    (E : env) (fp : Path) (job h : string) (st st1 st2 : state)
    (a : AnalysisResult) (e : exn) :
  upload_file_to_openai E fp st = (Ret (Some h), st1) ->
  h <> "" ->
  analyze_cv_with_openai E h job (name fp) st1 = (Ret (Some a), st2) ->
  join_tags (tags a) = Raise e ->
  process_cv E fp job st
  = (Ret (fallback_row (name fp) (msg e)), logged [EvPrint (MsgError (msg e))] st2)
  /\ uploaded_files_cache st2 !! name fp = Some h.
Proof.
  intros Hup Hne Hrun Hj. split.
  - unfold process_cv, try_except, bind. rewrite Hup.
    destruct h as [| c h]; [congruence |].
    rewrite Hrun. unfold lift. rewrite Hj. reflexivity.
  - destruct (upload_outcome E fp st) as (r & st1' & Hup' & Hsome & _).
    rewrite Hup in Hup'. injection Hup' as <- <-.
    destruct (analyze_cv_with_openai_cases E h job (name fp) st1)
      as (a0 & evs & k & Hrun0 & _).
    rewrite Hrun in Hrun0. injection Hrun0 as _ ->. simpl. now apply Hsome.
Qed.

Lemma non_string_later_tag_gives_error_record_witness :
  fst (process_cv (Cases.world_of Cases.number_as_fourth_tag)
                  Sample.cv Sample.job (start None))
  = Ret (fallback_row "cv.pdf"
           "sequence item 3: expected str instance, int found").
Proof.
  assert (Hup : upload_file_to_openai (Cases.world_of Cases.number_as_fourth_tag)
                  Sample.cv (start None)
                = (Ret (Some "file-1"), Cases.cached))
    by (vm_compute; reflexivity).
  assert (Hrun : analyze_cv_with_openai (Cases.world_of Cases.number_as_fourth_tag)
                   "file-1" Sample.job (name Sample.cv) Cases.cached
                 = (Ret (Some (mkAnalysis (PyInt 85) (Text.replicate 400 "x")
                                 [JStr "python"; JStr "senior"; JStr "msc"; JInt 4])),
                    sent (EvChat (mkChat "file-1" Sample.job "cv.pdf")) Cases.cached))
    by (vm_compute; reflexivity).
  destruct (non_string_later_tag_gives_error_record
              (Cases.world_of Cases.number_as_fourth_tag) Sample.cv Sample.job
              "file-1" _ _ _ _
              (Exn TypeError "sequence item 3: expected str instance, int found")
              Hup ltac:(discriminate) Hrun eq_refl) as (Hp & _).
  now rewrite Hp.
Defined.

(** X6: the scorer leaves the upload cache and the cache file as they are,
    and all it emits are chat requests for its own file, pauses of 2 seconds
    and console lines. *)
Theorem scorer_touches_nothing_but_the_endpoint
    (E : env) (fid job fn : string) (st : state) :
  let st' := snd (analyze_cv_with_openai E fid job fn st) in
  uploaded_files_cache st' = uploaded_files_cache st /\
  cache_file st' = cache_file st /\
  exists evs,
    trace st' = (trace st ++ evs)%list /\
    Forall (fun ev =>
              match ev with
              | EvChat req => req = mkChat fid job fn
              | EvSleep seconds => seconds = 2
              | EvPrint _ => True
              | _ => False
              end) evs.
Proof.
  destruct (analyze_cv_with_openai_cases E fid job fn st)
    as (a & evs & k & Hrun & _).
  rewrite Hrun. simpl. split; [reflexivity |]. split; [reflexivity |].
  pose proof (emits_retry_loop
                (fun ev =>
                   match ev with
                   | EvChat req => req = mkChat fid job fn
                   | EvSleep seconds => seconds = 2
                   | EvPrint _ => True
                   | _ => False
                   end)
                E (fun _ => I) fid job fn (seq 0 max_retries)
                eq_refl eq_refl st) as (evs' & Htr & Hall).
  fold (analyze_cv_with_openai E fid job fn) in Htr.
  rewrite Hrun in Htr. simpl in Htr.
  exists evs'. split; [exact Htr | exact Hall].
Qed.

(** X7: the processing loop never raises and returns one record per file, in
    the order of the files; all it emits are uploads, chat requests, pauses
    of 2 seconds and console lines: no deletion and no report. *)
Theorem one_record_per_file_in_order
    (E : env) (cv_files : list Path) (job : string) (st : state) :
  exists results st' evs,
    process_all E cv_files job st = (Ret results, st') /\
    map filename results = map name cv_files /\
    List.length results = List.length cv_files /\
    trace st' = (trace st ++ evs)%list /\
    Forall per_file_event evs.
Proof.
  destruct (process_all_returns E cv_files job st) as (results & st' & Hrun & Hn).
  destruct (emits_process_all E cv_files job st) as (evs & Htr & Hall).
  rewrite Hrun in Htr. exists results, st', evs.
  split; [exact Hrun |]. split; [exact Hn |].
  split; [| split; assumption].
  rewrite <- (length_map filename results), Hn. apply length_map.
Qed.

(** ** Further properties of the batch run *)

Lemma rank_results_perm (results : list ResultRecord) :
  Permutation (rank_results results) results.
Proof.
  unfold rank_results.
  apply perm_trans
    with (List.filter is_success results ++ List.filter is_error results)%list.
  - apply Permutation_app_tail, sort_desc_perm.
  - induction results as [| r l IH]; [apply perm_nil |].
    simpl. unfold is_success at 1, is_error at 1.
    destruct (status r); simpl.
    + now apply perm_skip.
    + apply Permutation_sym, Permutation_cons_app, Permutation_sym, IH.
Qed.

Lemma empty_corpus_run
    (E : env) (disk : option (gmap string string)) (content : string) :
  getenv_api_key E <> Some "" ->
  job_txt E = Some content ->
  100 <= Text.len (Text.strip content) ->
  get_cv_files E = [] ->
  main E (start disk) = (0, logged [EvPrint MsgNoCvFiles] (loaded disk)).
Proof.
  intros Hk Hj Hs Hf. unfold main, bind. rewrite (init_ok E disk Hk).
  unfold run_analysis, bind, load_job_description. rewrite Hj.
  destruct (Z.ltb_spec (Text.len (Text.strip content)) 100); [lia |].
  unfold ret. rewrite Hf. reflexivity.
Qed.


(** X8: the exit status is not decided by the configuration alone. When the
    cleanup question cannot be read (the standard input is at its end, as in
    an unattended run), a run with a valid configuration and a non-empty
    corpus still processes every file and writes its report; if at least one
    file succeeded, [input()] then raises, the run ends with the fatal line
    and exit status 1, and nothing is deleted. *)
Theorem unread_answer_fails_the_run_after_the_report
    (E : env) (disk : option (gmap string string)) (content : string) :
  getenv_api_key E <> Some "" ->
  job_txt E = Some content ->
  100 <= Text.len (Text.strip content) ->
  get_cv_files E <> [] ->
  stdin_at_eof E = true ->
  exists results before after,
    map filename results = map name (firstn 200 (get_cv_files E)) /\
    trace (snd (main E (start disk)))
    = (before
         ++ [EvCsv ("results_" ++ strftime_now E ++ ".csv")
                   ["filename"; "score"; "summary"; "tags"; "status"]
                   (map csv_row_of (rank_results results))]
         ++ after)%list /\
    (forall h, ~ In (EvDelete h) (trace (snd (main E (start disk))))) /\
    (List.filter is_success results = [] -> after = []) /\
    (List.filter is_success results <> [] ->
     fst (main E (start disk)) = 1 /\
     after = [EvPrint (MsgFatal "EOF when reading a line")]).
Proof.
  intros Hk Hj Hs Hne Heof.
  destruct (run_outcome E disk content Hk Hj Hs Hne)
    as (results & fe & ce & code & st' & Hrun & Hnames & Htr & Hfe & Hce
        & _ & _ & Hfail & _ & Hnone).
  rewrite Hrun. simpl fst. simpl snd.
  assert (Hquiet : forall h, ~ In (EvDelete h) ce).
  { intros h Hin.
    destruct (List.filter is_success results) as [| r rs] eqn:Hwins.
    - rewrite (Hnone eq_refl) in Hin. destruct Hin.
    - destruct (Hfail ltac:(discriminate) Heof) as (_ & Hce').
      rewrite Hce' in Hin. destruct Hin as [Hin | []]. discriminate. }
  exists results. eexists (_ ++ fe)%list, ce.
  split; [exact Hnames |].
  split; [rewrite Htr, <- app_assoc; reflexivity |].
  split.
  { intros h Hin. rewrite Htr in Hin.
    repeat (apply in_app_or in Hin; destruct Hin as [Hin | Hin]).
    - destruct (200 <? _)%nat; [destruct Hin as [Hin | []]; discriminate |
                                 destruct Hin].
    - rewrite List.Forall_forall in Hfe. exact (Hfe _ Hin).
    - destruct Hin as [Hin | []]; discriminate.
    - exact (Hquiet h Hin). }
  split; [exact Hnone |].
  intros Hwins. exact (Hfail Hwins Heof).
Qed.

Lemma unread_answer_fails_the_run_after_the_report_witness :
  stdin_at_eof Cases.unattended = true /\
  fst (main Cases.unattended (start None)) = 1 /\
  forall h, ~ In (EvDelete h) (trace (snd (main Cases.unattended (start None)))).
Proof.
  assert (Hf : get_cv_files Cases.unattended = [Sample.cv])
    by (vm_compute; reflexivity).
  assert (Hs : 100 <= Text.len (Text.strip Sample.job))
    by (vm_compute; discriminate).
  assert (Hexit : fst (main Cases.unattended (start None)) = 1)
    by (vm_compute; reflexivity).
  split; [reflexivity |]. split; [exact Hexit |].
  destruct (unread_answer_fails_the_run_after_the_report
              Cases.unattended None Sample.job
              ltac:(discriminate) eq_refl Hs
              ltac:(rewrite Hf; discriminate) eq_refl)
    as (results & before & after & _ & _ & Hquiet & _).
  exact Hquiet.
Defined.



(** X9: a run over a non-empty corpus writes exactly one report; it has one
    row per processed file, the first 200 eligible files in name order when
    there are more, each file once; when the corpus is over the cap, the
    warning about it comes before any file is processed. *)
Theorem one_report_row_per_processed_file
    (E : env) (disk : option (gmap string string)) (content : string) :
  getenv_api_key E <> Some "" ->
  job_txt E = Some content ->
  100 <= Text.len (Text.strip content) ->
  get_cv_files E <> [] ->
  exists rows before after,
    trace (snd (main E (start disk)))
    = (before
         ++ [EvCsv ("results_" ++ strftime_now E ++ ".csv")
                   ["filename"; "score"; "summary"; "tags"; "status"] rows]
         ++ after)%list /\
    List.length rows = Nat.min 200 (List.length (get_cv_files E)) /\
    Permutation (map (fun row => hd "" row) rows)
                (map name (firstn 200 (get_cv_files E))) /\
    (forall path header rows',
        ~ In (EvCsv path header rows') before /\
        ~ In (EvCsv path header rows') after) /\
    ((200 < List.length (get_cv_files E))%nat ->
     exists rest,
       before = EvPrint (MsgLimiting (List.length (get_cv_files E))) :: rest).
Proof.
  intros Hk Hj Hs Hne.
  destruct (run_outcome E disk content Hk Hj Hs Hne)
    as (results & fe & ce & code & st' & Hrun & Hnames & Htr & Hfe & Hce & _).
  rewrite Hrun. simpl snd.
  exists (map csv_row_of (rank_results results)).
  eexists (_ ++ fe)%list, ce.
  split; [rewrite Htr, <- app_assoc; reflexivity |].
  assert (Hrows : map (fun row => hd "" row) (map csv_row_of (rank_results results))
                  = map filename (rank_results results)).
  { rewrite map_map. reflexivity. }
  split.
  { rewrite length_map, (Permutation_length (rank_results_perm results)).
    rewrite <- (length_map filename results), Hnames, length_map.
    apply List.length_firstn. }
  split.
  { rewrite Hrows, <- Hnames. apply Permutation_map, rank_results_perm. }
  split.
  { intros path header rows'. split.
    - intros Hin. apply in_app_or in Hin. destruct Hin as [Hin | Hin].
      + destruct (200 <? List.length (get_cv_files E))%nat;
          [destruct Hin as [Hin | []]; discriminate | destruct Hin].
      + rewrite List.Forall_forall in Hfe. exact (Hfe _ Hin).
    - intros Hin. rewrite List.Forall_forall in Hce. exact (Hce _ Hin). }
  intros Hbig. apply Nat.ltb_lt in Hbig. rewrite Hbig. eexists. reflexivity.
Qed.

Lemma one_report_row_per_processed_file_witness :
  get_cv_files Cases.one_cv = [Sample.cv] /\
  exists rows before after,
    trace (snd (main Cases.one_cv (start None)))
    = (before
         ++ [EvCsv ("results_" ++ strftime_now Cases.one_cv ++ ".csv")
                   ["filename"; "score"; "summary"; "tags"; "status"] rows]
         ++ after)%list /\
    List.length rows = 1%nat.
Proof.
  assert (Hf : get_cv_files Cases.one_cv = [Sample.cv])
    by (vm_compute; reflexivity).
  assert (Hs : 100 <= Text.len (Text.strip Sample.job))
    by (vm_compute; discriminate).
  split; [exact Hf |].
  destruct (one_report_row_per_processed_file Cases.one_cv None Sample.job
              ltac:(discriminate) eq_refl Hs
              ltac:(rewrite Hf; discriminate))
    as (rows & before & after & Htr & Hlen & _).
  exists rows, before, after. split; [exact Htr |].
  rewrite Hlen, Hf. reflexivity.
Defined.

(** X10: unless the operator answers the cleanup question with [y] (in any
    case, blanks around it ignored), a run sends no deletion request. *)
Theorem no_deletion_without_confirmation
    (E : env) (disk : option (gmap string string)) (content : string) :
  getenv_api_key E <> Some "" ->
  job_txt E = Some content ->
  100 <= Text.len (Text.strip content) ->
  String.eqb (Text.strip (Text.lower (input_line E))) "y" = false ->
  forall h, ~ In (EvDelete h) (trace (snd (main E (start disk)))).
Proof.
  intros Hk Hj Hs Hno h.
  destruct (get_cv_files E) as [| f fs] eqn:Hf.
  - rewrite (empty_corpus_run E disk content Hk Hj Hs Hf). simpl.
    destruct disk; simpl; intros [Hin | []]; discriminate.
  - assert (Hne : get_cv_files E <> []) by (rewrite Hf; discriminate).
    destruct (run_outcome E disk content Hk Hj Hs Hne)
      as (results & fe & ce & code & st' & Hrun & _ & Htr & Hfe & _ & Hquiet
          & _).
    rewrite Hrun. simpl snd. rewrite Htr.
    intros Hin. repeat (apply in_app_or in Hin; destruct Hin as [Hin | Hin]).
    + destruct (200 <? _)%nat; [destruct Hin as [Hin | []]; discriminate |
                                 destruct Hin].
    + rewrite List.Forall_forall in Hfe. exact (Hfe _ Hin).
    + destruct Hin as [Hin | []]; discriminate.
    + assert (Hd : In (EvDelete h) (List.filter is_delete ce))
        by (apply List.filter_In; now split).
      rewrite (Hquiet Hno) in Hd. destruct Hd.
Qed.

Lemma no_deletion_without_confirmation_witness :
  String.eqb (Text.strip (Text.lower (input_line Cases.one_cv))) "y" = false /\
  ~ In (EvDelete "file-1") (trace (snd (main Cases.one_cv (start None)))).
Proof.
  assert (Hs : 100 <= Text.len (Text.strip Sample.job))
    by (vm_compute; discriminate).
  split; [reflexivity |].
  exact (no_deletion_without_confirmation Cases.one_cv None Sample.job
           ltac:(discriminate) eq_refl Hs eq_refl "file-1").
Defined.

(** X11: the cleanup never raises. It asks the endpoint to delete the handle
    of every success record that has one, once each and in report order,
    whether or not earlier deletions failed; then it empties the whole cache,
    also of handles whose deletion failed or that belong to no record, and
    rewrites the cache file (when it can be written) as the empty map. *)
Theorem cleanup_deletes_successes_and_forgets_everything
    (E : env) (results : list ResultRecord) (st : state) :
  exists st' evs,
    cleanup_uploaded_files E results st = (Ret tt, st') /\
    uploaded_files_cache st' = ∅ /\
    (cache_writable E = true -> cache_file st' = Some ∅) /\
    (cache_writable E = false -> cache_file st' = cache_file st) /\
    trace st' = (trace st ++ evs)%list /\
    List.filter is_delete evs = map EvDelete (deletable results) /\
    (forall h, In h (deletable results) <->
               exists r, In r results /\ status r = success
                         /\ file_id r = Some h /\ h <> "").
Proof.
  destruct (cleanup_outcome E results st) as (evs & k & Hrun & Hdel & _).
  rewrite Hrun. do 2 eexists. split; [reflexivity |]. simpl.
  split; [reflexivity |].
  split; [now intros -> |]. split; [now intros -> |].
  split; [reflexivity |]. split; [exact Hdel |].
  intros h. unfold deletable. rewrite in_flat_map. split.
  - intros (r & Hin & Hh). exists r. split; [exact Hin |].
    destruct (file_id r) as [[| c h'] |]; simpl in Hh; try destruct Hh.
    unfold is_success in Hh. destruct (status r); simpl in Hh.
    + destruct Hh as [<- | []]. repeat split; discriminate.
    + destruct Hh.
  - intros (r & Hin & Hs & Hid & Hne). exists r. split; [exact Hin |].
    rewrite Hid. destruct h as [| c h']; [congruence |].
    unfold is_success. rewrite Hs. simpl. now left.
Qed.

Lemma filter_all {A : Type} (f : A -> bool) (l : list A) :
  Forall (fun x => f x = true) l -> List.filter f l = l.
Proof.
  induction 1 as [| x l Hx _ IH]; simpl; [reflexivity |].
  now rewrite Hx, IH.
Qed.

Lemma filter_none {A : Type} (f : A -> bool) (l : list A) :
  Forall (fun x => f x = false) l -> List.filter f l = [].
Proof.
  induction 1 as [| x l Hx _ IH]; simpl; [reflexivity |].
  now rewrite Hx, IH.
Qed.

Lemma sort_desc_of_descending (l : list ResultRecord) :
  descending l -> sort_desc l = l.
Proof.
  unfold descending. induction 1 as [| x l Hl IH Hx]; simpl; [reflexivity |].
  rewrite IH. destruct l as [| y l']; [reflexivity |]. simpl.
  inversion Hx as [| ? ? Hy _]; subst.
  destruct (Z.ltb_spec (score_key x) (score_key y)); [lia | reflexivity].
Qed.

(** X12: ranking loses and invents nothing, the report holds every record
    exactly once; and ranking a ranked report changes nothing. *)
Theorem ranking_keeps_every_record_and_is_idempotent
    (results : list ResultRecord) :
  Permutation (rank_results results) results /\
  List.length (rank_results results) = List.length results /\
  rank_results (rank_results results) = rank_results results.
Proof.
  split; [apply rank_results_perm |].
  split; [apply Permutation_length, rank_results_perm |].
  unfold rank_results at 1.
  set (S := List.filter is_success results).
  set (F := List.filter is_error results).
  assert (HS : Forall (fun r => status r = success) (sort_desc S)).
  { apply (Permutation_Forall (Permutation_sym (sort_desc_perm S))).
    apply List.Forall_forall. intros r Hin. apply List.filter_In in Hin.
    destruct Hin as (_ & Hs). unfold is_success in Hs.
    destruct (status r); [reflexivity | discriminate]. }
  assert (HF : Forall (fun r => status r = error) F).
  { apply List.Forall_forall. intros r Hin. apply List.filter_In in Hin.
    destruct Hin as (_ & Hs). unfold is_error in Hs.
    destruct (status r); [discriminate | reflexivity]. }
  unfold rank_results. fold S F.
  rewrite !List.filter_app.
  rewrite (filter_all is_success (sort_desc S)),
          (filter_none is_success F),
          (filter_none is_error (sort_desc S)),
          (filter_all is_error F).
  - rewrite app_nil_r. simpl.
    now rewrite (sort_desc_of_descending _ (sort_desc_sorted S)).
  - eapply List.Forall_impl; [| exact HF]. simpl.
    intros r Hr. unfold is_error. now rewrite Hr.
  - eapply List.Forall_impl; [| exact HS]. simpl.
    intros r Hr. unfold is_error. now rewrite Hr.
  - eapply List.Forall_impl; [| exact HF]. simpl.
    intros r Hr. unfold is_success. now rewrite Hr.
  - eapply List.Forall_impl; [| exact HS]. simpl.
    intros r Hr. unfold is_success. now rewrite Hr.
Qed.

(** ** The cache across runs *)

(** X14: what a run stores survives to the next run. After an upload that
    had to be requested, the cache file holds the whole cache (when it can be
    written); a process started on that cache file begins with exactly that
    cache, and every file name cached by the first run, not only the one just
    uploaded, is then answered from the cache without a request. *)
Theorem cache_survives_to_the_next_run
    (E1 E2 : env) (fp : Path) (st st1 : state) (h : string) :
  uploaded_files_cache st !! name fp = None ->
  upload_file_to_openai E1 fp st = (Ret (Some h), st1) ->
  cache_writable E1 = true ->
  getenv_api_key E2 <> Some "" ->
  cache_file st1 = Some (uploaded_files_cache st1) /\
  init E2 (start (cache_file st1)) = (Ret tt, loaded (cache_file st1)) /\
  uploaded_files_cache (loaded (cache_file st1)) = uploaded_files_cache st1 /\
  forall (fp2 : Path) (h2 : string),
    uploaded_files_cache st1 !! name fp2 = Some h2 ->
    upload_file_to_openai E2 fp2 (loaded (cache_file st1))
    = (Ret (Some h2),
       logged [EvPrint (MsgUsingCached (name fp2))] (loaded (cache_file st1))).
Proof.
  intros Hm Hup Hw Hk.
  rewrite (upload_miss E1 fp st Hm) in Hup.
  destruct (st_size fp >? 512 * 1024 * 1024); [discriminate |].
  destruct (st_size fp <? 100); [discriminate |].
  destruct (files_create E1 (requests st) fp) as [h' | e]; [| discriminate].
  injection Hup as <- <-.
  assert (Hdisk : cache_file (stored E1 fp h' st)
                  = Some (uploaded_files_cache (stored E1 fp h' st))).
  { unfold stored. simpl. now rewrite Hw. }
  split; [exact Hdisk |]. split; [now apply init_ok |].
  rewrite Hdisk. split; [reflexivity |].
  intros fp2 h2 Hh2. now apply upload_hit.
Qed.

Lemma cache_survives_to_the_next_run_witness :
  upload_file_to_openai Cases.one_cv Sample.cv (start None)
  = (Ret (Some "file-1"), Cases.cached) /\
  fst (upload_file_to_openai Sample.mute Sample.cv
         (loaded (cache_file Cases.cached)))
  = Ret (Some "file-1").
Proof.
  assert (Hup : upload_file_to_openai Cases.one_cv Sample.cv (start None)
                = (Ret (Some "file-1"), Cases.cached))
    by (vm_compute; reflexivity).
  split; [exact Hup |].
  destruct (cache_survives_to_the_next_run
              Cases.one_cv Sample.mute Sample.cv (start None) Cases.cached
              "file-1" eq_refl Hup eq_refl ltac:(discriminate))
    as (_ & _ & _ & Hhit).
  rewrite (Hhit Sample.cv "file-1"); [reflexivity | vm_compute; reflexivity].
Defined.

(** ** Edge cases of the extraction *)

Lemma substring_none (n : nat) (s : string) : substring n 0 s = "".
Proof.
  revert n. induction s as [| c s IH]; intros [| n]; simpl; auto.
Qed.

Lemma rfind_lower_bound (c : ascii) (s : string) : -1 <= Text.rfind c s.
Proof.
  unfold Text.rfind.
  destruct (rfind_from_range c s 0) as [-> | H]; lia.
Qed.

(** X15: the check [end_idx == -1] of the validator can never hold. A reply
    without an opening brace is reported as "No JSON found" without calling
    the decoder; a reply with an opening brace and no closing brace after it
    is not: the empty string is handed to [json.loads], and the fault
    reported is whatever the decoder says about the empty string. *)
Theorem extraction_edge_cases (text : string) :
  Text.rfind "}" text + 1 <> -1 /\
  (Text.find "{" text = -1 ->
   forall loads,
     validate_json_response loads text
     = Raise (Exn ValueError "Invalid JSON response: No JSON found in response")) /\
  (Text.find "{" text <> -1 ->
   Text.rfind "}" text < Text.find "{" text ->
   extract_json text = Ret "" /\
   forall loads,
     validate_json_response loads text
     = rewrap (match loads "" with
               | Ok result => check_fields result
               | Fault e => Raise e
               end)).
Proof.
  pose proof (rfind_lower_bound "}" text) as Hr.
  split; [lia |]. split.
  - intros Hf loads. unfold validate_json_response, extract_json.
    rewrite Hf. reflexivity.
  - intros Hf Hlt.
    assert (Hx : extract_json text = Ret "").
    { unfold extract_json.
      destruct (Z.eqb_spec (Text.find "{" text) (-1)); [contradiction |].
      destruct (Z.eqb_spec (Text.rfind "}" text + 1) (-1)); [lia |].
      simpl. f_equal. unfold Text.slice, Text.clamp.
      destruct (find_from_range "{" text 0) as [H0 | H0];
        [unfold Text.find in Hf; contradiction |].
      fold (Text.find "{" text) in H0.
      destruct (Z.ltb_spec (Text.find "{" text) 0); [lia |].
      destruct (Z.ltb_spec (Text.rfind "}" text + 1) 0); [lia |].
      replace (Z.to_nat (Z.min (Text.rfind "}" text + 1) (Text.len text)
                         - Z.min (Text.find "{" text) (Text.len text)))
        with 0%nat by lia.
      apply substring_none. }
    split; [exact Hx |]. intros loads.
    unfold validate_json_response. now rewrite Hx.
Qed.

Lemma extraction_edge_cases_witness :
  Text.find "{" "Result: { score 85" <> -1 /\
  Text.rfind "}" "Result: { score 85" < Text.find "{" "Result: { score 85" /\
  extract_json "Result: { score 85" = Ret "".
Proof.
  assert (Hf : Text.find "{" "Result: { score 85" <> -1)
    by (vm_compute; discriminate).
  assert (Hlt : Text.rfind "}" "Result: { score 85"
                < Text.find "{" "Result: { score 85")
    by (vm_compute; reflexivity).
  split; [exact Hf |]. split; [exact Hlt |].
  destruct (extraction_edge_cases "Result: { score 85") as (_ & _ & H).
  now destruct (H Hf Hlt).
Defined.

(** ** The corpus scanner *)

Lemma insert_path_perm (p : Path) (l : list Path) :
  Permutation (insert_path p l) (p :: l).
Proof.
  induction l as [| q l IH]; simpl; [apply Permutation_refl |].
  destruct (path_leb p q); [apply Permutation_refl |].
  apply perm_trans with (q :: p :: l); [now apply perm_skip | apply perm_swap].
Qed.

Lemma sorted_paths_perm (l : list Path) : Permutation (sorted_paths l) l.
Proof.
  induction l as [| p l IH]; simpl; [apply perm_nil |].
  apply perm_trans with (p :: sorted_paths l);
    [apply insert_path_perm | now apply perm_skip].
Qed.

Lemma path_leb_total (a b : Path) : path_leb a b = false -> path_leb b a = true.
Proof.
  unfold path_leb. rewrite (String.compare_antisym (name a) (name b)).
  destruct (String.compare (name b) (name a)); simpl; congruence.
Qed.

Lemma insert_path_sorted (p : Path) (l : list Path) :
  Sorted (fun a b => path_leb a b = true) l ->
  Sorted (fun a b => path_leb a b = true) (insert_path p l).
Proof.
  induction l as [| q l IH]; intros Hs; simpl.
  - repeat constructor.
  - destruct (path_leb p q) eqn:Hpq.
    + constructor; [exact Hs | now constructor].
    + inversion Hs as [| ? ? Hl Hq]; subst.
      constructor; [now apply IH |].
      destruct l as [| r l']; simpl.
      * constructor. now apply path_leb_total.
      * destruct (path_leb p r); constructor.
        -- now apply path_leb_total.
        -- now inversion Hq.
Qed.

(** X16: the corpus is exactly the entries of the folder that are regular
    files with the extension [.pdf] or [.docx] in any letter case, each as
    often as the folder lists it, arranged so that names never decrease. *)
Theorem corpus_is_the_sorted_eligible_entries (E : env) :
  Permutation
    (get_cv_files E)
    (List.filter
       (fun p => is_file p
                 && (String.eqb (Text.lower (suffix p)) ".pdf"
                     || String.eqb (Text.lower (suffix p)) ".docx"))
       (iterdir E)) /\
  (forall p,
      In p (get_cv_files E)
      <-> In p (iterdir E) /\ is_file p = true
          /\ (Text.lower (suffix p) = ".pdf" \/ Text.lower (suffix p) = ".docx")) /\
  Sorted (fun a b => String.compare (name a) (name b) <> Gt) (get_cv_files E).
Proof.
  assert (Hfilter :
    forall l,
      List.filter
        (fun p => is_file p && str_in (Text.lower (suffix p)) supported_extensions) l
      = List.filter
          (fun p => is_file p
                    && (String.eqb (Text.lower (suffix p)) ".pdf"
                        || String.eqb (Text.lower (suffix p)) ".docx")) l).
  { intros l. apply List.filter_ext. intros p. unfold str_in. simpl.
    now rewrite orb_false_r. }
  assert (Hperm : Permutation
            (get_cv_files E)
            (List.filter
               (fun p => is_file p
                         && (String.eqb (Text.lower (suffix p)) ".pdf"
                             || String.eqb (Text.lower (suffix p)) ".docx"))
               (iterdir E))).
  { unfold get_cv_files. rewrite Hfilter. apply sorted_paths_perm. }
  split; [exact Hperm |]. split.
  - intros p. split.
    + intros Hin. apply (Permutation_in _ Hperm) in Hin.
      apply List.filter_In in Hin. destruct Hin as (Hin & Hc).
      apply andb_true_iff in Hc. destruct Hc as (Hfile & Hext).
      apply orb_true_iff in Hext. rewrite !String.eqb_eq in Hext. auto.
    + intros (Hin & Hfile & Hext).
      apply (Permutation_in _ (Permutation_sym Hperm)).
      apply List.filter_In. split; [exact Hin |].
      rewrite Hfile. simpl. apply orb_true_iff. now rewrite !String.eqb_eq.
  - unfold get_cv_files.
    set (l := List.filter _ (iterdir E)).
    assert (Hs : Sorted (fun a b => path_leb a b = true) (sorted_paths l)).
    { induction l as [| p l IH]; simpl; [constructor |].
      now apply insert_path_sorted. }
    clearbody l.
    induction Hs as [| a l' Hl IH Hhd]; constructor; [exact IH |].
    destruct Hhd as [| b l'' Hab]; constructor.
    unfold path_leb in Hab.
    destruct (String.compare (name a) (name b)); congruence.
Qed.

(** ** The HTTP variant *)

Lemma dict_get_set_same (k : string) (v : json) (d : list (string * json)) :
  dict_get k (Decoder.dict_set k v d) = Some v.
Proof.
  induction d as [| [k' v'] d IH]; simpl.
  - now rewrite String.eqb_refl.
  - destruct (String.eqb k k') eqn:Hk; simpl.
    + now rewrite String.eqb_refl.
    + now rewrite Hk.
Qed.

Lemma dict_get_set_other (k k' : string) (v : json) (d : list (string * json)) :
  k <> k' -> dict_get k' (Decoder.dict_set k v d) = dict_get k' d.
Proof.
  intros Hne. induction d as [| [k0 v0] d IH]; simpl.
  - destruct (String.eqb_spec k' k); [congruence | reflexivity].
  - destruct (String.eqb_spec k k0) as [<- | Hk0]; simpl.
    + destruct (String.eqb_spec k' k); [congruence | reflexivity].
    + destruct (String.eqb k' k0); [reflexivity | exact IH].
Qed.

Lemma repair_score_ok (d d1 : list (string * json)) (sc : pyint) :
  Service.repair_score d = (sc, d1) ->
  as_int (dict_get "score" d1) = Some sc /\
  1 <= int_value sc <= 100 /\
  (forall k, k <> "score" -> dict_get k d1 = dict_get k d) /\
  (as_int (dict_get "score" d) = Some sc -> d1 = d).
Proof.
  unfold Service.repair_score.
  destruct (as_int (dict_get "score" d)) as [i |] eqn:Hi.
  - destruct (Z.leb_spec 1 (int_value i));
      destruct (Z.leb_spec (int_value i) 100); simpl; intros [= <- <-].
    1: { repeat split; auto; lia. }
    all: rewrite dict_get_set_same; simpl; repeat split; try lia;
      try (intros k Hk; apply dict_get_set_other; congruence);
      intros [= ->]; simpl in *; lia.
  - intros [= <- <-]. rewrite dict_get_set_same. simpl.
    repeat split; try lia; try discriminate.
    intros k Hk. apply dict_get_set_other. congruence.
Qed.

Lemma repair_summary_ok (sc : pyint) (d1 d2 : list (string * json)) :
  Service.repair_summary sc d1 = Ok d2 ->
  (exists s, dict_get "summary" d2 = Some (JStr s)) /\
  (forall k, k <> "summary" -> dict_get k d2 = dict_get k d1).
Proof.
  unfold Service.repair_summary.
  destruct (dict_get "summary" d1) as [v |] eqn:Hv.
  - destruct v as [| b | z | f | s | l | o]; simpl; try discriminate.
    destruct (Text.len s <? 100); simpl; intros [= <-].
    + rewrite dict_get_set_same. split; [eauto |].
      intros k Hk. apply dict_get_set_other. congruence.
    + split; [eauto | reflexivity].
  - simpl. intros [= <-]. rewrite dict_get_set_same. split; [eauto |].
    intros k Hk. apply dict_get_set_other. congruence.
Qed.

Lemma repair_tags_ok (d2 : list (string * json)) :
  (exists l, dict_get "tags" (Service.repair_tags d2) = Some (JList l)) /\
  (forall k, k <> "tags" ->
             dict_get k (Service.repair_tags d2) = dict_get k d2).
Proof.
  unfold Service.repair_tags.
  destruct (dict_get "tags" d2) as [v |] eqn:Hv.
  - destruct v as [| b | z | f | s | l | o];
      try (rewrite dict_get_set_same; split; [eauto |];
           intros k Hk; apply dict_get_set_other; congruence).
    split; [eauto | reflexivity].
  - rewrite dict_get_set_same. split; [eauto |].
    intros k Hk. apply dict_get_set_other. congruence.
Qed.

(** What the cleaning returns holds the three keys at their classes. *)
Lemma clean_well_formed (result : json) (d : list (string * json)) :
  Service.clean result = Ok d ->
  (exists i, as_int (dict_get "score" d) = Some i /\ 1 <= int_value i <= 100) /\
  (exists s, dict_get "summary" d = Some (JStr s)) /\
  (exists l, dict_get "tags" d = Some (JList l)).
Proof.
  destruct result as [| b | z | f | s | l | d0]; try discriminate.
  unfold Service.clean.
  destruct (Service.repair_score d0) as [sc d1] eqn:H1.
  destruct (Service.repair_summary sc d1) as [d2 | e] eqn:H2; [| discriminate].
  intros [= <-].
  apply repair_score_ok in H1. destruct H1 as (Hsc & Hr & _ & _).
  apply repair_summary_ok in H2. destruct H2 as ((s & Hs) & Hk2).
  destruct (repair_tags_ok d2) as ((l & Hl) & Hk3).
  split; [| split].
  - exists sc. rewrite Hk3, Hk2 by discriminate. now split.
  - exists s. now rewrite Hk3 by discriminate.
  - now exists l.
Qed.

(** The scorer of the service fails with status 500 only. *)
Lemma service_scorer_outcome (C : Service.collab) (cv job key : string) :
  (exists d, Service.analyze_cv_with_openai C cv job key = Service.Respond d
             /\ exists content result,
                  Service.chat C cv job key = Ok (Some content)
                  /\ Service.parse_or_default C (Text.strip content) = Ok result
                  /\ Service.clean result = Ok d) \/
  (exists e, Service.analyze_cv_with_openai C cv job key
             = Service.HTTPException 500 ("AI analysis failed: " ++ msg e)).
Proof.
  unfold Service.analyze_cv_with_openai.
  destruct (Service.chat C cv job key) as [[content |] | e].
  - destruct (Service.parse_or_default C (Text.strip content)) as [result | e]
      eqn:Hp; [| right; now exists e].
    destruct (Service.clean result) as [d | e] eqn:Hc; [| right; now exists e].
    left. exists d. split; [reflexivity |]. eauto.
  - right.
    now exists (Exn AttributeError "'NoneType' object has no attribute 'strip'").
  - right. now exists e.
Qed.

(** X17: whatever the model replies, a result the scorer of the service
    returns holds an integer score between 1 and 100, a summary that is a
    string and tags that are a list, so the three reads of the endpoint
    never miss a key. *)
Theorem service_result_is_well_formed
    (C : Service.collab) (cv job key : string) (d : list (string * json)) :
  Service.analyze_cv_with_openai C cv job key = Service.Respond d ->
  (exists i, as_int (dict_get "score" d) = Some i /\ 1 <= int_value i <= 100) /\
  (exists s, dict_get "summary" d = Some (JStr s)) /\
  (exists l, dict_get "tags" d = Some (JList l)) /\
  (forall k, In k ["score"; "summary"; "tags"] ->
             exists v, Service.item k d = Service.Respond v).
Proof.
  intros H.
  destruct (service_scorer_outcome C cv job key)
    as [(d' & Hd & content & result & _ & _ & Hc) | (e & He)];
    [| congruence].
  rewrite H in Hd. injection Hd as <-.
  destruct (clean_well_formed _ _ Hc) as (Hsc & Hs & Hl).
  split; [exact Hsc |]. split; [exact Hs |]. split; [exact Hl |].
  intros k Hk. unfold Service.item.
  destruct Hsc as (i & Hi & _). destruct Hs as (s & Hs). destruct Hl as (l & Hl).
  simpl in Hk. destruct Hk as [<- | [<- | [<- | []]]].
  - destruct (dict_get "score" d); [eauto | discriminate].
  - rewrite Hs. eauto.
  - rewrite Hl. eauto.
Qed.

Lemma service_result_is_well_formed_witness :
  Service.analyze_cv_with_openai
    (Cases.backend (Ok (Some Cases.score_only))) Cases.pdf_text "job" "sk-test"
  = Service.Respond Cases.score_only_cleaned /\
  exists s, dict_get "summary" Cases.score_only_cleaned = Some (JStr s).
Proof.
  assert (H : Service.analyze_cv_with_openai
                (Cases.backend (Ok (Some Cases.score_only)))
                Cases.pdf_text "job" "sk-test"
              = Service.Respond Cases.score_only_cleaned)
    by (vm_compute; reflexivity).
  split; [exact H |].
  exact (proj1 (proj2 (service_result_is_well_formed _ _ _ _ _ H))).
Defined.

Lemma substring_all (s : string) : substring 0 (String.length s) s = s.
Proof. induction s as [| c s IH]; simpl; [reflexivity | now rewrite IH]. Qed.

Lemma length_substring_prefix (n : nat) (s : string) :
  (n <= String.length s)%nat -> String.length (substring 0 n s) = n.
Proof.
  revert n. induction s as [| c s IH]; intros [| n] Hn; simpl in *; try lia.
  rewrite IH; lia.
Qed.

Lemma slice_whole (s : string) (n : Z) :
  Text.len s <= n -> Text.slice s 0 n = s.
Proof.
  intros Hn. pose proof (len_nonneg s) as H0.
  unfold Text.slice, Text.clamp.
  destruct (Z.ltb_spec 0 0); [lia |].
  destruct (Z.ltb_spec n 0); [lia |].
  replace (Z.to_nat (Z.min 0 (Text.len s))) with 0%nat by lia.
  replace (Z.to_nat (Z.min n (Text.len s) - Z.min 0 (Text.len s)))
    with (String.length s) by (unfold Text.len in *; lia).
  apply substring_all.
Qed.

Lemma len_slice_prefix (s : string) (n : Z) :
  0 <= n <= Text.len s -> Text.len (Text.slice s 0 n) = n.
Proof.
  intros Hn. unfold Text.slice, Text.clamp.
  destruct (Z.ltb_spec 0 0); [lia |].
  destruct (Z.ltb_spec n 0); [lia |].
  replace (Z.to_nat (Z.min 0 (Text.len s))) with 0%nat by lia.
  unfold Text.len in *. rewrite length_substring_prefix; lia.
Qed.

(** The two ways in which the inner [try] of the service ends in its
    [except]: no opening brace, or a decoder fault deriving from
    [ValueError]. *)
Lemma parse_or_default_caught (C : Service.collab) (text : string) :
  (Text.find "{" text = -1 \/
   exists e,
     Service.loads C
       (Text.slice text (Text.find "{" text) (Text.rfind "}" text + 1))
     = Fault e /\ is_ValueError e = true) ->
  Service.parse_or_default C text = Ok (JDict (Service.unparsed text)).
Proof.
  unfold Service.parse_or_default. intros [Hf | (e & He & Hv)].
  - rewrite Hf. reflexivity.
  - destruct (negb _ && negb _); [| reflexivity].
    now rewrite He, Hv.
Qed.

Lemma clean_unparsed (text : string) :
  Service.clean (JDict (Service.unparsed text))
  = Ok [("score", JInt 50);
        ("summary",
         JStr (if Text.len text <? 100
               then "Analysis completed. Score: 50/100. " ++ text
               else Text.slice text 0 800));
        ("tags", JList [JStr "general"; JStr "needs_review"])].
Proof.
  pose proof (len_nonneg text) as H0.
  unfold Service.clean, Service.unparsed.
  destruct (Z.gtb_spec (Text.len text) 800) as [Hlong | Hshort].
  - change (Service.repair_score ?d) with (PyInt 50, d). cbv iota beta.
    unfold Service.repair_summary. cbn [dict_get String.eqb Ascii.eqb Bool.eqb].
    rewrite len_slice_prefix by lia.
    destruct (Z.ltb_spec (Text.len text) 100); [lia |]. reflexivity.
  - change (Service.repair_score ?d) with (PyInt 50, d). cbv iota beta.
    unfold Service.repair_summary. cbn [dict_get String.eqb Ascii.eqb Bool.eqb].
    rewrite (slice_whole text 800) by lia.
    destruct (Z.ltb_spec (Text.len text) 100).
    + cbn [negb]. cbv iota. unfold Service.prefixed_summary.
      rewrite slice_whole by lia. reflexivity.
    + reflexivity.
Qed.

(** X18: a reply in which no JSON object can be found or decoded is not an
    error for the service. It answers with score 50, the tags [general] and
    [needs_review], and as summary the first 800 characters of the reply, or,
    when the reply has fewer than 100 characters, the reply behind the text
    "Analysis completed. Score: 50/100. ". *)
Theorem reply_without_json_gets_the_defaults
    (C : Service.collab) (cv job key content text : string) :
  Service.chat C cv job key = Ok (Some content) ->
  text = Text.strip content ->
  (Text.find "{" text = -1 \/
   exists e,
     Service.loads C
       (Text.slice text (Text.find "{" text) (Text.rfind "}" text + 1))
     = Fault e /\ is_ValueError e = true) ->
  Service.analyze_cv_with_openai C cv job key
  = Service.Respond
      [("score", JInt 50);
       ("summary",
        JStr (if Text.len text <? 100
              then "Analysis completed. Score: 50/100. " ++ text
              else Text.slice text 0 800));
       ("tags", JList [JStr "general"; JStr "needs_review"])].
Proof.
  intros Hchat -> Hcaught.
  unfold Service.analyze_cv_with_openai. rewrite Hchat.
  rewrite (parse_or_default_caught C _ Hcaught), clean_unparsed.
  reflexivity.
Qed.

Lemma reply_without_json_gets_the_defaults_witness :
  Service.analyze_cv_with_openai
    (Cases.backend (Ok (Some "  I cannot read this file. ")))
    Cases.pdf_text "job" "sk-test"
  = Service.Respond
      [("score", JInt 50);
       ("summary",
        JStr "Analysis completed. Score: 50/100. I cannot read this file.");
       ("tags", JList [JStr "general"; JStr "needs_review"])].
Proof.
  exact (reply_without_json_gets_the_defaults
           (Cases.backend (Ok (Some "  I cannot read this file. ")))
           Cases.pdf_text "job" "sk-test" "  I cannot read this file. "
           "I cannot read this file." eq_refl eq_refl (or_introl eq_refl)).
Defined.

Lemma parse_or_default_decoded
    (C : Service.collab) (text : string) (result : json) :
  service_parse_reply (Service.loads C) text = Ret result ->
  Service.parse_or_default C text = Ok result.
Proof.
  unfold service_parse_reply, Service.parse_or_default.
  destruct (negb _ && negb _); [| discriminate].
  destruct (Service.loads C _); simpl; [congruence | discriminate].
Qed.

Lemma extracted_is_parsed
    (loads : string -> reply json) (text J : string) (result : json) :
  extract_json text = Ret J -> loads J = Ok result ->
  service_parse_reply loads text = Ret result.
Proof.
  unfold extract_json, service_parse_reply.
  destruct (Text.find "{" text =? -1); simpl; [discriminate |].
  destruct (Text.rfind "}" text + 1 =? -1); simpl; [discriminate |].
  intros [= <-] ->. reflexivity.
Qed.

Lemma clean_accepted (d : list (string * json)) (a : AnalysisResult) :
  check_fields (JDict d) = Ret a -> Service.clean (JDict d) = Ok d.
Proof.
  intros Hc. apply check_fields_sound in Hc.
  destruct Hc as (Hs & (Hm & Hlen) & (Ht & _)).
  assert (Hsc : as_int (dict_get "score" d) = Some (score a)
                /\ 1 <= int_value (score a) <= 100).
  { destruct Hs as [(z & -> & Hz & ->) | (-> & ->)]; simpl; split; auto; lia. }
  destruct Hsc as (Hsc & Hr).
  unfold Service.clean, Service.repair_score. rewrite Hsc.
  destruct (Z.leb_spec 1 (int_value (score a))); [| lia].
  destruct (Z.leb_spec (int_value (score a)) 100); [| lia].
  cbn [andb]. cbv iota.
  unfold Service.repair_summary. rewrite Hm.
  pose proof (strip_len_le (summary a)) as Hle.
  destruct (Z.ltb_spec (Text.len (summary a)) 100); [lia |].
  cbn [negb]. cbv iota zeta.
  unfold Service.repair_tags. now rewrite Ht.
Qed.

(** X19: the service is at least as lenient as the batch validator. A reply
    the validator of [cv_analyzer.py] accepts is answered by the service with
    the decoded object itself, nothing repaired, and its three entries are
    those of the validated record. *)
Theorem validated_reply_passes_the_service_unchanged
    (C : Service.collab) (cv job key content : string) (a : AnalysisResult) :
  Service.chat C cv job key = Ok (Some content) ->
  validate_json_response (Service.loads C) (Text.strip content) = Ret a ->
  exists d,
    service_parse_reply (Service.loads C) (Text.strip content) = Ret (JDict d) /\
    Service.analyze_cv_with_openai C cv job key = Service.Respond d /\
    as_int (dict_get "score" d) = Some (score a) /\
    dict_get "summary" d = Some (JStr (summary a)) /\
    dict_get "tags" d = Some (JList (tags a)).
Proof.
  intros Hchat Hv.
  destruct (validate_ret_inv _ _ _ Hv) as (J & d & HJ & Hl & Hc).
  exists d.
  pose proof (extracted_is_parsed _ _ _ _ HJ Hl) as Hp.
  split; [exact Hp |]. split.
  - unfold Service.analyze_cv_with_openai. rewrite Hchat.
    rewrite (parse_or_default_decoded _ _ _ Hp), (clean_accepted _ _ Hc).
    reflexivity.
  - apply check_fields_sound in Hc.
    destruct Hc as (Hs & (Hm & _) & (Ht & _)).
    split; [| split; assumption].
    destruct Hs as [(z & -> & _ & ->) | (-> & ->)]; reflexivity.
Qed.

Lemma validated_reply_passes_the_service_unchanged_witness :
  Service.analyze_cv_with_openai
    (Cases.backend (Ok (Some Sample.good_reply))) Cases.pdf_text "job" "sk-test"
  = Service.Respond Cases.good_dict.
Proof.
  assert (Hv : validate_json_response Decoder.loads (Text.strip Sample.good_reply)
               = Ret Sample.good_record) by (vm_compute; reflexivity).
  assert (Hp : service_parse_reply Decoder.loads (Text.strip Sample.good_reply)
               = Ret (JDict Cases.good_dict)) by (vm_compute; reflexivity).
  destruct (validated_reply_passes_the_service_unchanged
              (Cases.backend (Ok (Some Sample.good_reply)))
              Cases.pdf_text "job" "sk-test" Sample.good_reply
              Sample.good_record eq_refl Hv)
    as (d & Hd & Hrun & _).
  change (Service.loads (Cases.backend (Ok (Some Sample.good_reply))))
    with Decoder.loads in Hd.
  rewrite Hp in Hd. injection Hd as <-. exact Hrun.
Defined.

(** X20: a summary that is present but not a string is not repaired: the
    service answers with status 500, whatever the score and the tags are.
    A summary that is absent is repaired, and the service answers. *)
Theorem non_string_summary_is_a_server_error
    (C : Service.collab) (cv job key content : string)
    (d : list (string * json)) :
  Service.chat C cv job key = Ok (Some content) ->
  service_parse_reply (Service.loads C) (Text.strip content) = Ret (JDict d) ->
  (forall v, dict_get "summary" d = Some v ->
             (forall s, v <> JStr s) ->
             exists detail,
               Service.analyze_cv_with_openai C cv job key
               = Service.HTTPException 500 ("AI analysis failed: " ++ detail)) /\
  (dict_get "summary" d = None ->
   exists d', Service.analyze_cv_with_openai C cv job key = Service.Respond d').
Proof.
  intros Hchat Hp.
  unfold Service.analyze_cv_with_openai. rewrite Hchat.
  rewrite (parse_or_default_decoded _ _ _ Hp).
  unfold Service.clean.
  destruct (Service.repair_score d) as [sc d1] eqn:H1.
  apply repair_score_ok in H1. destruct H1 as (_ & _ & Hk & _).
  unfold Service.repair_summary. rewrite (Hk "summary") by discriminate.
  split.
  - intros v Hv Hns. rewrite Hv.
    destruct v as [| b | z | f | s | l | o]; simpl; eauto.
    now destruct (Hns s).
  - intros ->. simpl. eauto.
Qed.

Lemma non_string_summary_is_a_server_error_witness :
  exists detail,
    Service.analyze_cv_with_openai
      (Cases.backend (Ok (Some Cases.null_summary)))
      Cases.pdf_text "job" "sk-test"
    = Service.HTTPException 500 ("AI analysis failed: " ++ detail).
Proof.
  assert (Hp : service_parse_reply Decoder.loads (Text.strip Cases.null_summary)
               = Ret (JDict [("score", JInt 80); ("summary", JNull)]))
    by (vm_compute; reflexivity).
  apply (proj1 (non_string_summary_is_a_server_error
                  (Cases.backend (Ok (Some Cases.null_summary)))
                  Cases.pdf_text "job" "sk-test" Cases.null_summary
                  [("score", JInt 80); ("summary", JNull)] eq_refl Hp)
               JNull eq_refl).
  discriminate.
Defined.

(** ** The endpoint *)

Lemma extract_status
    (C : Service.collab) (r : Service.CVAnalysisRequest) (data : string)
    (code : Z) (detail : string) :
  Service.extract C r data = Service.HTTPException code detail -> code = 400.
Proof.
  unfold Service.extract, Service.extract_text_from_pdf,
    Service.extract_text_from_docx.
  destruct (String.eqb _ _).
  - destruct (Service.pdf_pages C data); [discriminate | congruence].
  - destruct (str_in _ _).
    + destruct (Service.docx_paragraphs C data); [discriminate | congruence].
    + congruence.
Qed.

(** The extraction asks nothing of the decoder, the model or the response
    model. *)
Lemma extract_ext
    (C C' : Service.collab) (r : Service.CVAnalysisRequest) (data : string) :
  Service.pdf_pages C' = Service.pdf_pages C ->
  Service.docx_paragraphs C' = Service.docx_paragraphs C ->
  Service.extract C' r data = Service.extract C r data.
Proof.
  intros Hp Hd.
  unfold Service.extract, Service.extract_text_from_pdf,
    Service.extract_text_from_docx.
  now rewrite Hp, Hd.
Qed.

Lemma scorer_status
    (C : Service.collab) (cv job key : string) (code : Z) (detail : string) :
  Service.analyze_cv_with_openai C cv job key
  = Service.HTTPException code detail ->
  code = 500.
Proof.
  destruct (service_scorer_outcome C cv job key) as [(d & -> & _) | (e & ->)];
    congruence.
Qed.

Lemma respond_status
    (C : Service.collab) (text : string) (d : list (string * json))
    (code : Z) (detail : string) :
  Service.respond C text d = Service.HTTPException code detail -> code = 500.
Proof.
  unfold Service.respond, Service.item.
  destruct (dict_get "score" d); [| congruence].
  destruct (dict_get "summary" d); [| congruence].
  destruct (dict_get "tags" d); [| congruence].
  destruct (Service.response_model C _); [discriminate | congruence].
Qed.

(** X21: the handler of the endpoint fails with status 400 or 500 and no
    other. A 400 is decided before the model is asked: a backend with the
    same base64 decoder and the same extractors gives the same 400, whatever
    its model, JSON decoder and response model do. *)
Theorem client_errors_are_decided_before_the_model
    (C C' : Service.collab) (r : Service.CVAnalysisRequest) :
  Service.b64decode C' = Service.b64decode C ->
  Service.pdf_pages C' = Service.pdf_pages C ->
  Service.docx_paragraphs C' = Service.docx_paragraphs C ->
  (forall code detail,
      Service.analyze_cv C r = Service.HTTPException code detail ->
      code = 400 \/ code = 500) /\
  (forall detail,
      Service.analyze_cv C r = Service.HTTPException 400 detail ->
      Service.analyze_cv C' r = Service.HTTPException 400 detail).
Proof.
  intros Hb Hp Hd. unfold Service.analyze_cv. rewrite Hb.
  destruct (Service.b64decode C (Service.file_data r)) as [data | e].
  - rewrite (extract_ext C C' r data Hp Hd).
    destruct (Service.extract C r data) as [text | code0 detail0] eqn:Hx.
    + destruct (String.eqb (Text.strip text) "").
      * split; [intros code detail [= <- _]; now left | auto].
      * destruct (Service.analyze_cv_with_openai C text _ _)
          as [d | code1 detail1] eqn:Hs.
        -- split.
           ++ intros code detail H. right. exact (respond_status _ _ _ _ _ H).
           ++ intros detail H. apply respond_status in H. discriminate.
        -- apply scorer_status in Hs. subst code1.
           split; [intros code detail [= <- _]; now right | discriminate].
    + apply extract_status in Hx. subst code0.
      split; [intros code detail [= <- _]; now left | auto].
  - split; [intros code detail [= <- _]; now left | auto].
Qed.

Lemma client_errors_are_decided_before_the_model_witness :
  Service.analyze_cv (Cases.backend (Ok (Some Sample.good_reply)))
                     Cases.csv_request
  = Service.HTTPException 400 "Unsupported file type: text/csv" /\
  Service.analyze_cv (Cases.backend (Fault (Exn OtherError "Connection error.")))
                     Cases.csv_request
  = Service.HTTPException 400 "Unsupported file type: text/csv".
Proof.
  assert (H : Service.analyze_cv (Cases.backend (Ok (Some Sample.good_reply)))
                                 Cases.csv_request
              = Service.HTTPException 400 "Unsupported file type: text/csv")
    by (vm_compute; reflexivity).
  split; [exact H |].
  exact (proj2 (client_errors_are_decided_before_the_model
                  (Cases.backend (Ok (Some Sample.good_reply)))
                  (Cases.backend (Fault (Exn OtherError "Connection error.")))
                  Cases.csv_request eq_refl eq_refl eq_refl) _ H).
Defined.

(** X22: when the endpoint answers, the file was decoded, text that is not
    blank was extracted from it, and what the response model was handed is
    that text with an integer score between 1 and 100, a summary that is a
    string and tags that are a list. *)
Theorem endpoint_answers_with_a_cleaned_analysis
    (C : Service.collab) (r : Service.CVAnalysisRequest)
    (response : Service.CVAnalysisResponse) :
  Service.analyze_cv C r = Service.Respond response ->
  exists data text sc i s l,
    Service.b64decode C (Service.file_data r) = Ok data /\
    Service.extract C r data = Service.Respond text /\
    Text.strip text <> "" /\
    as_int (Some sc) = Some i /\ 1 <= int_value i <= 100 /\
    Service.response_model C (Service.mkResponse text sc (JStr s) (JList l))
    = Ok response.
Proof.
  unfold Service.analyze_cv.
  destruct (Service.b64decode C (Service.file_data r)) as [data | e];
    [| discriminate].
  destruct (Service.extract C r data) as [text | code0 detail0] eqn:Hx;
    [| discriminate].
  destruct (String.eqb_spec (Text.strip text) "") as [| Hblank];
    [discriminate |].
  destruct (Service.analyze_cv_with_openai C text _ _) as [d | c1 d1] eqn:Hs;
    [| discriminate].
  destruct (service_scorer_outcome C text (Service.job_description r)
              (Service.openai_api_key r))
    as [(d' & Hd & content & result & _ & _ & Hc) | (e & He)];
    [| congruence].
  rewrite Hs in Hd. injection Hd as <-.
  destruct (clean_well_formed _ _ Hc) as ((i & Hi & Hr) & (s & Hsm) & (l & Hl)).
  unfold Service.respond, Service.item. rewrite Hsm, Hl.
  destruct (dict_get "score" d) as [sc |] eqn:Hsc; [| discriminate].
  destruct (Service.response_model C _) as [resp |] eqn:Hm; [| discriminate].
  intros [= <-].
  exists data, text, sc, i, s, l. repeat split; auto; lia.
Qed.

Lemma endpoint_answers_with_a_cleaned_analysis_witness :
  Service.analyze_cv (Cases.backend (Ok (Some Cases.score_only)))
                     Cases.pdf_request
  = Service.Respond
      (Service.mkResponse Cases.pdf_text (JInt 7)
         (JStr "Analysis completed. Score: 7/100. ") (JList [JStr "general"])) /\
  exists text, Service.extract (Cases.backend (Ok (Some Cases.score_only)))
                               Cases.pdf_request "JVBERi0x"
               = Service.Respond text /\ Text.strip text <> "".
Proof.
  assert (H : Service.analyze_cv (Cases.backend (Ok (Some Cases.score_only)))
                                 Cases.pdf_request
              = Service.Respond
                  (Service.mkResponse Cases.pdf_text (JInt 7)
                     (JStr "Analysis completed. Score: 7/100. ")
                     (JList [JStr "general"])))
    by (vm_compute; reflexivity).
  split; [exact H |].
  destruct (endpoint_answers_with_a_cleaned_analysis _ _ _ H)
    as (data & text & sc & i & s & l & Hb & Hx & Hne & _).
  injection Hb as <-. exists text. now split.
Defined.

(** ** The setup scripts *)

Lemma path_exists_file (p : string) (w : Setup.tree) (content : string) :
  Setup.files w !! p = Some content -> Setup.path_exists p w = true.
Proof.
  intros H. unfold Setup.path_exists.
  rewrite (bool_decide_eq_true_2 (is_Some (Setup.files w !! p))); [reflexivity |].
  rewrite H. eauto.
Qed.

(** One "write unless it exists" step of the scripts. *)
Lemma write_if_absent (p text : string) (w1 : Setup.tree) :
  let w2 := if Setup.path_exists p w1 then w1 else Setup.write_text p text w1 in
  Setup.dirs w2 = Setup.dirs w1 /\
  (forall q content,
      Setup.files w1 !! q = Some content -> Setup.files w2 !! q = Some content) /\
  (forall q content,
      Setup.files w2 !! q = Some content ->
      Setup.files w1 !! q = Some content
      \/ (q = p /\ content = text /\ Setup.path_exists p w1 = false)) /\
  Setup.path_exists p w2 = true /\
  (forall q, Setup.path_exists q w1 = true -> Setup.path_exists q w2 = true).
Proof.
  cbv zeta. destruct (Setup.path_exists p w1) eqn:Hp.
  - repeat split; auto.
  - split; [reflexivity |]. split; [| split; [| split]].
    + intros q content Hq. unfold Setup.write_text. simpl.
      destruct (decide (p = q)) as [<- | Hne].
      * rewrite (path_exists_file _ _ _ Hq) in Hp. discriminate.
      * now rewrite lookup_insert_ne.
    + intros q content. unfold Setup.write_text. simpl.
      destruct (decide (p = q)) as [<- | Hne].
      * rewrite lookup_insert_eq. intros [= <-]. now right.
      * rewrite lookup_insert_ne by exact Hne. now left.
    + apply (path_exists_file _ _ text). unfold Setup.write_text. simpl.
      apply lookup_insert_eq.
    + intros q. unfold Setup.path_exists, Setup.write_text. simpl.
      intros Hq. apply orb_true_iff in Hq. apply orb_true_iff.
      destruct Hq as [Hq | Hq]; [left | now right].
      apply bool_decide_eq_true in Hq. apply bool_decide_eq_true.
      destruct Hq as (c & Hc).
      destruct (decide (p = q)) as [<- | Hne].
      * rewrite lookup_insert_eq. eauto.
      * rewrite lookup_insert_ne by exact Hne. eauto.
Qed.

Lemma mkdir_exist_ok_cases (p : string) (w : Setup.tree) :
  (exists w1, Setup.mkdir_exist_ok p w = Ok w1
              /\ Setup.files w1 = Setup.files w
              /\ p ∈ Setup.dirs w1
              /\ (forall q, q ∈ Setup.dirs w1 <-> q ∈ Setup.dirs w \/ q = p)
              /\ (p ∈ Setup.dirs w -> w1 = w)
              /\ (p ∈ Setup.dirs w \/ Setup.files w !! p = None)) \/
  (exists e, Setup.mkdir_exist_ok p w = Fault e
             /\ is_Some (Setup.files w !! p) /\ p ∉ Setup.dirs w).
Proof.
  unfold Setup.mkdir_exist_ok.
  destruct (decide (p ∈ Setup.dirs w)) as [Hin | Hout].
  - rewrite (bool_decide_eq_true_2 _ Hin). left. exists w.
    repeat split; auto. intros [H | ->]; assumption.
  - rewrite (bool_decide_eq_false_2 _ Hout).
    destruct (decide (is_Some (Setup.files w !! p))) as [Hf | Hnf].
    + rewrite (bool_decide_eq_true_2 _ Hf). right. eauto.
    + rewrite (bool_decide_eq_false_2 _ Hnf). left. eexists.
      split; [reflexivity |]. simpl.
      split; [reflexivity |].
      split; [apply elem_of_union; left; now apply elem_of_singleton |].
      split; [intros q; rewrite elem_of_union, elem_of_singleton; tauto |].
      split; [contradiction |].
      right. destruct (Setup.files w !! p) eqn:Hl; [| reflexivity].
      destruct Hnf. eauto.
Qed.

(** Both scripts are a directory creation followed by two such steps. *)
Lemma setup_shape (w w' : Setup.tree) :
  Setup.setup w = Ok w' \/ Setup.setup_cv_analyzer w = Ok w' ->
  exists w1 p text,
    Setup.mkdir_exist_ok "uploads" w = Ok w1 /\
    (p = ".env" \/ p = ".env.example") /\
    w' = (let w2 := if Setup.path_exists "job.txt" w1 then w1
                    else Setup.write_text "job.txt" Setup.example_job w1 in
          if Setup.path_exists p w2 then w2 else Setup.write_text p text w2).
Proof.
  unfold Setup.setup, Setup.setup_cv_analyzer.
  destruct (Setup.mkdir_exist_ok "uploads" w) as [w1 | e];
    [| intros [H | H]; discriminate].
  intros [[= <-] | [= <-]]; exists w1; do 2 eexists;
    (split; [reflexivity |]); (split; [| reflexivity]); auto.
Qed.

(** X23: the setup scripts never overwrite or remove anything. Every file
    keeps its content and every directory stays; the only directory that can
    be new is [uploads], and the only files that can be new are [job.txt],
    [.env] and [.env.example], each written only where no file or directory
    of that name existed. *)
Theorem setup_never_overwrites (w w' : Setup.tree) :
  Setup.setup w = Ok w' \/ Setup.setup_cv_analyzer w = Ok w' ->
  (forall p content,
      Setup.files w !! p = Some content -> Setup.files w' !! p = Some content) /\
  (forall p, p ∈ Setup.dirs w' <-> p ∈ Setup.dirs w \/ p = "uploads") /\
  (forall p content,
      Setup.files w' !! p = Some content ->
      Setup.files w !! p = Some content
      \/ (In p ["job.txt"; ".env"; ".env.example"]
          /\ Setup.path_exists p w = false)).
Proof.
  intros H. destruct (setup_shape w w' H) as (w1 & p & text & Hmk & Hp & ->).
  destruct (mkdir_exist_ok_cases "uploads" w)
    as [(w1' & Hmk' & Hfiles & Hin & Hdirs & _ & _) | (e & Hmk' & _)];
    [| congruence].
  rewrite Hmk in Hmk'. injection Hmk' as <-.
  cbv zeta.
  destruct (write_if_absent "job.txt" Setup.example_job w1)
    as (Hd2 & Hkeep2 & Hnew2 & _ & Hex2).
  cbv zeta in Hd2, Hkeep2, Hnew2, Hex2.
  set (w2 := if Setup.path_exists "job.txt" w1 then w1
             else Setup.write_text "job.txt" Setup.example_job w1) in *.
  destruct (write_if_absent p text w2) as (Hd3 & Hkeep3 & Hnew3 & _ & _).
  cbv zeta in Hd3, Hkeep3, Hnew3.
  set (w3 := if Setup.path_exists p w2 then w2
             else Setup.write_text p text w2) in *.
  assert (Hmono : forall q, Setup.path_exists q w1 = false ->
                            q <> "uploads" -> Setup.path_exists q w = false).
  { intros q Hq Hne. unfold Setup.path_exists in *. rewrite Hfiles in Hq.
    apply orb_false_iff in Hq. destruct Hq as (Hq1 & Hq2).
    rewrite Hq1. simpl. apply bool_decide_eq_false in Hq2.
    apply bool_decide_eq_false. intros Hq. apply Hq2, Hdirs. now left. }
  split; [| split].
  - intros q content Hq. apply Hkeep3, Hkeep2. now rewrite Hfiles.
  - intros q. rewrite Hd3, Hd2. apply Hdirs.
  - intros q content Hq.
    destruct (Hnew3 q content Hq) as [Hq3 | (-> & _ & Hex)].
    + destruct (Hnew2 q content Hq3) as [Hq2 | (-> & _ & Hex)].
      * left. now rewrite <- Hfiles.
      * right. split; [simpl; auto |]. apply Hmono; [exact Hex | discriminate].
    + right. split; [destruct Hp as [-> | ->]; simpl; auto |].
      apply Hmono.
      * destruct (Setup.path_exists p w1) eqn:H1; [| reflexivity].
        rewrite (Hex2 p H1) in Hex. discriminate.
      * destruct Hp as [-> | ->]; discriminate.
Qed.

Lemma setup_never_overwrites_witness :
  Setup.setup Cases.used_dir = Ok Cases.used_dir /\
  Setup.files Cases.used_dir !! "job.txt" = Some "Accountant".
Proof.
  assert (H : Setup.setup Cases.used_dir = Ok Cases.used_dir)
    by (vm_compute; reflexivity).
  split; [exact H |].
  apply (proj1 (setup_never_overwrites Cases.used_dir Cases.used_dir
                  (or_introl H)) "job.txt" "Accountant").
  vm_compute; reflexivity.
Defined.

(** After the directory exists and the two steps have run, a second run
    finds everything in place. *)
Lemma run_again (w1 w' : Setup.tree) (p text : string) :
  "uploads" ∈ Setup.dirs w1 ->
  w' = (let w2 := if Setup.path_exists "job.txt" w1 then w1
                  else Setup.write_text "job.txt" Setup.example_job w1 in
        if Setup.path_exists p w2 then w2 else Setup.write_text p text w2) ->
  Setup.mkdir_exist_ok "uploads" w' = Ok w' /\
  Setup.path_exists "job.txt" w' = true /\
  Setup.path_exists p w' = true.
Proof.
  intros Hin ->. cbv zeta.
  destruct (write_if_absent "job.txt" Setup.example_job w1)
    as (Hd2 & _ & _ & Hjob & _).
  cbv zeta in Hd2, Hjob.
  set (w2 := if Setup.path_exists "job.txt" w1 then w1
             else Setup.write_text "job.txt" Setup.example_job w1) in *.
  destruct (write_if_absent p text w2) as (Hd3 & _ & _ & Hp & Hex3).
  cbv zeta in Hd3, Hp, Hex3.
  set (w3 := if Setup.path_exists p w2 then w2
             else Setup.write_text p text w2) in *.
  split; [| split; [now apply Hex3 | exact Hp]].
  unfold Setup.mkdir_exist_ok.
  rewrite (bool_decide_eq_true_2 ("uploads" ∈ Setup.dirs w3)); [reflexivity |].
  now rewrite Hd3, Hd2.
Qed.

(** X24: the setup scripts fail exactly when [uploads] is a regular file,
    and running one a second time changes nothing. *)
Theorem setup_is_idempotent (w : Setup.tree) :
  ((exists w', Setup.setup w = Ok w') <->
   ~ (is_Some (Setup.files w !! "uploads") /\ "uploads" ∉ Setup.dirs w)) /\
  ((exists w', Setup.setup_cv_analyzer w = Ok w') <->
   ~ (is_Some (Setup.files w !! "uploads") /\ "uploads" ∉ Setup.dirs w)) /\
  (forall w', Setup.setup w = Ok w' -> Setup.setup w' = Ok w') /\
  (forall w', Setup.setup_cv_analyzer w = Ok w' ->
              Setup.setup_cv_analyzer w' = Ok w').
Proof.
  assert (Hfail :
            (exists w1, Setup.mkdir_exist_ok "uploads" w = Ok w1) <->
            ~ (is_Some (Setup.files w !! "uploads")
               /\ "uploads" ∉ Setup.dirs w)).
  { destruct (mkdir_exist_ok_cases "uploads" w)
      as [(w1 & Hmk & _ & _ & _ & _ & Hfree) | (e & Hmk & Hf & Hd)].
    - split; [| eauto]. intros _ (Hf & Hd).
      destruct Hfree as [Hin | Hnone]; [contradiction |].
      rewrite Hnone in Hf. now destruct Hf.
    - split; [intros (w1 & H1); congruence | intros Hn; now destruct Hn]. }
  split; [| split; [| split]].
  - rewrite <- Hfail. unfold Setup.setup.
    destruct (Setup.mkdir_exist_ok "uploads" w) as [w1 | e];
      split; intros (w' & H); eauto; discriminate.
  - rewrite <- Hfail. unfold Setup.setup_cv_analyzer.
    destruct (Setup.mkdir_exist_ok "uploads" w) as [w1 | e];
      split; intros (w' & H); eauto; discriminate.
  - intros w' H. unfold Setup.setup in H.
    destruct (mkdir_exist_ok_cases "uploads" w)
      as [(w1 & Hmk & _ & Hin & _) | (e & Hmk & _)];
      rewrite Hmk in H; [| discriminate].
    injection H as H.
    destruct (run_again w1 w' ".env" _ Hin (eq_sym H)) as (H1 & H2 & H3).
    unfold Setup.setup. rewrite H1. cbv zeta. now rewrite H2, H3.
  - intros w' H. unfold Setup.setup_cv_analyzer in H.
    destruct (mkdir_exist_ok_cases "uploads" w)
      as [(w1 & Hmk & _ & Hin & _) | (e & Hmk & _)];
      rewrite Hmk in H; [| discriminate].
    injection H as H.
    destruct (run_again w1 w' ".env.example" _ Hin (eq_sym H))
      as (H1 & H2 & H3).
    unfold Setup.setup_cv_analyzer. rewrite H1. cbv zeta. now rewrite H2, H3.
Qed.

(** X25: the two scripts fit the analyzer. In a directory without a
    [job.txt], after either script has run, [load_job_description] of
    [cv_analyzer.py] accepts the file the script wrote: it returns the example
    text, reports no fault and does not exit. *)
Theorem job_description_of_the_setup_is_accepted
    (w w' : Setup.tree) (E : env) (st : state) :
  Setup.setup w = Ok w' \/ Setup.setup_cv_analyzer w = Ok w' ->
  Setup.path_exists "job.txt" w = false ->
  job_txt E = Setup.files w' !! "job.txt" ->
  load_job_description E st = (Ret Setup.example_job, st).
Proof.
  intros H Habsent HE.
  destruct (setup_shape w w' H) as (w1 & p & text & Hmk & Hp & ->).
  destruct (mkdir_exist_ok_cases "uploads" w)
    as [(w1' & Hmk' & Hfiles & _ & Hdirs & _ & _) | (e & Hmk' & _)];
    [| congruence].
  rewrite Hmk in Hmk'. injection Hmk' as <-.
  assert (H1 : Setup.path_exists "job.txt" w1 = false).
  { unfold Setup.path_exists in *. rewrite Hfiles.
    apply orb_false_iff in Habsent. destruct Habsent as (Ha & Hb).
    rewrite Ha. simpl. apply bool_decide_eq_false in Hb.
    apply bool_decide_eq_false. intros Hin. apply Hdirs in Hin.
    destruct Hin as [Hin | Hin]; [contradiction | discriminate]. }
  cbv zeta in HE. rewrite H1 in HE.
  assert (Hjob : job_txt E = Some Setup.example_job).
  { rewrite HE.
    destruct (Setup.path_exists p _).
    - unfold Setup.write_text. simpl. apply lookup_insert_eq.
    - unfold Setup.write_text. simpl. rewrite lookup_insert_ne.
      + apply lookup_insert_eq.
      + destruct Hp as [-> | ->]; discriminate. }
  unfold load_job_description. rewrite Hjob.
  assert (Hstrip : Text.strip Setup.example_job = Setup.example_job)
    by (vm_compute; reflexivity).
  assert (Hlen : (Text.len Setup.example_job <? 100) = false)
    by (vm_compute; reflexivity).
  cbv zeta. rewrite Hstrip, Hlen. reflexivity.
Qed.

Lemma job_description_of_the_setup_is_accepted_witness :
  Setup.setup Cases.empty_dir = Ok Cases.prepared /\
  load_job_description Cases.prepared_world (start None)
  = (Ret Setup.example_job, start None).
Proof.
  assert (H : Setup.setup Cases.empty_dir = Ok Cases.prepared)
    by (vm_compute; reflexivity).
  split; [exact H |].
  apply (job_description_of_the_setup_is_accepted
           Cases.empty_dir Cases.prepared Cases.prepared_world (start None)
           (or_introl H)).
  - vm_compute; reflexivity.
  - reflexivity.
Defined.

(** ** Documents without text *)

Lemma lstrip_head (s t : string) (a : ascii) :
  Text.lstrip s = String a t -> Text.is_space a = false.
Proof.
  induction s as [| c s IH]; simpl; [discriminate |].
  destruct (Text.is_space c) eqn:Hc; [exact IH |].
  intros [= <- _]. exact Hc.
Qed.

Lemma rstrip_blank_head (a : ascii) (t : string) :
  Text.rstrip (String a t) = "" -> Text.is_space a = true.
Proof.
  simpl. destruct (Text.rstrip t); [| discriminate].
  destruct (Text.is_space a); [reflexivity | discriminate].
Qed.

Lemma strip_blank_iff (s : string) :
  Text.strip s = "" <-> Text.lstrip s = "".
Proof.
  unfold Text.strip. split; [| now intros ->].
  destruct (Text.lstrip s) as [| a t] eqn:Hl; [reflexivity |].
  intros Hr. apply rstrip_blank_head in Hr.
  apply lstrip_head in Hl. congruence.
Qed.

Lemma lstrip_app_blank (a b : string) :
  Text.lstrip a = "" -> Text.lstrip (a ++ b) = Text.lstrip b.
Proof.
  induction a as [| c a IH]; [reflexivity |].
  rewrite app_cons. simpl.
  destruct (Text.is_space c); [exact IH | discriminate].
Qed.

Lemma joined_text_blank (parts : list string) :
  Forall (fun part => Text.strip part = "") parts ->
  Service.joined_text parts = "".
Proof.
  intros Hparts. unfold Service.joined_text. apply strip_blank_iff.
  assert (Hfold : forall acc,
             Text.lstrip acc = "" ->
             Text.lstrip
               (fold_left (fun text part => text ++ part ++ Service.newline)
                          parts acc) = "").
  { induction Hparts as [| part parts Hpart _ IH]; intros acc Hacc; simpl.
    - exact Hacc.
    - apply IH. apply strip_blank_iff in Hpart.
      now rewrite (lstrip_app_blank _ _ Hacc), (lstrip_app_blank _ _ Hpart). }
  now apply Hfold.
Qed.

(** X26: a document from which the library extracts only white space (a
    scanned PDF, a file without pages or paragraphs) is refused with status
    400 and the model is never asked. *)
Theorem document_without_text_is_refused
    (C : Service.collab) (r : Service.CVAnalysisRequest)
    (data : string) (parts : list string) :
  Service.b64decode C (Service.file_data r) = Ok data ->
  (Text.lower (Service.file_type r) = "application/pdf"
   /\ Service.pdf_pages C data = Ok parts)
  \/ (In (Text.lower (Service.file_type r)) Service.docx_types
      /\ Service.docx_paragraphs C data = Ok parts) ->
  Forall (fun part => Text.strip part = "") parts ->
  Service.analyze_cv C r
  = Service.HTTPException 400 "No text could be extracted from the file" /\
  forall C',
    Service.b64decode C' = Service.b64decode C ->
    Service.pdf_pages C' = Service.pdf_pages C ->
    Service.docx_paragraphs C' = Service.docx_paragraphs C ->
    Service.analyze_cv C' r = Service.analyze_cv C r.
Proof.
  intros Hb Hkind Hblank.
  assert (Hx : Service.extract C r data = Service.Respond "").
  { unfold Service.extract, Service.extract_text_from_pdf,
      Service.extract_text_from_docx.
    destruct Hkind as [(-> & ->) | (Hin & Hd)].
    - simpl. now rewrite (joined_text_blank _ Hblank).
    - rewrite Hd, (joined_text_blank _ Hblank).
      simpl in Hin. destruct Hin as [<- | [<- | []]]; reflexivity. }
  assert (Hrun : forall C0,
             Service.b64decode C0 = Service.b64decode C ->
             Service.pdf_pages C0 = Service.pdf_pages C ->
             Service.docx_paragraphs C0 = Service.docx_paragraphs C ->
             Service.analyze_cv C0 r
             = Service.HTTPException 400
                 "No text could be extracted from the file").
  { intros C0 Hb0 Hp0 Hd0. unfold Service.analyze_cv.
    rewrite Hb0, Hb, (extract_ext C C0 r data Hp0 Hd0), Hx. reflexivity. }
  split; [now apply Hrun |].
  intros C' Hb' Hp' Hd'.
  rewrite (Hrun C' Hb' Hp' Hd'). symmetry. now apply Hrun.
Qed.

Lemma document_without_text_is_refused_witness :
  Service.analyze_cv Cases.scanned Cases.pdf_request
  = Service.HTTPException 400 "No text could be extracted from the file".
Proof.
  assert (Hblank : Forall (fun part => Text.strip part = "") [""; "  "])
    by (repeat constructor).
  exact (proj1 (document_without_text_is_refused
                  Cases.scanned Cases.pdf_request "JVBERi0x" [""; "  "]
                  eq_refl (or_introl (conj eq_refl eq_refl)) Hblank)).
Defined.

(** ** The console summary *)

Lemma bands_of_descending (l : list ResultRecord) :
  descending l ->
  (high_scores l ++ medium_scores l ++ low_scores l)%list = l.
Proof.
  unfold descending, high_scores, medium_scores, low_scores.
  induction 1 as [| a l Hl IH Ha]; [reflexivity |].
  cbn [List.filter].
  destruct (Z.leb_spec 70 (score_key a)) as [Hhigh | Hhigh].
  - destruct (Z.leb_spec 50 (score_key a)); [| lia].
    destruct (Z.ltb_spec (score_key a) 70); [lia |].
    destruct (Z.ltb_spec (score_key a) 50); [lia |].
    cbn [andb]. simpl. now rewrite IH.
  - assert (Hnone : List.filter (fun r => 70 <=? score_key r) l = []).
    { apply filter_none. eapply List.Forall_impl; [| exact Ha].
      intros b Hb. simpl in Hb.
      destruct (Z.leb_spec 70 (score_key b)); [lia | reflexivity]. }
    rewrite Hnone in *. simpl in IH |- *.
    destruct (Z.ltb_spec (score_key a) 70); [| lia].
    destruct (Z.leb_spec 50 (score_key a)) as [Hmed | Hlow]; cbn [andb].
    + destruct (Z.ltb_spec (score_key a) 50); [lia |].
      simpl. now rewrite IH.
    + destruct (Z.ltb_spec (score_key a) 50); [| lia].
      assert (Hnone' :
                List.filter
                  (fun r => (50 <=? score_key r) && (score_key r <? 70)) l = []).
      { apply filter_none. eapply List.Forall_impl; [| exact Ha].
        intros b Hb. simpl in Hb.
        destruct (Z.leb_spec 50 (score_key b)); [lia | reflexivity]. }
      rewrite Hnone' in *. simpl in IH |- *. now rewrite IH.
Qed.

Lemma descending_last (l : list ResultRecord) (worst : ResultRecord) :
  descending l -> hd_error (rev l) = Some worst ->
  In worst l /\ forall r, In r l -> score_key worst <= score_key r.
Proof.
  unfold descending.
  induction 1 as [| a l Hl IH Ha]; simpl; [discriminate |].
  destruct (rev l) as [| b l'] eqn:Hrev.
  - simpl. intros [= <-].
    assert (l = []) as ->.
    { apply (f_equal (@rev _)) in Hrev. now rewrite rev_involutive in Hrev. }
    split; [now left |]. intros r [<- | []]. lia.
  - simpl. intros [= <-].
    destruct (IH eq_refl) as (Hin & Hmin).
    split; [now right |].
    intros r [<- | Hr]; [| now apply Hmin].
    rewrite List.Forall_forall in Ha. now apply Ha.
Qed.

(** X27: the console summary is consistent with the report. The ranked
    successes are the high band (70 and more) followed by the medium band
    (50 to 69) followed by the low band (under 50), so the three counts add
    up to the number of successes; the "best candidate" is a success of
    highest score, and the lower end of the "score range" is the lowest score
    among the successes. *)
Theorem summary_is_consistent_with_the_ranking (results : list ResultRecord) :
  let successful := sort_desc (List.filter is_success results) in
  (high_scores successful ++ medium_scores successful ++ low_scores successful)%list
  = successful /\
  (List.length (high_scores successful) + List.length (medium_scores successful)
   + List.length (low_scores successful))%nat
  = List.length (List.filter is_success results) /\
  (forall best,
      hd_error successful = Some best ->
      In best results /\ is_success best = true /\
      forall r, In r results -> is_success r = true ->
                score_key r <= score_key best) /\
  (forall worst,
      hd_error (rev successful) = Some worst ->
      In worst results /\ is_success worst = true /\
      forall r, In r results -> is_success r = true ->
                score_key worst <= score_key r).
Proof.
  cbv zeta.
  set (wins := List.filter is_success results).
  pose proof (sort_desc_sorted wins) as Hsorted.
  pose proof (sort_desc_perm wins) as Hperm.
  pose proof (bands_of_descending _ Hsorted) as Hbands.
  assert (Hin : forall r, In r (sort_desc wins)
                          <-> In r results /\ is_success r = true).
  { intros r. rewrite <- (List.filter_In is_success r results). fold wins.
    split; apply Permutation_in;
      [exact Hperm | apply Permutation_sym; exact Hperm]. }
  split; [exact Hbands |]. split; [| split].
  - rewrite <- (Permutation_length Hperm). rewrite <- Hbands at 4.
    rewrite !List.length_app. lia.
  - intros best Hbest.
    destruct (sort_desc wins) as [| b rest] eqn:Hs; [discriminate |].
    injection Hbest as ->.
    assert (Hb : In best results /\ is_success best = true)
      by (apply Hin; now left).
    split; [apply Hb |]. split; [apply Hb |].
    intros r Hr Hw. assert (Hr' : In r (best :: rest)) by now apply Hin.
    unfold descending in Hsorted.
    inversion Hsorted as [| ? ? _ Hall]; subst.
    destruct Hr' as [<- | Hr']; [lia |].
    rewrite List.Forall_forall in Hall. now apply Hall.
  - intros worst Hworst.
    destruct (descending_last _ _ Hsorted Hworst) as (Hw & Hmin).
    apply Hin in Hw. split; [apply Hw |]. split; [apply Hw |].
    intros r Hr Hs. apply Hmin. now apply Hin.
Qed.
